(** * Newsbreak-API: content rendering and publish workflow

    A shallow embedding of the Python sources
      generate_draft.py, make_publish.py, helpers/put_request.py,
      helpers/calculate.py and newsbreak_api.py
    together with the properties of the rendering pipeline and of the
    five-step workflow that the specification states about them.

    Python [str] values are sequences of Unicode code points; they are
    modelled as lists of [N].  Library calls whose implementation is not
    part of the repository ([markdown.markdown], [json.loads], the HTTP
    client, the clock and the random sources) are parameters of the
    model. *)

From Stdlib Require Import List NArith ZArith Bool Lia String Ascii.
From Stdlib Require Decimal DecimalN DecimalZ.
From Stdlib Require Import Floats.
Import ListNotations.

Set Warnings "-register-all".

(* ================================================================== *)
(** * Python strings                                                   *)
(* ================================================================== *)

Module PyStr.

(** A Python [str]: a sequence of code points. *)
Definition pystr := list N.

(** A source literal. *)
Fixpoint lit (s : string) : pystr :=
  match s with
  | EmptyString => []
  | String a s' => N_of_ascii a :: lit s'
  end.

(** The double-quote character, and a quoted attribute [name="value"]
    as the f-strings of the source spell it. *)
Definition dq : pystr := [34%N].
Definition attr (name : string) (value : pystr) : pystr :=
  lit name ++ lit "=" ++ dq ++ value ++ dq.

(** [s.startswith(p)] *)
Fixpoint startswith (p s : pystr) : bool :=
  match p, s with
  | [], _ => true
  | _ :: _, [] => false
  | a :: p', b :: s' => N.eqb a b && startswith p' s'
  end.

(** [s.endswith(p)] *)
Definition endswith (p s : pystr) : bool := startswith (rev p) (rev s).

(** [p in s] *)
Fixpoint contains (p s : pystr) : bool :=
  match s with
  | [] => startswith p []
  | _ :: s' => startswith p s || contains p s'
  end.

(** [s[i:]] and [s[:j]] for non-negative [i], [j]. *)
Definition slice_from (i : nat) (s : pystr) : pystr := skipn i s.
Definition slice_to (j : nat) (s : pystr) : pystr := firstn j s.

(** [s[i:-k]] for non-negative [i] and positive [k]: the characters from
    index [i] up to (excluding) index [len(s) - k]; empty when the two
    bounds cross. *)
Definition slice (i k : nat) (s : pystr) : pystr :=
  firstn (List.length s - k - i) (skipn i s).

(** [str.isspace] on one code point. *)
Definition isspace (c : N) : bool :=
  ((9 <=? c) && (c <=? 13) || (28 <=? c) && (c <=? 32)
   || (c =? 133) || (c =? 160) || (c =? 5760)
   || (8192 <=? c) && (c <=? 8202)
   || (c =? 8232) || (c =? 8233) || (c =? 8239) || (c =? 8287)
   || (c =? 12288))%N.

Fixpoint lstrip (s : pystr) : pystr :=
  match s with
  | c :: s' => if isspace c then lstrip s' else s
  | [] => []
  end.

Definition rstrip (s : pystr) : pystr := rev (lstrip (rev s)).

(** [s.strip()] *)
Definition strip (s : pystr) : pystr := rstrip (lstrip s).

(** [s.lower()] on the ASCII letters.  The case mappings of the other
    code points never produce one of the characters of ["<html"], the only
    text the sources look for in a lowered string, so they are left as
    they are. *)
Definition lower_char (c : N) : N :=
  if ((65 <=? c) && (c <=? 90))%N then (c + 32)%N else c.
Definition lower (s : pystr) : pystr := map lower_char s.

(** Truth value of a string: [bool(s)]. *)
Definition truthy_str (s : pystr) : bool :=
  match s with [] => false | _ => true end.

(** [s == t] *)
Fixpoint eqb (s t : pystr) : bool :=
  match s, t with
  | [], [] => true
  | a :: s', b :: t' => N.eqb a b && eqb s' t'
  | _, _ => false
  end.

(** [str(n)] for an [int]. *)
Definition digit_char (d : N) : N := (48 + d)%N.

Fixpoint str_of_uint (d : Decimal.uint) : pystr :=
  match d with
  | Decimal.Nil => []
  | Decimal.D0 d' => digit_char 0 :: str_of_uint d'
  | Decimal.D1 d' => digit_char 1 :: str_of_uint d'
  | Decimal.D2 d' => digit_char 2 :: str_of_uint d'
  | Decimal.D3 d' => digit_char 3 :: str_of_uint d'
  | Decimal.D4 d' => digit_char 4 :: str_of_uint d'
  | Decimal.D5 d' => digit_char 5 :: str_of_uint d'
  | Decimal.D6 d' => digit_char 6 :: str_of_uint d'
  | Decimal.D7 d' => digit_char 7 :: str_of_uint d'
  | Decimal.D8 d' => digit_char 8 :: str_of_uint d'
  | Decimal.D9 d' => digit_char 9 :: str_of_uint d'
  end.

Definition str_of_int (z : Z) : pystr :=
  match Z.to_int z with
  | Decimal.Pos d => str_of_uint d
  | Decimal.Neg d => lit "-" ++ str_of_uint d
  end.

End PyStr.
Import PyStr.

(* ================================================================== *)
(** * The regular-expression substitution of [wrap_paragraphs]         *)
(* ================================================================== *)

Module Re.

(** The first occurrence of [pat] in [s]: the text before it and the text
    after it. *)
Fixpoint split_first (pat s : pystr) : option (pystr * pystr) :=
  match s with
  | [] => if startswith pat [] then Some ([], []) else None
  | c :: s' =>
      if startswith pat s then Some ([], skipn (List.length pat) s)
      else match split_first pat s' with
           | Some (before, after) => Some (c :: before, after)
           | None => None
           end
  end.

(** [re.sub(opening + '(.*?)' + closing, repl, s, flags=re.DOTALL)] for
    literal delimiters: the scan goes left to right; at a position where
    [opening] starts and a [closing] follows, the lazy group takes the
    text up to the first [closing], the match is replaced by [repl] of
    the group and the scan resumes after the match; any other character
    is copied.  [skip] counts the characters of the current match that
    are still to be passed over. *)
Section Sub.
Variables (opening closing : pystr) (repl : pystr -> pystr).

Fixpoint sub_from (skip : nat) (s : pystr) : pystr :=
    match s with
    | [] => []
    | c :: s' =>
        match skip with
        | S k => sub_from k s'
        | O =>
            if startswith opening s then
              match split_first closing (skipn (List.length opening) s) with
              | Some (inner, _) =>
                  repl inner ++
                  sub_from (List.length opening + List.length inner + List.length closing - 1) s'
              | None => c :: sub_from 0 s'
              end
            else c :: sub_from 0 s'
        end
    end.

Definition sub_delimited (s : pystr) : pystr := sub_from 0 s.
End Sub.

End Re.

(* ================================================================== *)
(** * JSON values, [json.dumps] and a reader for flat objects          *)
(* ================================================================== *)

Module Json.

(** What [json.loads] returns. *)
Inductive jvalue :=
| JNull
| JBool (b : bool)
| JInt (z : Z)
| JFloat (f : float)
| JStr (s : pystr)
| JArr (items : list jvalue)
| JObj (members : list (pystr * jvalue)).

(** [bool(v)] *)
Definition truthy (v : jvalue) : bool :=
  match v with
  | JNull => false
  | JBool b => b
  | JInt z => negb (Z.eqb z 0)
  | JFloat f => negb (PrimFloat.eqb f PrimFloat.zero)
  | JStr s => truthy_str s
  | JArr l => match l with [] => false | _ => true end
  | JObj m => match m with [] => false | _ => true end
  end.

(** [v == 0]: Python compares numbers by value, and [False == 0]. *)
Definition eq_zero (v : jvalue) : bool :=
  match v with
  | JInt z => Z.eqb z 0
  | JBool b => negb b
  | JFloat f => PrimFloat.eqb f PrimFloat.zero
  | _ => false
  end.

(** [v == s] for a string literal [s]. *)
Definition eq_str (v : jvalue) (s : pystr) : bool :=
  match v with
  | JStr t => PyStr.eqb t s
  | _ => false
  end.

(** [d.get(key, default)] and [d[key] = v] on a dict kept in insertion
    order. *)
Fixpoint dict_get (key : pystr) (default : jvalue)
         (d : list (pystr * jvalue)) : jvalue :=
  match d with
  | [] => default
  | (k, v) :: d' => if PyStr.eqb k key then v else dict_get key default d'
  end.

Fixpoint dict_set (key : pystr) (v : jvalue)
         (d : list (pystr * jvalue)) : list (pystr * jvalue) :=
  match d with
  | [] => [(key, v)]
  | (k, w) :: d' =>
      if PyStr.eqb k key then (k, v) :: d' else (k, w) :: dict_set key v d'
  end.

(** ** [json.dumps] on a dict of strings and integers *)

Definition ch (a : ascii) : N := N_of_ascii a.
Definition quote_mark : N := 34%N.
Definition backslash : N := 92%N.

Definition hex_lower (d : N) : N := if (d <? 10)%N then (48 + d)%N else (87 + d)%N.
Definition hex_upper (d : N) : N := if (d <? 10)%N then (48 + d)%N else (55 + d)%N.

(** ['\\u{0:04x}'.format(n)] *)
Definition u_escape (n : N) : pystr :=
  [backslash; ch "u";
   hex_lower (n / 4096 mod 16); hex_lower (n / 256 mod 16);
   hex_lower (n / 16 mod 16); hex_lower (n mod 16)]%N.

(** One character under [ensure_ascii=True]: the short escapes of
    [ESCAPE_DCT], the printable ASCII characters as they are, [\uXXXX]
    for the rest, with a surrogate pair above the basic plane. *)
Definition escape_char (c : N) : pystr :=
  (if c =? quote_mark then [backslash; quote_mark]
   else if c =? backslash then [backslash; backslash]
   else if c =? 8 then [backslash; ch "b"]
   else if c =? 12 then [backslash; ch "f"]
   else if c =? 10 then [backslash; ch "n"]
   else if c =? 13 then [backslash; ch "r"]
   else if c =? 9 then [backslash; ch "t"]
   else if (32 <=? c) && (c <=? 126) then [c]
   else if c <? 65536 then u_escape c
   else u_escape (55296 + ((c - 65536) / 1024) mod 1024)
        ++ u_escape (56320 + (c - 65536) mod 1024))%N.

(** [py_encode_basestring_ascii] *)
Definition encode_basestring_ascii (s : pystr) : pystr :=
  [quote_mark] ++ flat_map escape_char s ++ [quote_mark].

(** The values of [info_dict]. *)
Inductive scalar :=
| SStr (s : pystr)
| SInt (z : Z).

Definition dumps_scalar (v : scalar) : pystr :=
  match v with
  | SStr s => encode_basestring_ascii s
  | SInt z => str_of_int z
  end.

Definition dumps_member (m : pystr * scalar) : pystr :=
  encode_basestring_ascii (fst m) ++ lit ": " ++ dumps_scalar (snd m).

(** [', '.join(parts)] *)
Fixpoint join_comma (parts : list pystr) : pystr :=
  match parts with
  | [] => []
  | [p] => p
  | p :: rest => p ++ lit ", " ++ join_comma rest
  end.

(** [json.dumps(d)] with the default separators. *)
Definition dumps (d : list (pystr * scalar)) : pystr :=
  lit "{" ++ join_comma (map dumps_member d) ++ lit "}".

Definition jvalue_of_scalar (v : scalar) : jvalue :=
  match v with
  | SStr s => JStr s
  | SInt z => JInt z
  end.

(** ** Reading back: the fragment of [json.loads] for one object whose
    members are strings and integers.  Anything else is refused. *)

Definition hexval (c : N) : option N :=
  (if (48 <=? c) && (c <=? 57) then Some (c - 48)
   else if (97 <=? c) && (c <=? 102) then Some (c - 87)
   else if (65 <=? c) && (c <=? 70) then Some (c - 55)
   else None)%N.

Definition hex4_value (a b c d : N) : option N :=
  match hexval a, hexval b, hexval c, hexval d with
  | Some x, Some y, Some z, Some t => Some (x * 4096 + y * 256 + z * 16 + t)%N
  | _, _, _, _ => None
  end.

(** [BACKSLASH] of the decoder. *)
Definition unescape (e : N) : option N :=
  (if e =? quote_mark then Some quote_mark
   else if e =? backslash then Some backslash
   else if e =? ch "/" then Some (ch "/")
   else if e =? ch "b" then Some 8
   else if e =? ch "f" then Some 12
   else if e =? ch "n" then Some 10
   else if e =? ch "r" then Some 13
   else if e =? ch "t" then Some 9
   else None)%N.

Definition prepend {A B} (a : A) (r : option (list A * B)) : option (list A * B) :=
  match r with
  | Some (l, rest) => Some (a :: l, rest)
  | None => None
  end.

(** The body of a string literal after its opening quote: the decoded
    units, each marked when it was written as [\uXXXX], and the text
    after the closing quote.  Control characters are refused
    ([strict=True]). *)
Fixpoint scan_units (s : pystr) : option (list (N * bool) * pystr) :=
  match s with
  | [] => None
  | c :: s' =>
      if (c =? quote_mark)%N then Some ([], s')
      else if (c =? backslash)%N then
        match s' with
        | [] => None
        | e :: s'' =>
            if (e =? ch "u")%N then
              match s'' with
              | a :: b :: c' :: d :: rest =>
                  match hex4_value a b c' d with
                  | Some n => prepend (n, true) (scan_units rest)
                  | None => None
                  end
              | _ => None
              end
            else
              match unescape e with
              | Some x => prepend (x, false) (scan_units s'')
              | None => None
              end
        end
      else if (c <? 32)%N then None
      else prepend (c, false) (scan_units s')
  end.

Definition is_high (n : N) : bool := ((55296 <=? n) && (n <=? 56319))%N.
Definition is_low (n : N) : bool := ((56320 <=? n) && (n <=? 57343))%N.

(** A high surrogate escape directly followed by a low surrogate escape
    is one character. *)
Fixpoint join_surrogates (l : list (N * bool)) : pystr :=
  match l with
  | [] => []
  | (h, e1) :: l' =>
      match l' with
      | (lo, e2) :: rest =>
          if e1 && e2 && is_high h && is_low lo
          then (65536 + ((h - 55296) * 1024 + (lo - 56320)))%N :: join_surrogates rest
          else h :: join_surrogates l'
      | [] => [h]
      end
  end.

Definition scan_string (s : pystr) : option (pystr * pystr) :=
  match scan_units s with
  | Some (units, rest) => Some (join_surrogates units, rest)
  | None => None
  end.

Definition digit_of_char (c : N) : option (Decimal.uint -> Decimal.uint) :=
  (if c =? 48 then Some Decimal.D0 else if c =? 49 then Some Decimal.D1
   else if c =? 50 then Some Decimal.D2 else if c =? 51 then Some Decimal.D3
   else if c =? 52 then Some Decimal.D4 else if c =? 53 then Some Decimal.D5
   else if c =? 54 then Some Decimal.D6 else if c =? 55 then Some Decimal.D7
   else if c =? 56 then Some Decimal.D8 else if c =? 57 then Some Decimal.D9
   else None)%N.

Fixpoint scan_digits (s : pystr) : Decimal.uint * pystr :=
  match s with
  | [] => (Decimal.Nil, [])
  | c :: s' =>
      match digit_of_char c with
      | Some k => let (d, rest) := scan_digits s' in (k d, rest)
      | None => (Decimal.Nil, s)
      end
  end.

(** An integer literal: [0] or a digit string without a leading zero,
    after an optional sign; a fraction or an exponent makes it a float,
    outside the fragment. *)
Definition scan_unsigned (s : pystr) : option (Decimal.uint * pystr) :=
  match scan_digits s with
  | (Decimal.Nil, _) => None
  | (Decimal.D0 (Decimal.Nil) as d, rest) => Some (d, rest)
  | (Decimal.D0 _, _) => None
  | (d, rest) => Some (d, rest)
  end.

Definition starts_fraction (s : pystr) : bool :=
  match s with
  | c :: _ => ((c =? ch ".") || (c =? ch "e") || (c =? ch "E"))%N
  | [] => false
  end.

Definition scan_int (s : pystr) : option (Z * pystr) :=
  match s with
  | [] => None
  | c :: s' =>
      let signed := (c =? ch "-")%N in
      match scan_unsigned (if signed then s' else s) with
      | Some (d, rest) =>
          if starts_fraction rest then None
          else Some (Z.of_int (if signed then Decimal.Neg d else Decimal.Pos d), rest)
      | None => None
      end
  end.

Definition is_json_space (c : N) : bool :=
  ((c =? 32) || (c =? 9) || (c =? 10) || (c =? 13))%N.

Fixpoint skip_ws (s : pystr) : pystr :=
  match s with
  | c :: s' => if is_json_space c then skip_ws s' else s
  | [] => []
  end.

Definition scan_value (s : pystr) : option (jvalue * pystr) :=
  match s with
  | [] => None
  | c :: s' =>
      if (c =? quote_mark)%N then
        match scan_string s' with
        | Some (v, rest) => Some (JStr v, rest)
        | None => None
        end
      else
        match scan_int s with
        | Some (z, rest) => Some (JInt z, rest)
        | None => None
        end
  end.

(** The members of an object, from the opening quote of a key on. *)
Fixpoint scan_members (fuel : nat) (s : pystr) (acc : list (pystr * jvalue))
  : option (list (pystr * jvalue) * pystr) :=
  match fuel with
  | O => None
  | S fuel' =>
      match s with
      | [] => None
      | q :: s1 =>
          if negb (q =? quote_mark)%N then None else
          match scan_string s1 with
          | None => None
          | Some (key, s2) =>
              match skip_ws s2 with
              | [] => None
              | colon :: s3 =>
                  if negb (colon =? ch ":")%N then None else
                  match scan_value (skip_ws s3) with
                  | None => None
                  | Some (v, s4) =>
                      match skip_ws s4 with
                      | [] => None
                      | sep :: s5 =>
                          if (sep =? ch "}")%N then Some (dict_set key v acc, s5)
                          else if (sep =? ch ",")%N
                          then scan_members fuel' (skip_ws s5) (dict_set key v acc)
                          else None
                      end
                  end
              end
          end
      end
  end.

(** The whole text: white space, one object, white space. *)
Definition loads_flat (text : pystr) : option jvalue :=
  match skip_ws text with
  | [] => None
  | c :: s1 =>
      if negb (c =? ch "{")%N then None else
      match skip_ws s1 with
      | [] => None
      | c2 :: s2 =>
          if (c2 =? ch "}")%N then
            match skip_ws s2 with [] => Some (JObj []) | _ => None end
          else
            match scan_members (List.length s1) (c2 :: s2) [] with
            | Some (d, rest) =>
                match skip_ws rest with [] => Some (JObj d) | _ => None end
            | None => None
            end
      end
  end.

End Json.
Import Json.

(* ================================================================== *)
(** * [urllib.parse.quote] and percent-decoding                        *)
(* ================================================================== *)

Module Url.

(** [str.encode('utf-8')] in strict mode: surrogates cannot be encoded. *)
Definition utf8_char (c : N) : option (list N) :=
  (if c <? 128 then Some [c]
   else if c <? 2048 then Some [192 + c / 64; 128 + c mod 64]
   else if c <? 65536 then
     if (55296 <=? c) && (c <=? 57343) then None
     else Some [224 + c / 4096; 128 + (c / 64) mod 64; 128 + c mod 64]
   else if c <? 1114112 then
     Some [240 + c / 262144; 128 + (c / 4096) mod 64;
           128 + (c / 64) mod 64; 128 + c mod 64]
   else None)%N.

Fixpoint utf8_encode (s : pystr) : option (list N) :=
  match s with
  | [] => Some []
  | c :: s' =>
      match utf8_char c, utf8_encode s' with
      | Some b, Some bs => Some (b ++ bs)
      | _, _ => None
      end
  end.

(** The bytes that [quote] leaves alone: the unreserved characters
    [A-Za-z0-9_.-~] and the default [safe='/']. *)
Definition is_safe (b : N) : bool :=
  ((65 <=? b) && (b <=? 90) || (97 <=? b) && (b <=? 122)
   || (48 <=? b) && (b <=? 57)
   || (b =? ch "_") || (b =? ch ".") || (b =? ch "-") || (b =? ch "~")
   || (b =? ch "/"))%N.

Definition quote_byte (b : N) : pystr :=
  if is_safe b then [b]
  else [ch "%"; hex_upper (b / 16); hex_upper (b mod 16)]%N.

Definition quote_from_bytes (bs : list N) : pystr := flat_map quote_byte bs.

(** [urllib.parse.quote(s)]; [None] stands for [UnicodeEncodeError]. *)
Definition quote (s : pystr) : option pystr :=
  match utf8_encode s with
  | Some bs => Some (quote_from_bytes bs)
  | None => None
  end.

(** Percent-decoding ([unquote_to_bytes]): [%XX] with two hexadecimal
    digits is one byte, everything else stands for itself. *)
Fixpoint unquote_to_bytes (s : pystr) : list N :=
  match s with
  | [] => []
  | c :: s' =>
      if (c =? ch "%")%N then
        match s' with
        | h1 :: h2 :: rest =>
            match hexval h1, hexval h2 with
            | Some x, Some y => (16 * x + y)%N :: unquote_to_bytes rest
            | _, _ => c :: unquote_to_bytes s'
            end
        | _ => c :: unquote_to_bytes s'
        end
      else c :: unquote_to_bytes s'
  end.

End Url.
Import Url.

(* ================================================================== *)
(** * Exceptions, requests and the effects of the workflow             *)
(* ================================================================== *)

Module Effects.

(** The exceptions that travel through the sources.  [OtherError] stands
    for the remaining subclasses of [Exception] ([AttributeError],
    [TypeError], [OSError], [UnicodeEncodeError], what a library raises);
    [SystemExit] is not a subclass of [Exception]. *)
Inductive exn :=
| ValueError (msg : pystr)
| PublishError (message : pystr) (status_code : option Z)
               (response_text : option pystr)
| RequestException (msg : pystr)
| OtherError (msg : pystr)
| SystemExit (code : Z).

(** [str(e)] *)
Definition str_exn (e : exn) : pystr :=
  match e with
  | ValueError m | RequestException m | OtherError m => m
  | PublishError m _ _ => m
  | SystemExit c => str_of_int c
  end.

Definition is_Exception (e : exn) : bool :=
  match e with SystemExit _ => false | _ => true end.

Definition is_RequestException (e : exn) : bool :=
  match e with RequestException _ => true | _ => false end.

Inductive result (A : Type) :=
| Ok (a : A)
| Raise (e : exn).
Arguments Ok {A} a.
Arguments Raise {A} e.

(** How a call of [json.loads] ends: with the decoded value, with
    [json.JSONDecodeError], or with another exception ([RecursionError]
    on deeply nested text, [ValueError] on an integer literal of too many
    digits). *)
Inductive decoding :=
| Decoded (v : jvalue)
| JSONDecodeError
| DecodingRaised (e : exn).

(** A decoder that raises nothing but [JSONDecodeError], given by the
    values it returns. *)
Definition decoding_of (r : option jvalue) : decoding :=
  match r with
  | Some v => Decoded v
  | None => JSONDecodeError
  end.

(** The JSON bodies of the two article requests. *)
Record draft_payload := {
  d_title : pystr;
  d_content : pystr;
  d_covers : list pystr;
  d_isEvergreen : bool;
  d_location : pystr;
  d_locationPid : pystr;
  d_mp_tags_manual : list pystr;
  d_editor_version : pystr
}.

Record publish_payload := {
  p_content : pystr;
  p_mp_tags_manual : list pystr;
  p_location : pystr;
  p_locationPid : pystr;
  p_title : pystr;
  p_is_title_rewrited : bool;
  p_is_ai_assisted : bool;
  p_editor_version : pystr;
  p_covers : list pystr
}.

(** The five HTTP requests, by endpoint; the identifier in a path is
    kept as the decoded JSON value it was taken from. *)
Inductive request :=
| POST_draft (payload : draft_payload)
| POST_uploadFile (data_id : jvalue) (image : list N)
| PUT_draft (article_id : jvalue) (title content : pystr)
| POST_nlp_calculate (post_id : Z)
| PUT_publish (data_id : jvalue) (payload : publish_payload).

(** What the HTTP client gives back: a response, or a
    [requests.RequestException]. *)
Inductive http_result :=
| Response (status_code : Z) (text : pystr)
| ConnectionFailed (msg : pystr).

(** The lines a run prints or logs on its way out. *)
Inductive message :=
| FailedToCreateDraft
| NoDataId
| FailedToUploadImage
| NoImageUrl
| ContentFileUnreadable
| ContentFileEmpty
| PutFailedStatus (status : Z)
| SessionExpiredHtml
| ApiError (msg : jvalue)
| ParseFailure
| PutUnexpected (e : pystr)
| NlpSucceeded
| NlpFailed (msg : jvalue)
| PublishingFailed (msg : pystr)
| PublishStatus (status : Z)
| ErrorLine (e : pystr).

(** The state a run threads: the requests issued so far and the lines
    printed so far, oldest first. *)
Record state := { sent : list request; printed : list message }.

Definition start : state := {| sent := []; printed := [] |}.

Definition M (A : Type) : Type := state -> result A * state.

Definition ret {A} (a : A) : M A := fun s => (Ok a, s).

Definition bind {A B} (m : M A) (k : A -> M B) : M B :=
  fun s => match m s with
           | (Ok a, s') => k a s'
           | (Raise e, s') => (Raise e, s')
           end.

Definition raise {A} (e : exn) : M A := fun s => (Raise e, s).

Definition lift {A} (r : result A) : M A := fun s => (r, s).

(** [try: body / except: handler], the handler seeing every exception
    the [except] clauses select. *)
Definition try_except {A} (body : M A) (selects : exn -> bool)
           (handler : exn -> M A) : M A :=
  fun s => match body s with
           | (Raise e, s') => if selects e then handler e s' else (Raise e, s')
           | r => r
           end.

Definition say (m : message) : M unit :=
  fun s => (Ok tt, {| sent := sent s; printed := printed s ++ [m] |}).

Definition sys_exit {A} (code : Z) : M A := raise (SystemExit code).

Section Client.
Variable server : request -> http_result.

  (** One call of [requests.post], [requests.put] or [session.put]. *)
Definition send (r : request) : M (Z * pystr) :=
    fun s =>
      let s' := {| sent := sent s ++ [r]; printed := printed s |} in
      match server r with
      | Response status text => (Ok (status, text), s')
      | ConnectionFailed msg => (Raise (RequestException msg), s')
      end.
End Client.

End Effects.
Import Effects.

Declare Scope py_scope.
Delimit Scope py_scope with py.
Notation "x <- m ;; k" := (bind m (fun x => k))
  (at level 61, m at next level, right associativity) : py_scope.
Notation "m ;;; k" := (bind m (fun _ => k))
  (at level 61, right associativity) : py_scope.

Definition rbind {A B} (r : result A) (k : A -> result B) : result B :=
  match r with
  | Ok a => k a
  | Raise e => Raise e
  end.
Notation "x <~ r ;; k" := (rbind r (fun x => k))
  (at level 61, r at next level, right associativity) : py_scope.

(* ================================================================== *)
(** * The markup shared by the three source files                      *)
(* ================================================================== *)

Module Markup.

Definition nl : pystr := [10%N].

(** [info_dict] of [create_image_block]. *)
Definition info_dict (image_url credit_text : pystr) (width height : Z)
  : list (pystr * scalar) :=
  [ (lit "type", SStr (lit "editor-image-node"));
    (lit "imageUrl", SStr image_url);
    (lit "imageCaption", SStr []);
    (lit "creditText", SStr credit_text);
    (lit "creditUrl", SStr []);
    (lit "imagePlatform", SStr (lit "SELF_UPLOAD"));
    (lit "imageOriginalWidth", SInt width);
    (lit "imageOriginalHeight", SInt height) ].

(** The f-string of [create_image_block], one source line per line. *)
Definition image_block_markup
           (info_str image_url credit_text width height : pystr) : pystr :=
  lit "<figure>"
  ++ lit "<div " ++ attr "data-editornodeinfo" info_str ++ lit ">"
  ++ lit "<div " ++ attr "class" (lit "editor-image-wrap") ++ lit ">"
  ++ lit "<div " ++ attr "class" (lit "editor-image") ++ lit ">"
  ++ lit "<img " ++ attr "class" [] ++ lit " " ++ attr "src" image_url ++ lit " "
  ++ attr "data-image-caption" [] ++ lit " "
  ++ attr "data-credit-text" credit_text ++ lit " "
  ++ attr "data-credit-url" [] ++ lit " "
  ++ attr "data-image-platform" (lit "SELF_UPLOAD") ++ lit " "
  ++ attr "data-image-original-width" width ++ lit " "
  ++ attr "data-image-original-height" height ++ lit ">"
  ++ lit "</div>"
  ++ lit "<span " ++ attr "class" (lit "image-introduction-wrap") ++ lit ">"
  ++ lit "<span " ++ attr "class" (lit "photo-by") ++ lit ">Photo by</span>"
  ++ lit "<span " ++ attr "class" (lit "credit-text") ++ lit ">"
  ++ credit_text ++ lit "</span>"
  ++ lit "</span>"
  ++ lit "</div>"
  ++ lit "</div>"
  ++ lit "</figure>".

(** The decorated paragraph: [repl] of [wrap_paragraphs], the credit
    paragraph of [build_article_json] and [wrap_paragraph] with the
    default alignment. *)
Definition paragraph (inner : pystr) : pystr :=
  lit "<p " ++ attr "class" (lit "NBAIEditor_Theme__paragraph") ++ lit " "
  ++ attr "dir" (lit "ltr") ++ lit " "
  ++ attr "style" (lit "text-align: start;") ++ lit "><span>"
  ++ inner ++ lit "</span></p>".

Definition empty_paragraph : pystr :=
  lit "<p " ++ attr "class" (lit "NBAIEditor_Theme__paragraph") ++ lit "><br></p>".

(** [re.sub(r'<p>(.*?)</p>', repl, html_text, flags=re.DOTALL)] *)
Definition wrap_paragraphs (html_text : pystr) : pystr :=
  Re.sub_delimited (lit "<p>") (lit "</p>") paragraph html_text.

(** The credit lines of both renderers: the rendered credit, stripped of
    white space, loses its first three and last four characters when it
    starts with [<p>] and ends with [</p>]. *)
Definition strip_credit (rendered : pystr) : pystr :=
  let raw := strip rendered in
  if startswith (lit "<p>") raw && endswith (lit "</p>") raw
  then slice 3 4 raw
  else raw.

Definition style_block : pystr :=
  lit "<style style=" ++ dq ++ lit "display: none" ++ dq ++ lit ">"
  ++ lit ".NBAIEditor_Theme__ol1 {padding: 0 0 0 20px !important;margin: 0 0 24px 0 !important;list-style-position: outside !important;}"
  ++ lit ".NBAIEditor_Theme__ol2 {padding: 0 !important;margin: 0 !important;list-style-type: lower-alpha !important;list-style-position: outside !important;}"
  ++ lit "html body.post #content-div .content ol li ol {margin: 0 !important;}"
  ++ lit ".NBAIEditor_Theme__ol3 {padding: 0 !important;margin: 0 !important;list-style-type: lower-roman !important;list-style-position: outside !important;}"
  ++ lit ".NBAIEditor_Theme__ol4 {padding: 0;margin: 0;list-style-type: upper-roman !important;list-style-position: outside !important;}"
  ++ lit ".NBAIEditor_Theme__ol5 {padding: 0;margin: 0;list-style-type: lower-roman !important;list-style-position: outside !important;}"
  ++ lit ".NBAIEditor_Theme__ul {padding: 0 !important;margin: 0 !important;margin-left: 20px !important;list-style-position: outside !important;}"
  ++ lit "@media all and (max-width: 600px) {.NBAIEditor_Theme__ul {margin-left: 14px !important;}}"
  ++ lit ".NBAIEditor_Theme__ul li .NBAIEditor_Theme__ul li .NBAIEditor_Theme__ul li::before {display: none !important;}"
  ++ lit ".NBAIEditor_Theme__ul .NBAIEditor_Theme__ul {list-style-type: circle !important;margin-left: 0 !important;}"
  ++ lit ".NBAIEditor_Theme__ul .NBAIEditor_Theme__ul .NBAIEditor_Theme__ul {list-style-type: square !important;margin-left: 0 !important;}"
  ++ lit "html body.post #content-div .content ul li ul li ul {margin-left: 0 !important;}"
  ++ lit ".ContentEditable__root > ul {margin-bottom: 24px;padding: 0 0 0 20px;}"
  ++ lit ".NBAIEditor_Theme__listItem {margin: 0 !important;padding: 0 !important;}"
  ++ lit ".NBAIEditor_Theme__nestedListItem {list-style-type: none !important;padding: 0 0 0 24px !important;}"
  ++ lit ".NBAIEditor_Theme__nestedListItem:before, .NBAIEditor_Theme__nestedListItem:after {display: none;}"
  ++ lit ".editor-image-wrap {display: flex;flex-direction: column;position: relative;margin: 24px auto 12px;}"
  ++ lit ".editor-image-wrap .editor-image {position: relative;z-index: 1;cursor: pointer;margin-top: 0;}"
  ++ lit ".editor-image-wrap .editor-image img {width: 100%;border-radius: 8px;margin-top: 0;}"
  ++ lit ".editor-image-wrap .image-introduction-wrap {font-size: 14px;line-height: 20px;color: rgba(0, 0, 0, 0.6);margin-top: 12px;user-select: none;}"
  ++ lit ":root[class~=" ++ dq ++ lit "dark" ++ dq ++ lit "] .editor-image-wrap .image-introduction-wrap {color: inherit;}"
  ++ lit ".editor-image-wrap .image-introduction-wrap .image-caption {margin-right: 3px;}"
  ++ lit ".editor-image-wrap .image-introduction-wrap .photo-by {color: rgba(0, 0, 0, 0.3);}"
  ++ lit ":root[class~=" ++ dq ++ lit "dark" ++ dq ++ lit "] .editor-image-wrap .image-introduction-wrap .photo-by {color: rgba(255, 255, 255, .6);}"
  ++ lit ".editor-image-wrap .image-introduction-wrap .credit-text {margin-left: 6px;}"
  ++ lit ".editor-image-wrap .image-introduction-wrap .credit-text a {color: rgba(0, 0, 0, 0.6);position: relative;text-decoration: underline;text-underline-offset: 5px;text-decoration-color: rgba(0, 0, 0, 0.3);}"
  ++ lit ":root[class~=" ++ dq ++ lit "dark" ++ dq ++ lit "] .editor-image-wrap .image-introduction-wrap .credit-text a {color: rgb(47, 128, 237);text-decoration: none;}"
  ++ lit ".editor-image-wrap .image-introduction-wrap .text-on {font-size: 14px;line-height: 20px;color: rgba(0, 0, 0, 0.3);margin-left: 6px;}"
  ++ lit ":root[class~=" ++ dq ++ lit "dark" ++ dq ++ lit "] .editor-image-wrap .image-introduction-wrap .text-on {color: rgba(255, 255, 255, .6);}"
  ++ lit ".editor-image-wrap .image-introduction-wrap .link-unsplash-official {position: relative;margin-left: 6px;color: rgba(0, 0, 0, 0.6);text-decoration: underline;text-underline-offset: 5px;text-decoration-color: rgba(0, 0, 0, 0.3);}"
  ++ lit ":root[class~=" ++ dq ++ lit "dark" ++ dq ++ lit "] .editor-image-wrap .image-introduction-wrap .link-unsplash-official {color: rgb(47, 128, 237);text-decoration: none;}"
  ++ lit ".node-embed-wrap {display: flex;justify-content: center;}"
  ++ lit ".node-embed-wrap .node-embed {position: relative;width: 100%;box-sizing: content-box;}"
  ++ lit ".node-embed-wrap .node-embed .mask {position: absolute;left: 0;right: 0;top: 0;bottom: 0;background-color: #fff;opacity: 0.5;z-index: 1;}"
  ++ lit ".node-embed-wrap .node-embed .btn-edit-delete {position: absolute;top: 38px;right: 32px;cursor: pointer;z-index: 2;}"
  ++ lit ".node-embed-wrap .node-embed:hover {border: 2px solid rgba(36, 81, 255, 0.3);}"
  ++ lit ".node-embed-wrap .node-embed.selected {border: 2px solid rgba(36, 81, 255, 0.6);}"
  ++ lit "#node-article-wrap {display: flex;justify-content: center;align-items: center;border-radius: 11px;border: 1px solid #f2f2f2;padding: 18px 32px;}"
  ++ lit "#node-article-wrap .node-container {width: 100%;}"
  ++ lit "#node-article-wrap .node-container .title {margin: 0;font-size: 20px;color: var(--main-color);font-weight: 600;line-height: 28px;overflow: hidden;text-overflow: ellipsis;display:-webkit-box;-webkit-line-clamp:2;-webkit-box-orient: vertical;}"
  ++ lit "#node-article-wrap .node-container .info {margin: 0;display: flex;justify-content: flex-start;align-items: center;font-size: 14px;color: var(--secondary-color);line-height: 20px;}"
  ++ lit "#node-article-wrap .node-container .info .avatar {margin: 0;width: 20px !important;height: 20px;border-radius: 50%;}"
  ++ lit "#node-article-wrap .node-container .info .media-name {margin-left: 8px;}"
  ++ lit "#node-article-wrap .node-container .info .date {margin-left: 2px;}"
  ++ lit "#node-article-wrap .node-container .thumbnail {margin-top: 16px;width: 100%;border-radius: 8px;}"
  ++ lit "#node-article-wrap.selected {border: 2px solid rgba(36, 81, 255, 0.6);}"
  ++ lit ".embedcard-twitter {position: relative;display: flex;justify-content: center;align-items: center;flex-direction: column;width: 100%;height: 100%;margin: 0 !important;}"
  ++ lit ".embedcard-twitter .loading {position: absolute;left: 50%;top: 50%;transform: translate(-50%, -50%);z-index: 9;}"
  ++ lit ".embedcard-twitter .embed-holder {position: relative;width: 100%;margin: 0 !important;}"
  ++ lit ".embedcard-twitter .embed-holder .twitter-tweet {margin: 0 !important;}"
  ++ lit ".embedcard-youtube {position: relative;display: flex;justify-content: center;align-items: center;flex-direction: column;width: 100%;height: 100%;margin: 0 !important;}"
  ++ lit ".embedcard-youtube .loading {position: absolute;left: 50%;top: 50%;transform: translate(-50%, -50%);z-index: 9;}"
  ++ lit ".embedcard-youtube .embed-holder {position: relative;width: 100%;height: 0;padding-bottom: 56.25%;margin: 0 !important;}"
  ++ lit ".embedcard-youtube .embed-holder .iframe {position: absolute;left: 0;top: 0;width: 100%;height: 100%;}"
  ++ lit ".embedcard-instagram {position: relative;display: flex;justify-content: center;align-items: center;flex-direction: column;width: 100%;height: 100%;margin: 0 !important;}"
  ++ lit ".embedcard-instagram .loading {position: absolute;left: 50%;top: 50%;transform: translate(-50%, -50%);z-index: 9;}"
  ++ lit ".embedcard-instagram .embed-holder {position: relative;width: 100%;margin: 0 !important;}"
  ++ lit ".embedcard-instagram .embed-holder iframe {margin: 0 !important;}"
  ++ lit ".embedcard-facebook {position: relative;display: flex;justify-content: center;align-items: center;flex-direction: column;width: 100%;height: 100%;margin: 0 !important;}"
  ++ lit ".embedcard-facebook .loading {position: absolute;left: 50%;top: 50%;transform: translate(-50%, -50%);z-index: 9;}"
  ++ lit ".embedcard-facebook .embed-holder {position: relative;width: 100%;margin: 0 !important;}"
  ++ lit ".embedcard-facebook .embed-holder iframe {margin: 0 !important;}"
  ++ lit "</style>".

End Markup.
Import Markup.

(** The values a call draws from [uuid.uuid4], [time.time] and
    [random.randint], in the order of the draws. *)
Record draws := {
  uuid_request : pystr;
  uuid_trace : pystr;
  clock : Z;
  randint : Z;
  uuid_marker : pystr
}.

(* ================================================================== *)
(** * generate_draft.py                                                *)
(* ================================================================== *)

Module generate_draft.
Section Lib.
Variable markdown : pystr -> result pystr.
Variable server : request -> http_result.

Definition create_image_block (image_url credit_text : pystr) : result pystr :=
    match quote (dumps (info_dict image_url credit_text 1500 1000)) with
    | Some info_str =>
        Ok (image_block_markup info_str image_url credit_text
                               (lit "1500") (lit "1000"))
    | None => Raise (OtherError (lit "UnicodeEncodeError"))
    end.

Definition wrap_paragraphs := Markup.wrap_paragraphs.

Definition build_article_json
             (title article_credit image_link image_credit article_content : pystr)
    : result draft_payload :=
    (rendered_image_credit <~ markdown image_credit ;;
     let raw_image_credit := strip_credit rendered_image_credit in
     image_block <~ create_image_block image_link raw_image_credit ;;
     html_content <~ markdown article_content ;;
     let html_content := wrap_paragraphs html_content in
     rendered_article_credit <~ markdown article_credit ;;
     let raw_article_credit := strip_credit rendered_article_credit in
     let article_credit_html := paragraph raw_article_credit in
     let combined_content := article_credit_html ++ html_content in
     let final_content := image_block ++ combined_content ++ style_block in
     Ok {| d_title := title;
           d_content := final_content;
           d_covers := if truthy_str image_link then [image_link] else [];
           d_isEvergreen := false;
           d_location := [];
           d_locationPid := [];
           d_mp_tags_manual := [];
           d_editor_version := lit "1.0" |})%py.

Definition unique_suffix (e : draws) : pystr :=
    str_of_int (clock e) ++ lit "-" ++ str_of_int (randint e).

Definition unique_title (title : pystr) (e : draws) : pystr :=
    title ++ lit " [" ++ unique_suffix e ++ lit "]".

Definition unique_content (article_content : pystr) (e : draws) : pystr :=
    article_content ++ nl ++ nl ++ lit "[Draft ID: " ++ uuid_marker e ++ lit "]".

  (** Returns [(status_code, response_text, unique_request_id)]. *)
Definition create_draft
             (title article_credit image_link image_credit article_content : pystr)
             (e : draws) : M (Z * pystr * pystr) :=
    (article_dict <- lift (build_article_json
                             (unique_title title e) article_credit image_link
                             image_credit (unique_content article_content e)) ;;
     response <- send server (POST_draft article_dict) ;;
     ret (fst response, snd response, uuid_request e))%py.
End Lib.
End generate_draft.

(* ================================================================== *)
(** * make_publish.py                                                  *)
(* ================================================================== *)

Module make_publish.
Section Lib.
Variable markdown : pystr -> result pystr.
Variable json_loads : pystr -> option jvalue.
Variable repr_other : jvalue -> pystr.
Variable server : request -> http_result.

  (** [str(v)] as an f-string prints a decoded value; the text of floats,
      lists and dicts is left to [repr_other]. *)
Definition format_value (v : jvalue) : pystr :=
    match v with
    | JStr s => s
    | JInt z => str_of_int z
    | JNull => lit "None"
    | JBool true => lit "True"
    | JBool false => lit "False"
    | _ => repr_other v
    end.

Definition is_html_response (text : pystr) : bool :=
    startswith (lit "<!") (strip text) || contains (lit "<html") (lower text).

Definition session_expired_message : pystr :=
    lit "Received HTML response instead of JSON. Session may have expired.".

  (** Returns [(is_valid, error_message)]. *)
Definition validate_response (status_code : Z) (response_text : pystr)
    : bool * pystr :=
    if negb (status_code =? 200)%Z then
      (false, lit "Request failed with status code: " ++ str_of_int status_code)
    else
      let text := strip response_text in
      if is_html_response text then (false, session_expired_message)
      else
        match json_loads text with
        | Some (JObj d) =>
            if negb (eq_zero (dict_get (lit "code") JNull d)) then
              (false,
               lit "API returned error code: "
               ++ format_value (dict_get (lit "code") JNull d) ++ lit " - "
               ++ format_value (dict_get (lit "message") (JStr (lit "No message")) d))
            else (true, [])
        | Some _ => (true, [])
        | None => (false, lit "Failed to parse response as JSON")
        end.

Definition allowed_locations : list pystr :=
    [lit "Entire U.S"; lit "Cambridge, MA"; lit "Boston, MA";
     lit "Massachusetts State"].

  (** [location in allowed_locations] *)
Definition location_allowed (location : pystr) : bool :=
    existsb (fun l => PyStr.eqb l location) allowed_locations.

Definition invalid_location_message : pystr :=
    lit "Invalid location. Must be one of: " ++ join_comma allowed_locations.

Definition validate_location (location : pystr) : result unit :=
    if negb (location_allowed location)
    then Raise (ValueError invalid_location_message)
    else Ok tt.

Definition create_image_block (image_url credit_text : pystr) : result pystr :=
    match quote (dumps (info_dict image_url credit_text 1500 1000)) with
    | Some info_str =>
        Ok (image_block_markup info_str image_url credit_text
                               (lit "1500") (lit "1000"))
    | None => Raise (OtherError (lit "UnicodeEncodeError"))
    end.

Definition wrap_paragraphs := Markup.wrap_paragraphs.

  (** The inner [try] of [make_publish]: the three Markdown renderings. *)
Definition render_fields (image_credit article_content article_credit : pystr)
    : result (pystr * pystr * pystr) :=
    (rendered_image_credit <~ markdown image_credit ;;
     let raw_image_credit := strip_credit rendered_image_credit in
     html_content <~ markdown article_content ;;
     let html_content := wrap_paragraphs html_content in
     rendered_article_credit <~ markdown article_credit ;;
     let raw_article_credit := strip_credit rendered_article_credit in
     Ok (raw_image_credit, html_content, raw_article_credit))%py.

  (** Returns [(status_code, response_text, unique_request_id)]. *)
Definition make_publish
             (title author_name author_url article_credit image_link
              image_credit article_content : pystr)
             (data_id : jvalue) (location : pystr)
             (is_title_rewrited is_ai_assisted : bool) (e : draws)
    : M (Z * pystr * pystr) :=
    (if negb (truthy_str title && truthy_str author_name
              && truthy_str article_content && truthy data_id)
     then raise (ValueError (lit
       "Required fields missing: title, author_name, article_content, or data_id"))
     else
     lift (validate_location location) ;;;
     try_except
       (fields <- try_except
                    (lift (render_fields image_credit article_content article_credit))
                    is_Exception
                    (fun err => raise (PublishError
                       (lit "Error processing markdown content: " ++ str_exn err)
                       None None)) ;;
        let '(raw_image_credit, html_content, raw_article_credit) := fields in
        image_block <- (if truthy_str image_link
                        then lift (create_image_block image_link raw_image_credit)
                        else ret []) ;;
        let final_content :=
          image_block ++ html_content ++ empty_paragraph ++ style_block in
        let payload :=
          {| p_content := final_content;
             p_mp_tags_manual := [];
             p_location := location;
             p_locationPid := location;
             p_title := title;
             p_is_title_rewrited := is_title_rewrited;
             p_is_ai_assisted := is_ai_assisted;
             p_editor_version := lit "1.0";
             p_covers := if truthy_str image_link then [image_link] else [] |} in
        response <- send server (PUT_publish data_id payload) ;;
        let '(status_code, response_text) := response in
        let '(is_valid, error_message) := validate_response status_code response_text in
        if negb is_valid
        then raise (PublishError error_message (Some status_code) (Some response_text))
        else ret (status_code, response_text, uuid_request e))
       is_Exception
       (fun err =>
          if is_RequestException err
          then raise (PublishError (lit "Network error occurred: " ++ str_exn err)
                                   None None)
          else raise (PublishError (lit "Unexpected error: " ++ str_exn err)
                                   None None)))%py.
End Lib.
End make_publish.

(* ================================================================== *)
(** * helpers/put_request.py                                           *)
(* ================================================================== *)

Module put_request.
Section Lib.
Variable server : request -> http_result.

  (** [width=1500, height=993] are the defaults of the two last
      parameters. *)
Definition default_width : Z := 1500.
Definition default_height : Z := 993.

Definition create_image_block (image_url credit_text : pystr)
             (width height : Z) : result pystr :=
    match quote (dumps (info_dict image_url credit_text width height)) with
    | Some info_str =>
        Ok (image_block_markup info_str image_url credit_text
                               (str_of_int width) (str_of_int height))
    | None => Raise (OtherError (lit "UnicodeEncodeError"))
    end.

Definition wrap_paragraph (text align : pystr) : pystr :=
    lit "<p " ++ attr "class" (lit "NBAIEditor_Theme__paragraph") ++ lit " "
    ++ attr "dir" (lit "ltr") ++ lit " "
    ++ attr "style" (lit "text-align: " ++ align ++ lit ";") ++ lit ">"
    ++ lit "<span>" ++ text ++ lit "</span></p>".

  (** Returns [(status_code, response_text, unique_request_id)]; a
      [RequestException] is logged and raised again. *)
Definition make_put_request (article_id : jvalue) (title content : pystr)
             (e : draws) : M (Z * pystr * pystr) :=
    (response <- send server (PUT_draft article_id title content) ;;
     ret (fst response, snd response, uuid_request e))%py.
End Lib.
End put_request.

(* ================================================================== *)
(** * helpers/upload_image.py                                          *)
(* ================================================================== *)

Module upload_image.
Section Lib.
Variable server : request -> http_result.

  (** [image] is what [open(image_path, "rb")] finds: the bytes of the
      file, or nothing when it cannot be opened. *)
Definition upload_image (image : option (list N)) (data_id : jvalue)
             (e : draws) : M (Z * pystr * pystr) :=
    match image with
    | None => raise (OtherError (lit "FileNotFoundError"))
    | Some bytes =>
        (response <- send server (POST_uploadFile data_id bytes) ;;
         ret (fst response, snd response, uuid_request e))%py
    end.
End Lib.
End upload_image.

(* ================================================================== *)
(** * helpers/calculate.py                                             *)
(* ================================================================== *)

Module calculate.
Section Lib.
Variable json_loads : pystr -> decoding.
Variable server : request -> http_result.

  (** The dict of the [except json.JSONDecodeError] branch. *)
Definition parse_failure_dict : jvalue :=
    JObj [ (lit "code", JInt (-1));
           (lit "status", JStr (lit "error"));
           (lit "message", JStr (lit "Failed to parse JSON response")) ].

  (** Returns [(status_code, response_dict, unique_request_id)]; only
      [json.JSONDecodeError] is caught. *)
Definition calculate_nlp (post_id : Z) (e : draws) : M (Z * jvalue * pystr) :=
    (response <- send server (POST_nlp_calculate post_id) ;;
     response_dict <- match json_loads (snd response) with
                      | Decoded v => ret v
                      | JSONDecodeError => ret parse_failure_dict
                      | DecodingRaised err => raise err
                      end ;;
     ret (fst response, response_dict, uuid_request e))%py.
End Lib.
End calculate.

(* ================================================================== *)
(** * newsbreak_api.py                                                 *)
(* ================================================================== *)

Module newsbreak_api.

Record ArticleConfig := {
  title : pystr;
  author_name : pystr;
  author_url : pystr;
  article_credit : pystr;
  image_link : pystr;
  image_credit : pystr;
  content_file : pystr;
  image_file : pystr
}.

(** What a run finds outside the program: the content file at its two
    reads, the image file, and the draws of the five calls. *)
Record environment := {
  content_read : option pystr;
  content_read_again : option pystr;
  image_read : option (list N);
  draws_draft : draws;
  draws_upload : draws;
  draws_put : draws;
  draws_nlp : draws;
  draws_publish : draws
}.

Section Lib.
Variable markdown : pystr -> result pystr.
  (** [json.loads] as the steps of [main] meet it: [None] is
      [json.JSONDecodeError]. *)
Variable json_loads : pystr -> option jvalue.
Variable repr_other : jvalue -> pystr.
  (** [int(v)] on a decoded value; [None] when it raises [ValueError] or
      [TypeError]. *)
Variable py_int : jvalue -> option Z.
Variable server : request -> http_result.

Definition when (c : bool) (m : M unit) : M unit := if c then m else ret tt.

  (** [v.get(key, default)]: only a dict has the method. *)
Definition get (v : jvalue) (key : pystr) (default : jvalue) : result jvalue :=
    match v with
    | JObj d => Ok (dict_get key default d)
    | _ => Raise (OtherError (lit "AttributeError"))
    end.

  (** Python's [None] is [JNull]. *)
Definition process_json_response (response_text : pystr) : M jvalue :=
    match json_loads response_text with
    | Some (JObj d) =>
        if negb (eq_zero (dict_get (lit "code") JNull d)) then
          (say (ApiError (dict_get (lit "message")
                                   (JStr (lit "No error message")) d)) ;;;
           ret JNull)%py
        else ret (JObj d)
    | Some data => ret data
    | None => (say ParseFailure ;;; ret JNull)%py
    end.

  (** The test of step 3 for an HTML page. *)
Definition looks_like_login_page (put_response : pystr) : bool :=
    contains (lit "<html") (lower put_response)
    || startswith (lit "<!DOCTYPE") (strip put_response).

Definition step_create_draft (config : ArticleConfig) (env : environment)
             (article_content : pystr) : M jvalue :=
    (r <- generate_draft.create_draft markdown server
            (title config) (article_credit config) (image_link config)
            (image_credit config) article_content (draws_draft env) ;;
     let '(status_code, response_text, request_id) := r in
     draft_data <- process_json_response response_text ;;
     when (negb (truthy draft_data)) (say FailedToCreateDraft ;;; sys_exit 1) ;;;
     data_id <- lift (get draft_data (lit "data") JNull) ;;
     when (negb (truthy data_id)) (say NoDataId ;;; sys_exit 1) ;;;
     ret data_id)%py.

Definition step_upload_image (config : ArticleConfig) (env : environment)
             (data_id : jvalue) : M jvalue :=
    (r <- upload_image.upload_image server (image_read env) data_id
            (draws_upload env) ;;
     let '(image_status, image_response, image_request_id) := r in
     image_data <- process_json_response image_response ;;
     when (negb (truthy image_data)) (say FailedToUploadImage ;;; sys_exit 1) ;;;
     image_url <- lift (get image_data (lit "data") JNull) ;;
     when (negb (truthy image_url)) (say NoImageUrl ;;; sys_exit 1) ;;;
     ret image_url)%py.

Definition step_update_content (config : ArticleConfig) (env : environment)
             (article_content : pystr) (data_id : jvalue) : M unit :=
    try_except
      (match content_read_again env with
       | None => (say ContentFileUnreadable ;;; sys_exit 1)%py
       | Some content =>
           (when (negb (truthy_str (strip content)))
                 (say ContentFileEmpty ;;; sys_exit 1) ;;;
            r <- put_request.make_put_request server data_id (title config)
                   article_content (draws_put env) ;;
            let '(put_status, put_response, put_request_id) := r in
            when (negb (put_status =? 200)%Z)
                 (say (PutFailedStatus put_status) ;;; sys_exit 1) ;;;
            when (looks_like_login_page put_response)
                 (say SessionExpiredHtml ;;; sys_exit 1) ;;;
            match json_loads put_response with
            | Some (JObj d) =>
                when (negb (eq_zero (dict_get (lit "code") JNull d)))
                     (say (ApiError (dict_get (lit "message")
                                              (JStr (lit "Unknown error")) d)) ;;;
                      sys_exit 1)
            | Some _ => ret tt
            | None => say ParseFailure ;;; sys_exit 1
            end)%py
       end)
      is_Exception
      (fun err => (say (PutUnexpected (str_exn err)) ;;; sys_exit 1)%py).

Definition step_calculate_nlp (env : environment) (data_id : jvalue) : M unit :=
    (post_id <- match py_int data_id with
                | Some z => ret z
                | None => raise (OtherError (lit "int() failed"))
                end ;;
     r <- calculate.calculate_nlp (fun text => decoding_of (json_loads text))
            server post_id (draws_nlp env) ;;
     let '(nlp_status, nlp_response, nlp_request_id) := r in
     code <- lift (get nlp_response (lit "code") JNull) ;;
     status <- lift (get nlp_response (lit "status") JNull) ;;
     if eq_zero code && eq_str status (lit "success")
     then say NlpSucceeded
     else
       (message <- lift (get nlp_response (lit "message")
                             (JStr (lit "Unknown error"))) ;;
        say (NlpFailed message) ;;; sys_exit 1))%py.

  (** [make_publish] is modelled for an image link that is a [str], as
      its annotation says.  [main] hands it the [data] of the upload
      response as it is; here a value of another JSON type raises, and
      what is proved of runs that reach step 5 is stated for upload
      responses whose [data] is a string. *)
Definition as_str (v : jvalue) : result pystr :=
    match v with
    | JStr s => Ok s
    | _ => Raise (OtherError (lit "TypeError"))
    end.

Definition step_publish (config : ArticleConfig) (env : environment)
             (article_content : pystr) (data_id image_url : jvalue) : M unit :=
    try_except
      (uploaded <- lift (as_str image_url) ;;
       r <- make_publish.make_publish markdown json_loads repr_other server
              (title config) (author_name config) (author_url config)
              (article_credit config) uploaded (image_credit config)
              article_content data_id (lit "Entire U.S") false false
              (draws_publish env) ;;
       let '(publish_status, publish_response, publish_request_id) := r in
       say (PublishStatus publish_status))%py
      (fun err => match err with PublishError _ _ _ => true | _ => false end)
      (fun err => (say (PublishingFailed (str_exn err)) ;;; sys_exit 1)%py).

  (** The body of the outer [try] of [main]. *)
Definition steps (config : ArticleConfig) (env : environment)
             (article_content : pystr) : M unit :=
    (data_id <- step_create_draft config env article_content ;;
     image_url <- step_upload_image config env data_id ;;
     step_update_content config env article_content data_id ;;;
     step_calculate_nlp env data_id ;;;
     step_publish config env article_content data_id image_url)%py.

Definition main (config : ArticleConfig) (env : environment) : M unit :=
    match content_read env with
    | None => (say ContentFileUnreadable ;;; sys_exit 1)%py
    | Some article_content =>
        try_except
          (steps config env article_content)
          is_Exception
          (fun err => (say (ErrorLine (str_exn err)) ;;; sys_exit 1)%py)
    end.

  (** The exit status of the process: [0] when [main] returns, the code
      of [sys.exit] otherwise. *)
Definition exit_code (r : result unit) : Z :=
    match r with
    | Ok _ => 0
    | Raise (SystemExit c) => c
    | Raise _ => 1
    end.

Record run := { status : Z; requests : list request; output : list message }.

Definition run_main (config : ArticleConfig) (env : environment) : run :=
    let (r, s) := main config env start in
    {| status := exit_code r; requests := sent s; output := printed s |}.
End Lib.
End newsbreak_api.

(* ================================================================== *)
(** * The vocabulary of the properties                                 *)
(* ================================================================== *)

(** ** HTML as Markdown conversion emits it: text, paragraphs, and block
    elements (block quotes, list items) that hold further blocks. *)

Module Html.

Inductive node :=
| Text (s : pystr)
| Para (inner : pystr)
| Elem (opening closing : pystr) (children : list node).

Definition plain (inner : pystr) : pystr := lit "<p>" ++ inner ++ lit "</p>".

Fixpoint render_with (p : pystr -> pystr) (n : node) : pystr :=
  match n with
  | Text s => s
  | Para inner => p inner
  | Elem o c kids => o ++ flat_map (render_with p) kids ++ c
  end.

(** The document as Markdown conversion returns it, and the same document
    with every paragraph, at any depth, decorated. *)
Definition render (doc : list node) : pystr := flat_map (render_with plain) doc.
Definition render_decorated (doc : list node) : pystr :=
  flat_map (render_with paragraph) doc.

(** The inner markup of the paragraphs, in document order: of all of
    them, and of those that are not inside a block element. *)
Fixpoint paragraphs (n : node) : list pystr :=
  match n with
  | Text _ => []
  | Para inner => [inner]
  | Elem _ _ kids => flat_map paragraphs kids
  end.

Definition all_paragraphs (doc : list node) : list pystr := flat_map paragraphs doc.

Definition top_level_paragraphs (doc : list node) : list pystr :=
  flat_map (fun n => match n with Para inner => [inner] | _ => [] end) doc.

(** The document with only its top-level paragraphs decorated. *)
Definition render_top_decorated (doc : list node) : pystr :=
  flat_map (fun n => match n with
                     | Para inner => paragraph inner
                     | _ => render_with plain n
                     end) doc.

(** [u] begins with [pat], or is a beginning of [pat]. *)
Definition may_begin (pat u : pystr) : bool := startswith u pat || startswith pat u.

(** No [pat] starts inside [s], complete or cut off by the end of [s]. *)
Fixpoint free_of (pat s : pystr) : bool :=
  match s with
  | [] => true
  | _ :: s' => negb (may_begin pat s) && free_of pat s'
  end.

(** Text and tags of block elements hold no [<p>]; the inner markup of
    a paragraph holds no [</p>]. *)
Fixpoint well_formed (n : node) : bool :=
  match n with
  | Text s => free_of (lit "<p>") s
  | Para inner => negb (contains (lit "</p>") inner)
  | Elem o c kids =>
      free_of (lit "<p>") o && free_of (lit "<p>") c && forallb well_formed kids
  end.

(** The number of places of [s] where [pat] starts. *)
Fixpoint count_occurrences (pat s : pystr) : nat :=
  match s with
  | [] => 0
  | _ :: s' => (if startswith pat s then 1 else 0) + count_occurrences pat s'
  end.

(** How every decorated paragraph block begins. *)
Definition decorated_opening : pystr :=
  lit "<p " ++ attr "class" (lit "NBAIEditor_Theme__paragraph") ++ lit " "
  ++ attr "dir" (lit "ltr") ++ lit " "
  ++ attr "style" (lit "text-align: start;") ++ lit "><span>".

(** No decorated block is in the document before it is wrapped. *)
Fixpoint undecorated (n : node) : bool :=
  match n with
  | Text s => free_of decorated_opening s
  | Para inner => free_of decorated_opening inner
  | Elem o c kids =>
      free_of decorated_opening o && free_of decorated_opening c
      && forallb undecorated kids
  end.

End Html.
Import Html.

(** ** Reading the metadata blob back *)

Module Metadata.

(** The value of the attribute [name] of the first tag of [html] that
    carries it. *)
Definition attribute_value (name : string) (html : pystr) : option pystr :=
  match Re.split_first (lit name ++ lit "=" ++ dq) html with
  | Some (_, after) =>
      match Re.split_first dq after with
      | Some (value, _) => Some value
      | None => None
      end
  | None => None
  end.

(** Percent-decoding and JSON-parsing the [data-editornodeinfo] attribute
    of an image block. *)
Definition decoded_metadata (block : result pystr) : option jvalue :=
  match block with
  | Ok html =>
      match attribute_value "data-editornodeinfo" html with
      | Some value => loads_flat (unquote_to_bytes value)
      | None => None
      end
  | Raise _ => None
  end.

Definition metadata (image_url credit_text : pystr) (width height : Z) : jvalue :=
  JObj [ (lit "type", JStr (lit "editor-image-node"));
         (lit "imageUrl", JStr image_url);
         (lit "imageCaption", JStr []);
         (lit "creditText", JStr credit_text);
         (lit "creditUrl", JStr []);
         (lit "imagePlatform", JStr (lit "SELF_UPLOAD"));
         (lit "imageOriginalWidth", JInt width);
         (lit "imageOriginalHeight", JInt height) ].

(** A Python [str]: every code point is below 0x110000; surrogates may
    occur in it. *)
Definition code_point (c : N) : bool := (c <? 1114112)%N.

Definition python_text (s : pystr) : Prop := forallb code_point s = true.

(** No high surrogate of [s] is directly followed by a low surrogate;
    text decoded from UTF-8 holds no surrogate at all. *)
Fixpoint pair_free (s : pystr) : bool :=
  match s with
  | [] => true
  | h :: s' =>
      match s' with
      | lo :: _ => negb (is_high h && is_low lo)
      | [] => true
      end && pair_free s'
  end.

(** [s] with every high surrogate that is directly followed by a low
    surrogate replaced, together with it, by the character of the pair. *)
Fixpoint joined (s : pystr) : pystr :=
  match s with
  | [] => []
  | h :: s' =>
      match s' with
      | lo :: rest =>
          if is_high h && is_low lo
          then (65536 + ((h - 55296) * 1024 + (lo - 56320)))%N :: joined rest
          else h :: joined s'
      | [] => [h]
      end
  end.

(** ** What the reader sees of an encoded string *)

(** The characters [escape_char] writes without [\u]: the short escapes
    and the printable ones. *)
Definition written_plainly (c : N) : bool :=
  ((c =? quote_mark) || (c =? backslash) || (c =? 8) || (c =? 12)
   || (c =? 10) || (c =? 13) || (c =? 9) || (32 <=? c) && (c <=? 126))%N.

(** The units the reader decodes from [escape_char c]. *)
Definition units_of_char (c : N) : list (N * bool) :=
  if written_plainly c then [(c, false)]
  else if (c <? 65536)%N then [(c, true)]
  else [ ((55296 + ((c - 65536) / 1024) mod 1024)%N, true);
         ((56320 + (c - 65536) mod 1024)%N, true) ].

Definition prepend_all {A B} (l : list A) (r : option (list A * B))
  : option (list A * B) :=
  match r with
  | Some (u, rest) => Some (l ++ u, rest)
  | None => None
  end.

(** Text that cannot continue a number: the end, or a character that is
    neither a digit nor the start of a fraction or an exponent. *)
Definition ends_number (rest : pystr) : bool :=
  match rest with
  | [] => true
  | c :: _ =>
      match digit_of_char c with
      | Some _ => false
      | None => negb (starts_fraction rest)
      end
  end.

(** The characters of [str(n)]. *)
Definition number_char (c : N) : bool :=
  ((c =? ch "-") || (48 <=? c) && (c <=? 57))%N.

(** The members [json.dumps] is given: a [str] in the keys and in the
    string values. *)
Definition python_member (m : pystr * scalar) : Prop :=
  python_text (fst m) /\
  match snd m with
  | SStr s => python_text s
  | SInt _ => True
  end.

(** The member as it is read back. *)
Definition read_back (m : pystr * scalar) : pystr * scalar :=
  (joined (fst m),
   match snd m with
   | SStr s => SStr (joined s)
   | SInt z => SInt z
   end).

(** The dict the reader builds from the members in their order. *)
Definition dict_of (d : list (pystr * scalar)) (acc : list (pystr * jvalue))
  : list (pystr * jvalue) :=
  fold_left (fun a m => dict_set (fst m) (jvalue_of_scalar (snd m)) a) d acc.

(** The printable ASCII characters. *)
Definition printable (c : N) : bool := ((32 <=? c) && (c <=? 126))%N.

End Metadata.
Import Metadata.

(** ** The payloads a call puts on the wire *)

Module Wire.

(** The body of the request [create_draft] issues, when it issues one. *)
Definition draft_payload_of (markdown : pystr -> result pystr)
           (server : request -> http_result)
           (title article_credit image_link image_credit article_content : pystr)
           (e : draws) : option draft_payload :=
  match sent (snd (generate_draft.create_draft markdown server title
                     article_credit image_link image_credit article_content
                     e start)) with
  | [POST_draft payload] => Some payload
  | _ => None
  end.

(** The body of the request [make_publish] issues, when it issues one. *)
Definition publish_payload_of (markdown : pystr -> result pystr)
           (json_loads : pystr -> option jvalue) (repr_other : jvalue -> pystr)
           (server : request -> http_result)
           (title author_name author_url article_credit image_link
            image_credit article_content : pystr)
           (data_id : jvalue) (location : pystr)
           (is_title_rewrited is_ai_assisted : bool) (e : draws)
  : option publish_payload :=
  match sent (snd (make_publish.make_publish markdown json_loads repr_other
                     server title author_name author_url article_credit
                     image_link image_credit article_content data_id location
                     is_title_rewrited is_ai_assisted e start)) with
  | [PUT_publish _ payload] => Some payload
  | _ => None
  end.

(** The step of the workflow a request belongs to. *)
Definition stage (r : request) : nat :=
  match r with
  | POST_draft _ => 1
  | POST_uploadFile _ _ => 2
  | PUT_draft _ _ _ => 3
  | POST_nlp_calculate _ => 4
  | PUT_publish _ _ => 5
  end.

(** The envelope of the draft response lets the run go on: it parses as a
    dict whose [code] equals 0 and whose [data] is a non-empty
    identifier. *)
Definition draft_accepted (json_loads : pystr -> option jvalue) (text : pystr)
  : bool :=
  match json_loads text with
  | Some (JObj d) =>
      eq_zero (dict_get (lit "code") JNull d)
      && truthy (dict_get (lit "data") JNull d)
  | _ => false
  end.

(** The body begins, after white space, with a doctype or an [html]
    tag. *)
Definition html_page (text : pystr) : bool :=
  startswith (lit "<!") (lstrip text)
  || startswith (lit "<html") (lower (lstrip text)).

(** The NLP response signals success: [code == 0] and
    [status == "success"] in the dict [calculate_nlp] returns. *)
Definition nlp_accepted (json_loads : pystr -> option jvalue) (text : pystr)
  : bool :=
  match (match json_loads text with
         | Some v => v
         | None => calculate.parse_failure_dict
         end) with
  | JObj d =>
      eq_zero (dict_get (lit "code") JNull d)
      && eq_str (dict_get (lit "status") JNull d) (lit "success")
  | _ => false
  end.

(** Every request a computation issues belongs to step [n]. *)
Definition emits {A} (n : nat) (m : M A) : Prop :=
  forall s r s', m s = (r, s') ->
                 exists l, sent s' = sent s ++ l /\ Forall (fun q => stage q = n) l.

(** A step that ends this way ends the run: [sys.exit(1)], or an
    exception the outer handler of [main] turns into [sys.exit(1)]. *)
Definition aborting (e : exn) : Prop := e = SystemExit 1 \/ is_Exception e = true.

End Wire.
Import Wire.

(** ** Sample collaborators, for concrete runs *)

Module Sample.

(** A renderer that makes one paragraph of its input. *)
Definition markdown (s : pystr) : result pystr := Ok (plain s).

Definition repr_other (v : jvalue) : pystr := lit "<object>".

(** [int(v)] on integers, booleans and decimal strings. *)
Definition py_int (v : jvalue) : option Z :=
  match v with
  | JInt z => Some z
  | JBool b => Some (if b then 1 else 0)%Z
  | JStr s =>
      match scan_int s with
      | Some (z, []) => Some z
      | _ => None
      end
  | _ => None
  end.

Definition envelope_ok : pystr :=
  dumps [ (lit "code", SInt 0); (lit "status", SStr (lit "success"));
          (lit "message", SStr []); (lit "data", SStr (lit "100251263")) ].

Definition envelope_busy : pystr :=
  dumps [ (lit "code", SInt 7); (lit "message", SStr (lit "busy")) ].

Definition login_page : pystr := lit "<!DOCTYPE html><html><body>Sign in</body></html>".

(** A backend that accepts every request. *)
Definition server_ok (r : request) : http_result := Response 200 envelope_ok.

(** A backend whose NLP computation is busy. *)
Definition server_nlp_busy (r : request) : http_result :=
  match r with
  | POST_nlp_calculate _ => Response 200 envelope_busy
  | _ => Response 200 envelope_ok
  end.

(** A backend whose session has expired. *)
Definition server_expired (r : request) : http_result := Response 200 login_page.

Definition no_draws : draws :=
  {| uuid_request := lit "00000000-0000-4000-8000-000000000001";
     uuid_trace := lit "00000000-0000-4000-8000-000000000002";
     clock := 1700000000;
     randint := 1234;
     uuid_marker := lit "00000000-0000-4000-8000-000000000003" |}.

Definition other_marker : draws :=
  {| uuid_request := lit "00000000-0000-4000-8000-000000000004";
     uuid_trace := lit "00000000-0000-4000-8000-000000000005";
     clock := 1700000000;
     randint := 1234;
     uuid_marker := lit "00000000-0000-4000-8000-000000000006" |}.

Definition config : newsbreak_api.ArticleConfig :=
  {| newsbreak_api.title := lit "Test Article";
     newsbreak_api.author_name := lit "Temp author";
     newsbreak_api.author_url := lit "harvard.edu";
     newsbreak_api.article_credit := lit "Staff";
     newsbreak_api.image_link := lit "https://x/img.jpg";
     newsbreak_api.image_credit := lit "testing_credit!";
     newsbreak_api.content_file := lit "./example_article_content.txt";
     newsbreak_api.image_file := lit "./example_image.jpg" |}.

Definition env : newsbreak_api.environment :=
  {| newsbreak_api.content_read := Some (lit "**bold** text");
     newsbreak_api.content_read_again := Some (lit "**bold** text");
     newsbreak_api.image_read := Some [255; 216; 255]%N;
     newsbreak_api.draws_draft := no_draws;
     newsbreak_api.draws_upload := no_draws;
     newsbreak_api.draws_put := no_draws;
     newsbreak_api.draws_nlp := no_draws;
     newsbreak_api.draws_publish := no_draws |}.

(** The block quote that Markdown conversion emits for the body [> x]. *)
Definition quoted_paragraph : list node :=
  [Elem (lit "<blockquote>") (lit "</blockquote>")
        [Text nl; Para (lit "x"); Text nl]].

(** A top-level paragraph followed by a quoted one. *)
Definition two_paragraphs : list node :=
  [Para (lit "<strong>bold</strong> text"); Text nl] ++ quoted_paragraph.

(** What Markdown conversion returns for the credit [a], blank line, [b]. *)
Definition two_paragraph_credit : pystr := lit "<p>a</p>" ++ nl ++ lit "<p>b</p>".

(** An image credit with a quote, an accent and a character outside the
    basic plane. *)
Definition credit_text : pystr := lit "Photo " ++ [34; 233; 128512]%N.

Definition run (server : request -> http_result) : newsbreak_api.run :=
  newsbreak_api.run_main markdown loads_flat repr_other py_int server config env.

End Sample.

(** ** The tests of the five steps *)

Module Verdicts.

(** The characters [quote] writes: the ones it leaves alone and the
    percent sign of an escape. *)
Definition attribute_safe (c : N) : bool := is_safe c || (c =? ch "%")%N.

(** The lines that tell of a failure: all but the two a step prints
    when it went well. *)
Definition failure_line (m : message) : bool :=
  match m with
  | NlpSucceeded | PublishStatus _ => false
  | _ => true
  end.

(** A computation that leaves through [sys.exit] leaves with code 1 and
    with a failure line as the last line printed. *)
Definition reports {A} (m : M A) : Prop :=
  forall s r s' code,
    m s = (r, s') -> r = Raise (SystemExit code) ->
    code = 1%Z
    /\ exists before line,
         printed s' = before ++ [line] /\ failure_line line = true.

Section Run.
Variable markdown : pystr -> result pystr.
Variable json_loads : pystr -> option jvalue.
Variable repr_other : jvalue -> pystr.
Variable py_int : jvalue -> option Z.
Variable server : request -> http_result.

  (** The response to the content update lets the run go on: status 200,
      no HTML page, a body that parses and, if it is a dict, has [code]
      equal to 0. *)
Definition update_accepted (status_code : Z) (text : pystr) : bool :=
    (status_code =? 200)%Z
    && negb (newsbreak_api.looks_like_login_page text)
    && match json_loads text with
       | Some (JObj d) => eq_zero (dict_get (lit "code") JNull d)
       | Some _ => true
       | None => false
       end.

  (** The test the workflow applies to the response to each request. *)
Definition accepted (q : request) (status_code : Z) (text : pystr) : bool :=
    match q with
    | POST_draft _ | POST_uploadFile _ _ => draft_accepted json_loads text
    | PUT_draft _ _ _ => update_accepted status_code text
    | POST_nlp_calculate _ => nlp_accepted json_loads text
    | PUT_publish _ _ =>
        fst (make_publish.validate_response json_loads repr_other
               status_code text)
    end.

  (** The backend answers the request, and with a response that passes
      the test. *)
Definition answered (q : request) : bool :=
    match server q with
    | Response status_code text => accepted q status_code text
    | ConnectionFailed _ => false
    end.

  (** Two backends that answer alike, but for the status codes of their
      responses to the three [POST] requests. *)
Definition alike_but_for_post_status (other : request -> http_result) : Prop :=
    forall q,
      match q with
      | PUT_draft _ _ _ | PUT_publish _ _ => other q = server q
      | _ =>
          match server q, other q with
          | Response _ text, Response _ text' => text' = text
          | ConnectionFailed msg, ConnectionFailed msg' => msg' = msg
          | _, _ => False
          end
      end.

  (** The [data] of the envelope in the response to a request. *)
Definition data_of (q : request) : option jvalue :=
    match server q with
    | Response _ text =>
        match json_loads text with
        | Some (JObj d) => Some (dict_get (lit "data") JNull d)
        | _ => None
        end
    | ConnectionFailed _ => None
    end.

  (** A step that stops the run. *)
Definition stopped {A} (r : result A) : Prop :=
    exists e, r = Raise e /\ aborting e.

Variable config : newsbreak_api.ArticleConfig.
Variable env : newsbreak_api.environment.
Variable content : pystr.

  (** The identifier the response to the draft request of the run
      carries. *)
Definition draft_id (id : jvalue) : Prop :=
    exists p,
      draft_payload_of markdown server (newsbreak_api.title config)
        (newsbreak_api.article_credit config) (newsbreak_api.image_link config)
        (newsbreak_api.image_credit config) content
        (newsbreak_api.draws_draft env) = Some p
      /\ data_of (POST_draft p) = Some id.

  (** Where the parts of a request of the run come from. *)
Definition threaded (q : request) : Prop :=
    match q with
    | POST_draft p =>
        draft_payload_of markdown server (newsbreak_api.title config)
          (newsbreak_api.article_credit config)
          (newsbreak_api.image_link config)
          (newsbreak_api.image_credit config) content
          (newsbreak_api.draws_draft env) = Some p
    | POST_uploadFile id image =>
        draft_id id /\ newsbreak_api.image_read env = Some image
    | PUT_draft id title text =>
        draft_id id /\ title = newsbreak_api.title config /\ text = content
    | POST_nlp_calculate post_id =>
        exists id, draft_id id /\ py_int id = Some post_id
    | PUT_publish id payload =>
        draft_id id
        /\ p_title payload = newsbreak_api.title config
        /\ p_location payload = lit "Entire U.S"
        /\ p_locationPid payload = lit "Entire U.S"
        /\ p_is_title_rewrited payload = false
        /\ p_is_ai_assisted payload = false
        /\ exists image url,
             newsbreak_api.image_read env = Some image
             /\ data_of (POST_uploadFile id image) = Some (JStr url)
             /\ p_covers payload = [url]
    end.
End Run.

End Verdicts.
Import Verdicts.

(** ** Further sample collaborators *)

Module Cases.

(** A renderer that refuses every input. *)
Definition markdown_failing (s : pystr) : result pystr :=
  Raise (OtherError (lit "conversion failed")).

(** A backend that cannot be reached. *)
Definition server_down (r : request) : http_result :=
  ConnectionFailed (lit "connection refused").

(** A backend that accepts every request, but answers the three [POST]
    requests with status 500. *)
Definition server_ok_with_500 (r : request) : http_result :=
  match r with
  | PUT_draft _ _ _ | PUT_publish _ _ => Response 200 Sample.envelope_ok
  | _ => Response 500 Sample.envelope_ok
  end.

(** A renderer that makes a paragraph of the text before the first blank
    line and a paragraph of the text after it. *)
Definition markdown_blocks (s : pystr) : result pystr :=
  match Re.split_first (nl ++ nl) s with
  | Some (first, second) => Ok (plain first ++ nl ++ plain second)
  | None => Ok (plain s)
  end.

(** A decoder with the recursion limit of the interpreter: more than a
    thousand opening brackets at the head of the text exhaust it. *)
Fixpoint nesting (s : pystr) : nat :=
  match s with
  | c :: s' => if (c =? ch "[")%N then S (nesting s') else O
  | [] => O
  end.

Definition loads_within_limit (text : pystr) : decoding :=
  if Nat.ltb 1000 (nesting text)
  then DecodingRaised (OtherError (lit "RecursionError"))
  else decoding_of (loads_flat text).



(** A credit that is a high surrogate followed by a low surrogate. *)
Definition surrogate_credit : pystr := [55357; 56832]%N.

(** The sample environment without its image file. *)
Definition env_without_image : newsbreak_api.environment :=
  {| newsbreak_api.content_read := Some (lit "**bold** text");
     newsbreak_api.content_read_again := Some (lit "**bold** text");
     newsbreak_api.image_read := None;
     newsbreak_api.draws_draft := Sample.no_draws;
     newsbreak_api.draws_upload := Sample.no_draws;
     newsbreak_api.draws_put := Sample.no_draws;
     newsbreak_api.draws_nlp := Sample.no_draws;
     newsbreak_api.draws_publish := Sample.no_draws |}.

End Cases.

(* ================================================================== *)
(** * Strings: prefixes, equality, occurrences                         *)
(* ================================================================== *)

Section StringFacts.

Lemma eqb_eq (s t : pystr) : PyStr.eqb s t = true <-> s = t.
Proof.
  revert t; induction s as [|a s IH]; intros [|b t]; simpl; split;
    try congruence; try reflexivity.
  - intros H. apply andb_true_iff in H as [Hab Hst].
    apply N.eqb_eq in Hab. apply IH in Hst. congruence.
  - intros H. injection H as -> ->. rewrite N.eqb_refl. simpl. now apply IH.
Qed.

Lemma eqb_refl (s : pystr) : PyStr.eqb s s = true.
Proof. now apply eqb_eq. Qed.

Lemma startswith_app (p s : pystr) : startswith p (p ++ s) = true.
Proof.
  induction p as [|a p IH]; simpl; [reflexivity|].
  now rewrite N.eqb_refl.
Qed.

Lemma startswith_long (p a r : pystr) :
  List.length p <= List.length a -> startswith p (a ++ r) = startswith p a.
Proof.
  revert a; induction p as [|x p IH]; intros [|y a] H; simpl in *;
    try reflexivity; try lia.
  rewrite IH by lia. reflexivity.
Qed.

Lemma startswith_length (p s : pystr) :
  startswith p s = true -> List.length p <= List.length s.
Proof.
  revert s; induction p as [|x p IH]; intros [|y s] H; simpl in *;
    try lia; try discriminate.
  apply andb_true_iff in H as [_ H]. apply IH in H. lia.
Qed.

(** A prefix [pat] of [u ++ t] either lies within [u] or continues a
    beginning that [u] ends with. *)
Lemma startswith_may_begin (pat u t : pystr) :
  startswith pat (u ++ t) = true -> may_begin pat u = true.
Proof.
  unfold may_begin. revert u; induction pat as [|x p IH]; intros u H.
  - destruct u; reflexivity.
  - destruct u as [|y u]; simpl in *; [reflexivity|].
    apply andb_true_iff in H as [Hxy H]. apply N.eqb_eq in Hxy. subst y.
    rewrite N.eqb_refl. simpl. now apply IH.
Qed.

Lemma skipn_length_app (p s : pystr) : skipn (List.length p) (p ++ s) = s.
Proof. induction p; simpl; auto. Qed.

End StringFacts.

(* ================================================================== *)
(** * The substitution scan                                            *)
(* ================================================================== *)

Section SubFacts.
Variables (opening closing : pystr) (repl : pystr -> pystr).
  Local Abbreviation scan := (Re.sub_from opening closing repl).

  (** The characters of a match that was just replaced are passed over. *)
Lemma sub_from_skip (a t : pystr) : scan (List.length a) (a ++ t) = scan 0 t.
Proof.
    induction a as [|c a IH]; simpl; [reflexivity|]. exact IH.
Qed.

  (** A match at the head is replaced and the scan resumes behind it. *)
Lemma sub_from_match (inner t : pystr) :
    opening <> [] ->
    Re.split_first closing (inner ++ closing ++ t) = Some (inner, t) ->
    scan 0 (opening ++ inner ++ closing ++ t) = repl inner ++ scan 0 t.
Proof.
    intros Hne Hsplit.
    remember (opening ++ inner ++ closing ++ t) as s eqn:Hs.
    assert (Hsw : startswith opening s = true) by (subst s; apply startswith_app).
    assert (Hsk : skipn (List.length opening) s = inner ++ closing ++ t)
      by (subst s; apply skipn_length_app).
    destruct s as [|c s'].
    { destruct opening; [congruence | discriminate]. }
    assert (Htl : s' = tl opening ++ inner ++ closing ++ t).
    { destruct opening; [congruence|]. simpl in Hs. now injection Hs. }
    assert (Hlen : List.length opening = S (List.length (tl opening))).
    { destruct opening; [congruence | reflexivity]. }
    simpl. rewrite Hsw, Hsk, Hsplit. f_equal.
    rewrite Htl, Hlen.
    replace (S (List.length (tl opening)) + List.length inner
             + List.length closing - 1)
      with (List.length (tl opening ++ inner ++ closing))
      by (rewrite !length_app; lia).
    replace (tl opening ++ inner ++ closing ++ t)
      with ((tl opening ++ inner ++ closing) ++ t)
      by (now rewrite <- !app_assoc).
    apply sub_from_skip.
Qed.

  (** Text in which no opening delimiter starts is copied. *)
Lemma sub_from_free (s t : pystr) :
    free_of opening s = true -> scan 0 (s ++ t) = s ++ scan 0 t.
Proof.
    induction s as [|c s IH]; intros Hfree; [reflexivity|].
    simpl in Hfree. apply andb_true_iff in Hfree as [Hb Hfree].
    apply negb_true_iff in Hb.
    assert (Hsw : startswith opening ((c :: s) ++ t) = false).
    { destruct (startswith opening ((c :: s) ++ t)) eqn:E; [|reflexivity].
      apply startswith_may_begin in E. congruence. }
    simpl app in *. simpl Re.sub_from. rewrite Hsw.
    f_equal. now apply IH.
Qed.
End SubFacts.

(* ================================================================== *)
(** * Paragraph wrapping                                               *)
(* ================================================================== *)

Section Wrapping.

Lemma node_nested_ind (P : node -> Prop) :
  (forall s, P (Text s)) ->
  (forall inner, P (Para inner)) ->
  (forall o c kids, Forall P kids -> P (Elem o c kids)) ->
  forall n, P n.
Proof.
  intros HText HPara HElem. fix IH 1. intros [s|inner|o c kids].
  - apply HText.
  - apply HPara.
  - apply HElem. induction kids as [|k kids IHk]; constructor; auto.
Qed.

(** A closing tag cannot begin in the inner markup and end in the closing
    tag that follows it. *)
Lemma closing_tag_no_straddle (u t : pystr) :
  u <> [] ->
  startswith (lit "</p>") (u ++ lit "</p>" ++ t) = startswith (lit "</p>") u.
Proof.
  intros Hu.
  destruct u as [|a [|b [|c [|d u]]]]; [congruence| | | |reflexivity]; simpl;
    repeat match goal with
           | |- context [N.eqb ?x ?y] => destruct (N.eqb x y); simpl
           end; reflexivity.
Qed.

Lemma split_first_inner (closing inner t : pystr) :
  closing <> [] ->
  (forall u, u <> [] ->
     startswith closing (u ++ closing ++ t) = startswith closing u) ->
  contains closing inner = false ->
  Re.split_first closing (inner ++ closing ++ t) = Some (inner, t).
Proof.
  intros Hne Hstraddle. induction inner as [|c inner IH]; intros Hfree.
  - simpl app. destruct closing as [|x cl] eqn:E; [congruence|].
    rewrite <- E. simpl app. rewrite E at 2. simpl app.
    cbn [Re.split_first].
    change (x :: cl ++ t) with ((x :: cl) ++ t).
    rewrite <- E, startswith_app, skipn_length_app. reflexivity.
  - cbn [contains] in Hfree. apply orb_false_iff in Hfree as [Hhead Htail].
    change ((c :: inner) ++ closing ++ t) with (c :: (inner ++ closing ++ t)).
    cbn [Re.split_first].
    change (c :: (inner ++ closing ++ t)) with ((c :: inner) ++ closing ++ t).
    rewrite Hstraddle by discriminate.
    rewrite Hhead, (IH Htail). reflexivity.
Qed.

Lemma split_first_closing_tag (inner t : pystr) :
  contains (lit "</p>") inner = false ->
  Re.split_first (lit "</p>") (inner ++ lit "</p>" ++ t) = Some (inner, t).
Proof.
  apply split_first_inner; [discriminate|].
  intros u Hu. now apply closing_tag_no_straddle.
Qed.

Local Abbreviation scan := (Re.sub_from (lit "<p>") (lit "</p>") paragraph).

Lemma wrap_node (n : node) :
  well_formed n = true ->
  forall t, scan 0 (render_with plain n ++ t) = render_with paragraph n ++ scan 0 t.
Proof.
  induction n as [s|inner|o c kids IH] using node_nested_ind; intros Hwf t.
  - simpl in *. now apply sub_from_free.
  - simpl in Hwf. apply negb_true_iff in Hwf.
    simpl render_with. unfold plain. rewrite <- !app_assoc.
    apply sub_from_match; [discriminate|].
    now apply split_first_closing_tag.
  - simpl in Hwf. apply andb_true_iff in Hwf as [Hwf Hkids].
    apply andb_true_iff in Hwf as [Ho Hc].
    simpl render_with. rewrite <- !app_assoc.
    rewrite sub_from_free by exact Ho. f_equal.
    assert (Hlist : forall u,
               scan 0 (flat_map (render_with plain) kids ++ u)
               = flat_map (render_with paragraph) kids ++ scan 0 u).
    { induction kids as [|k kids IHk]; intros u; [reflexivity|].
      simpl in Hkids. apply andb_true_iff in Hkids as [Hk Hkids].
      inversion IH as [|? ? Hhead Htail]; subst.
      simpl flat_map. rewrite <- !app_assoc.
      rewrite (Hhead Hk). f_equal. now apply IHk. }
    rewrite Hlist. f_equal. now apply sub_from_free.
Qed.

Lemma wrap_document (doc : list node) :
  forallb well_formed doc = true ->
  Markup.wrap_paragraphs (render doc) = render_decorated doc.
Proof.
  intros Hwf. unfold Markup.wrap_paragraphs, Re.sub_delimited, render, render_decorated.
  assert (H : forall t,
             scan 0 (flat_map (render_with plain) doc ++ t)
             = flat_map (render_with paragraph) doc ++ scan 0 t).
  { induction doc as [|n doc IH]; intros t; [reflexivity|].
    simpl in Hwf. apply andb_true_iff in Hwf as [Hn Hdoc].
    simpl flat_map. rewrite <- !app_assoc.
    rewrite (wrap_node n Hn). f_equal. now apply IH. }
  specialize (H []). rewrite !app_nil_r in H. exact H.
Qed.

(** Counting decorated blocks. *)
Lemma count_free (pat s t : pystr) :
  free_of pat s = true ->
  count_occurrences pat (s ++ t) = count_occurrences pat t.
Proof.
  induction s as [|c s IH]; intros Hfree; [reflexivity|].
  cbn [free_of] in Hfree. apply andb_true_iff in Hfree as [Hb Hfree].
  apply negb_true_iff in Hb.
  change ((c :: s) ++ t) with (c :: (s ++ t)). cbn [count_occurrences].
  change (c :: (s ++ t)) with ((c :: s) ++ t).
  destruct (startswith pat ((c :: s) ++ t)) eqn:E.
  - apply startswith_may_begin in E. congruence.
  - now rewrite IH.
Qed.

Lemma count_paragraph (inner t : pystr) :
  free_of decorated_opening inner = true ->
  count_occurrences decorated_opening (paragraph inner ++ t)
  = S (count_occurrences decorated_opening t).
Proof.
  intros Hinner.
  assert (Hshape : paragraph inner ++ t
                   = decorated_opening ++ inner ++ lit "</span></p>" ++ t).
  { unfold paragraph, decorated_opening. now rewrite <- !app_assoc. }
  rewrite Hshape.
  remember (inner ++ lit "</span></p>" ++ t) as rest eqn:Hrest.
  destruct decorated_opening as [|d ds] eqn:Hd; [discriminate|].
  change ((d :: ds) ++ rest) with (d :: (ds ++ rest)). cbn [count_occurrences].
  change (d :: (ds ++ rest)) with ((d :: ds) ++ rest).
  rewrite startswith_app.
  assert (Hds : free_of (d :: ds) ds = true).
  { injection Hd as <- <-. vm_compute. reflexivity. }
  rewrite (count_free _ _ _ Hds). subst rest.
  rewrite <- Hd in *. rewrite (count_free _ _ _ Hinner).
  rewrite count_free; [reflexivity|].
  rewrite Hd. injection Hd as <- <-. vm_compute. reflexivity.
Qed.

Lemma count_node (n : node) :
  undecorated n = true ->
  forall t, count_occurrences decorated_opening (render_with paragraph n ++ t)
            = List.length (paragraphs n) + count_occurrences decorated_opening t.
Proof.
  induction n as [s|inner|o c kids IH] using node_nested_ind; intros Hun t.
  - simpl in *. now apply count_free.
  - simpl in *. now apply count_paragraph.
  - cbn [undecorated] in Hun. apply andb_true_iff in Hun as [Hun Hkids].
    apply andb_true_iff in Hun as [Ho Hc].
    cbn [render_with paragraphs]. rewrite <- !app_assoc.
    rewrite (count_free _ _ _ Ho).
    assert (Hlist : forall u,
               count_occurrences decorated_opening
                 (flat_map (render_with paragraph) kids ++ u)
               = List.length (flat_map paragraphs kids)
                 + count_occurrences decorated_opening u).
    { induction kids as [|k kids IHk]; intros u; [reflexivity|].
      cbn [forallb] in Hkids. apply andb_true_iff in Hkids as [Hk Hkids].
      inversion IH as [|? ? Hhead Htail]; subst.
      cbn [flat_map]. rewrite <- !app_assoc, length_app.
      rewrite (Hhead Hk), IHk by assumption. lia. }
    rewrite Hlist. now rewrite (count_free _ _ _ Hc).
Qed.

Lemma count_document (doc : list node) :
  forallb undecorated doc = true ->
  count_occurrences decorated_opening (render_decorated doc)
  = List.length (all_paragraphs doc).
Proof.
  intros Hun. unfold render_decorated, all_paragraphs.
  assert (H : forall t,
             count_occurrences decorated_opening
               (flat_map (render_with paragraph) doc ++ t)
             = List.length (flat_map paragraphs doc)
               + count_occurrences decorated_opening t).
  { induction doc as [|n doc IH]; intros t; [reflexivity|].
    cbn [forallb] in Hun. apply andb_true_iff in Hun as [Hn Hdoc].
    cbn [flat_map]. rewrite <- !app_assoc, length_app.
    rewrite (count_node n Hn), IH by assumption. lia. }
  specialize (H []). rewrite app_nil_r in H. simpl in H. lia.
Qed.

End Wrapping.

(** C1, as stated, fails: a document whose only paragraph sits inside a
    block quote has no top-level paragraph, yet [wrap_paragraphs] returns
    it with one decorated block; it is not the document with only the
    top-level paragraphs decorated. *)
Lemma wrap_paragraphs_decorates_nested_paragraph :
  forallb well_formed Sample.quoted_paragraph = true
  /\ List.length (top_level_paragraphs Sample.quoted_paragraph) = 0
  /\ generate_draft.wrap_paragraphs (render Sample.quoted_paragraph)
     = lit "<blockquote>" ++ nl ++ paragraph (lit "x") ++ nl ++ lit "</blockquote>"
  /\ count_occurrences decorated_opening
       (generate_draft.wrap_paragraphs (render Sample.quoted_paragraph)) = 1
  /\ generate_draft.wrap_paragraphs (render Sample.quoted_paragraph)
     <> render_top_decorated Sample.quoted_paragraph.
Proof.
  repeat split; try (vm_compute; reflexivity).
  vm_compute. discriminate.
Qed.

(** C1 (amended): for every HTML document produced by Markdown conversion
    (text without [<p>], paragraphs [<p>inner</p>] whose inner markup
    holds no [</p>], block elements that hold further blocks), both
    copies of [wrap_paragraphs] return the document with every paragraph
    decorated, the nested ones as well as the top-level ones: each block
    holds the inner markup of its paragraph, the blocks stand in the
    original order and the text outside paragraphs is unchanged; when the
    document holds no decorated block to begin with, the result holds
    exactly as many decorated blocks as the document has paragraphs at
    any depth. *)
Theorem wrap_paragraphs_decorates_every_paragraph (doc : list node) :
  forallb well_formed doc = true ->
  generate_draft.wrap_paragraphs (render doc) = render_decorated doc
  /\ make_publish.wrap_paragraphs (render doc) = render_decorated doc
  /\ (forallb undecorated doc = true ->
      count_occurrences decorated_opening
        (generate_draft.wrap_paragraphs (render doc))
      = List.length (all_paragraphs doc)).
Proof.
  intros Hwf. repeat split; try now apply wrap_document.
  intros Hun. unfold generate_draft.wrap_paragraphs.
  rewrite (wrap_document doc Hwf). now apply count_document.
Qed.

Lemma wrap_paragraphs_decorates_every_paragraph_witness :
  forallb well_formed Sample.two_paragraphs = true
  /\ generate_draft.wrap_paragraphs (render Sample.two_paragraphs)
     = render_decorated Sample.two_paragraphs
  /\ count_occurrences decorated_opening
       (generate_draft.wrap_paragraphs (render Sample.two_paragraphs)) = 2.
Proof.
  split; [reflexivity|].
  destruct (wrap_paragraphs_decorates_every_paragraph Sample.two_paragraphs eq_refl)
    as (Hdraft & _ & Hcount).
  split; [exact Hdraft | exact (Hcount eq_refl)].
Defined.

(* ================================================================== *)
(** * Credit stripping                                                 *)
(* ================================================================== *)

(** A credit rendered as one paragraph loses its wrapping tags. *)
Lemma strip_credit_single_paragraph (inner : pystr) :
  strip_credit (plain inner) = inner.
Proof.
  assert (Hrev : rev (plain inner) = lit ">p/<" ++ rev inner ++ lit ">p<").
  { unfold plain. rewrite !rev_app_distr, <- app_assoc. reflexivity. }
  assert (Hstrip : strip (plain inner) = plain inner).
  { unfold strip, rstrip. change (lstrip (plain inner)) with (plain inner).
    rewrite Hrev.
    change (lstrip (lit ">p/<" ++ rev inner ++ lit ">p<"))
      with (lit ">p/<" ++ rev inner ++ lit ">p<").
    now rewrite <- Hrev, rev_involutive. }
  assert (Hends : endswith (lit "</p>") (plain inner) = true).
  { unfold endswith. rewrite Hrev. apply startswith_app. }
  unfold strip_credit. rewrite Hstrip, Hends. unfold plain at 1.
  rewrite startswith_app. cbn [andb].
  unfold slice, plain. rewrite !length_app.
  change (skipn 3 (lit "<p>" ++ inner ++ lit "</p>")) with (inner ++ lit "</p>").
  replace (List.length (lit "<p>") + (List.length inner + List.length (lit "</p>"))
           - 4 - 3) with (List.length inner + 0) by (cbn [lit List.length]; lia).
  now rewrite firstn_app_2, app_nil_r.
Qed.

(** A credit rendered without wrapping tags is embedded as rendered, white
    space at its ends apart. *)
Lemma strip_credit_without_tags (rendered : pystr) :
  startswith (lit "<p>") (strip rendered)
  && endswith (lit "</p>") (strip rendered) = false ->
  strip_credit rendered = strip rendered.
Proof. intros H. unfold strip_credit. now rewrite H. Qed.

(** C2: the renderer strips a rendered credit of two paragraphs as well:
    it loses the opening tag of its first paragraph and the closing tag
    of its last one, and reaches the credit markup unbalanced. *)
Theorem strip_credit_cuts_multi_paragraph_credit :
  strip_credit Sample.two_paragraph_credit = lit "a</p>" ++ nl ++ lit "<p>b"
  /\ strip_credit Sample.two_paragraph_credit <> Sample.two_paragraph_credit.
Proof.
  split; [vm_compute; reflexivity | vm_compute; discriminate].
Qed.

(* ================================================================== *)
(** * The metadata blob: JSON text and percent-encoding                *)
(* ================================================================== *)

Ltac ndiv := zify; Z.to_euclidean_division_equations; lia.

Ltac ncases :=
  repeat match goal with
         | |- context [N.eqb ?x ?y] => destruct (N.eqb_spec x y)
         | |- context [N.leb ?x ?y] => destruct (N.leb_spec x y)
         | |- context [N.ltb ?x ?y] => destruct (N.ltb_spec x y)
         end.

Section HexDigits.

Lemma hexval_hex_lower (d : N) : (d < 16)%N -> hexval (hex_lower d) = Some d.
Proof.
  intros H. unfold hexval, hex_lower.
  destruct (N.ltb_spec d 10); ncases; cbn [andb]; try lia; f_equal; lia.
Qed.

Lemma hexval_hex_upper (d : N) : (d < 16)%N -> hexval (hex_upper d) = Some d.
Proof.
  intros H. unfold hexval, hex_upper.
  destruct (N.ltb_spec d 10); ncases; cbn [andb]; try lia; f_equal; lia.
Qed.

Lemma hex4_value_digits (n : N) :
  (n < 65536)%N ->
  hex4_value (hex_lower (n / 4096 mod 16)) (hex_lower (n / 256 mod 16))
             (hex_lower (n / 16 mod 16)) (hex_lower (n mod 16)) = Some n.
Proof.
  intros H. unfold hex4_value.
  rewrite !hexval_hex_lower by (apply N.mod_lt; discriminate).
  f_equal. ndiv.
Qed.

End HexDigits.

Section StringLiterals.

Lemma scan_units_plain (c : N) (tail : pystr) :
  c <> quote_mark -> c <> backslash -> (32 <= c)%N ->
  scan_units (c :: tail) = prepend (c, false) (scan_units tail).
Proof.
  intros Hq Hb Hc. cbn [scan_units].
  destruct (N.eqb_spec c quote_mark); [contradiction|].
  destruct (N.eqb_spec c backslash); [contradiction|].
  destruct (N.ltb_spec c 32); [lia | reflexivity].
Qed.

Lemma scan_units_short (e x : N) (tail : pystr) :
  e <> ch "u" -> unescape e = Some x ->
  scan_units (backslash :: e :: tail) = prepend (x, false) (scan_units tail).
Proof.
  intros He Hx. cbn [scan_units].
  change (N.eqb backslash quote_mark) with false.
  change (N.eqb backslash backslash) with true. cbn iota.
  destruct (N.eqb_spec e (ch "u")); [contradiction|].
  now rewrite Hx.
Qed.

Lemma scan_units_u (n : N) (tail : pystr) :
  (n < 65536)%N ->
  scan_units (u_escape n ++ tail) = prepend (n, true) (scan_units tail).
Proof.
  intros Hn. unfold u_escape. cbn [app scan_units].
  change (N.eqb backslash quote_mark) with false.
  change (N.eqb backslash backslash) with true.
  change (N.eqb (ch "u") (ch "u")) with true. cbn iota.
  now rewrite hex4_value_digits.
Qed.

Lemma prepend_prepend_all {A B} (a : A) (l : list A) (r : option (list A * B)) :
  prepend a (prepend_all l r) = prepend_all (a :: l) r.
Proof. destruct r as [[u rest]|]; reflexivity. Qed.

Lemma prepend_one {A B} (a : A) (r : option (list A * B)) :
  prepend a r = prepend_all [a] r.
Proof. destruct r as [[u rest]|]; reflexivity. Qed.

Lemma scan_units_escape_char (c : N) (tail : pystr) :
  (c < 1114112)%N ->
  scan_units (escape_char c ++ tail)
  = prepend_all (units_of_char c) (scan_units tail).
Proof.
  intros Hc. unfold escape_char, units_of_char, written_plainly.
  destruct (N.eqb_spec c quote_mark) as [->|Hq].
  { cbn [orb app]. rewrite <- prepend_one. now apply scan_units_short. }
  destruct (N.eqb_spec c backslash) as [->|Hb].
  { cbn [orb app]. rewrite <- prepend_one. now apply scan_units_short. }
  destruct (N.eqb_spec c 8) as [->|H8].
  { cbn [orb app]. rewrite <- prepend_one. now apply scan_units_short. }
  destruct (N.eqb_spec c 12) as [->|H12].
  { cbn [orb app]. rewrite <- prepend_one. now apply scan_units_short. }
  destruct (N.eqb_spec c 10) as [->|H10].
  { cbn [orb app]. rewrite <- prepend_one. now apply scan_units_short. }
  destruct (N.eqb_spec c 13) as [->|H13].
  { cbn [orb app]. rewrite <- prepend_one. now apply scan_units_short. }
  destruct (N.eqb_spec c 9) as [->|H9].
  { cbn [orb app]. rewrite <- prepend_one. now apply scan_units_short. }
  cbn [orb].
  destruct ((32 <=? c) && (c <=? 126))%N eqn:Hp.
  { apply andb_true_iff in Hp as [Hlo _]. apply N.leb_le in Hlo.
    cbn [app]. rewrite <- prepend_one. now apply scan_units_plain. }
  destruct (N.ltb_spec c 65536) as [Hbmp|Hsup].
  { rewrite <- prepend_one. now apply scan_units_u. }
  rewrite <- app_assoc, scan_units_u by ndiv.
  rewrite scan_units_u by ndiv.
  destruct (scan_units tail) as [[u rest]|]; reflexivity.
Qed.

Lemma scan_units_encoded (s tail : pystr) :
  python_text s ->
  scan_units (flat_map escape_char s ++ quote_mark :: tail)
  = Some (flat_map units_of_char s, tail).
Proof.
  unfold python_text. induction s as [|c s IH]; intros Hv.
  - cbn [flat_map app scan_units]. reflexivity.
  - cbn [forallb] in Hv. apply andb_true_iff in Hv as [Hc Hv].
    cbn [flat_map]. rewrite <- app_assoc.
    rewrite scan_units_escape_char.
    + rewrite (IH Hv). reflexivity.
    + now apply N.ltb_lt in Hc.
Qed.

(** A surrogate is written as one [\u] escape. *)
Lemma units_of_surrogate (c : N) :
  is_high c || is_low c = true -> units_of_char c = [(c, true)].
Proof.
  unfold is_high, is_low, units_of_char, written_plainly, quote_mark,
    backslash.
  intros H.
  assert (Hc : (55296 <= c <= 57343)%N).
  { apply orb_true_iff in H as [H|H]; apply andb_true_iff in H as [H1 H2];
      apply N.leb_le in H1, H2; lia. }
  repeat match goal with
         | |- context [N.eqb c ?y] => destruct (N.eqb_spec c y); [lia|]
         end.
  cbn [orb].
  destruct (N.leb_spec 32 c); destruct (N.leb_spec c 126); cbn [andb]; try lia;
    destruct (N.ltb_spec c 65536); try lia; reflexivity.
Qed.

(** The first unit read from a character is a low surrogate escape only
    when the character is a low surrogate. *)
Lemma units_of_char_head (c : N) :
  exists x e rest,
    units_of_char c = (x, e) :: rest /\ e && is_low x = is_low c.
Proof.
  unfold units_of_char.
  destruct (written_plainly c) eqn:Hw.
  - exists c, false, []. split; [reflexivity|]. cbn [andb]. symmetry.
    unfold written_plainly, quote_mark, backslash in Hw. unfold is_low.
    apply andb_false_iff. left. apply N.leb_gt.
    repeat (apply orb_true_iff in Hw as [Hw|Hw]);
      try (apply N.eqb_eq in Hw; subst c; reflexivity).
    apply andb_true_iff in Hw as [_ Hw]. apply N.leb_le in Hw. lia.
  - destruct (N.ltb_spec c 65536) as [Hbmp|Hsup].
    + exists c, true, []. split; reflexivity.
    + eexists _, true, _. split; [reflexivity|]. cbn [andb]. unfold is_low.
      transitivity false; [|symmetry].
      * apply andb_false_iff. left. apply N.leb_gt. ndiv.
      * apply andb_false_iff. right. apply N.leb_gt. lia.
Qed.

(** A character that is no high surrogate is read back as it is, whatever
    follows it. *)
Lemma join_surrogates_single (c : N) (e : bool) (l : list (N * bool)) :
  e && is_high c = false ->
  join_surrogates ((c, e) :: l) = c :: join_surrogates l.
Proof.
  intros H. cbn [join_surrogates]. destruct l as [|[lo e2] rest]; [reflexivity|].
  replace (e && e2 && is_high c && is_low lo) with false; [reflexivity|].
  destruct e, e2; cbn [andb] in *; try reflexivity; now rewrite H.
Qed.

Lemma joined_single (c : N) (s : pystr) :
  is_high c = false -> joined (c :: s) = c :: joined s.
Proof.
  intros H. cbn [joined]. destruct s as [|lo rest]; [reflexivity|].
  now rewrite H.
Qed.

Lemma joined_apart (h lo : N) (s : pystr) :
  is_high h && is_low lo = false ->
  joined (h :: lo :: s) = h :: joined (lo :: s).
Proof.
  intros H.
  change (joined (h :: lo :: s))
    with (if is_high h && is_low lo
          then (65536 + ((h - 55296) * 1024 + (lo - 56320)))%N :: joined s
          else h :: joined (lo :: s)).
  now rewrite H.
Qed.

Lemma joined_pair (h lo : N) (s : pystr) :
  is_high h && is_low lo = true ->
  joined (h :: lo :: s)
  = (65536 + ((h - 55296) * 1024 + (lo - 56320)))%N :: joined s.
Proof. intros H. cbn [joined]. now rewrite H. Qed.

(** The units of a text come back as the text with its surrogate pairs
    joined: the two halves the encoder wrote for one character, and a high
    surrogate of the text itself that a low surrogate follows. *)
Lemma join_surrogates_units (s : pystr) :
  python_text s -> join_surrogates (flat_map units_of_char s) = joined s.
Proof.
  unfold python_text.
  assert (H : forall n s, List.length s <= n ->
                          forallb code_point s = true ->
                          join_surrogates (flat_map units_of_char s) = joined s).
  2:{ apply (H (List.length s)). lia. }
  clear s. induction n as [|n IH]; intros s Hn Hv.
  { destruct s; [reflexivity | cbn in Hn; lia]. }
  destruct s as [|c s]; [reflexivity|].
  cbn [List.length] in Hn. cbn [forallb] in Hv.
  apply andb_true_iff in Hv as [Hc Hv]. unfold code_point in Hc.
  apply N.ltb_lt in Hc. cbn [flat_map].
  destruct (is_high c) eqn:Hh.
  - (* a high surrogate of the text *)
    rewrite units_of_surrogate by (rewrite Hh; reflexivity). cbn [app].
    destruct s as [|c' s]; [reflexivity|].
    cbn [List.length] in Hn. cbn [forallb] in Hv.
    apply andb_true_iff in Hv as [Hc' Hv'].
    destruct (is_low c') eqn:Hl.
    + cbn [flat_map]. rewrite (units_of_surrogate c')
        by (rewrite Hl; apply orb_true_r).
      rewrite joined_pair by (now rewrite Hh, Hl).
      cbn [app join_surrogates]. rewrite Hh, Hl. cbn [andb].
      f_equal. apply IH; [lia | exact Hv'].
    + destruct (units_of_char_head c') as (x & e & rest & Hu & He).
      rewrite Hl in He.
      assert (Hrec : join_surrogates (flat_map units_of_char (c' :: s))
                     = joined (c' :: s)).
      { apply IH; [cbn [List.length]; lia|].
        cbn [forallb]. now rewrite Hc', Hv'. }
      rewrite joined_apart by (rewrite Hl; apply andb_false_r).
      rewrite <- Hrec. cbn [flat_map]. rewrite Hu. cbn [app join_surrogates].
      replace (true && e && is_high c && is_low x) with false; [reflexivity|].
      rewrite Hh. cbn [andb]. destruct e; cbn [andb] in *; congruence.
  - rewrite joined_single by exact Hh.
    assert (Hrec : join_surrogates (flat_map units_of_char s) = joined s)
      by (apply IH; [lia | exact Hv]).
    unfold units_of_char at 1.
    destruct (written_plainly c) eqn:Hw.
    + cbn [app]. rewrite join_surrogates_single by reflexivity.
      now rewrite Hrec.
    + destruct (N.ltb_spec c 65536) as [Hbmp|Hsup].
      * cbn [app]. rewrite join_surrogates_single by (now rewrite Hh).
        now rewrite Hrec.
      * cbn [app join_surrogates]. cbn [andb].
        assert (Hh' : is_high (55296 + ((c - 65536) / 1024) mod 1024) = true).
        { unfold is_high. apply andb_true_iff. split; apply N.leb_le; ndiv. }
        assert (Hl' : is_low (56320 + (c - 65536) mod 1024) = true).
        { unfold is_low. apply andb_true_iff. split; apply N.leb_le; ndiv. }
        rewrite Hh', Hl'. cbn [andb]. rewrite Hrec. f_equal. ndiv.
Qed.

Lemma scan_string_encoded (s tail : pystr) :
  python_text s ->
  scan_string (flat_map escape_char s ++ quote_mark :: tail)
  = Some (joined s, tail).
Proof.
  intros Hv. unfold scan_string.
  now rewrite scan_units_encoded, join_surrogates_units.
Qed.

(** Joining changes nothing exactly where there is no pair to join. *)
Lemma joined_length (s : pystr) :
  List.length (joined s) <= List.length s
  /\ (pair_free s = false -> List.length (joined s) < List.length s).
Proof.
  assert (H : forall n s, List.length s <= n ->
                          List.length (joined s) <= List.length s
                          /\ (pair_free s = false ->
                              List.length (joined s) < List.length s)).
  2:{ apply (H (List.length s)). lia. }
  clear s. induction n as [|n IH]; intros s Hn.
  { destruct s; [cbn; split; [lia | discriminate] | cbn in Hn; lia]. }
  destruct s as [|h s]; [cbn; split; [lia | discriminate]|].
  cbn [List.length] in Hn.
  destruct s as [|lo s].
  { cbn. split; [lia | discriminate]. }
  cbn [List.length] in Hn.
  change (pair_free (h :: lo :: s))
    with (negb (is_high h && is_low lo) && pair_free (lo :: s)).
  destruct (is_high h && is_low lo) eqn:Hp; cbn [negb andb].
  - rewrite joined_pair by exact Hp. cbn [List.length].
    destruct (IH s ltac:(lia)) as [Hle _]. split; [lia | intros _; lia].
  - rewrite joined_apart by exact Hp.
    destruct (IH (lo :: s) ltac:(cbn [List.length]; lia)) as [Hle Hlt].
    cbn [List.length] in *.
    split; [lia|]. intros Hf. specialize (Hlt Hf). lia.
Qed.

Lemma joined_pair_free (s : pystr) : joined s = s <-> pair_free s = true.
Proof.
  split.
  - intros H. destruct (pair_free s) eqn:E; [reflexivity|].
    apply joined_length in E. rewrite H in E. lia.
  - assert (H : forall n s, List.length s <= n ->
                            pair_free s = true -> joined s = s).
    2:{ apply (H (List.length s)). lia. }
    clear s. induction n as [|n IH]; intros s Hn Hf.
    { destruct s; [reflexivity | cbn in Hn; lia]. }
    destruct s as [|h s]; [reflexivity|].
    cbn [List.length] in Hn. destruct s as [|lo s]; [reflexivity|].
    change (pair_free (h :: lo :: s))
      with (negb (is_high h && is_low lo) && pair_free (lo :: s)) in Hf.
    apply andb_true_iff in Hf as [Hp Hf].
    apply negb_true_iff in Hp. rewrite joined_apart by exact Hp.
    f_equal. apply (IH (lo :: s)); [lia | exact Hf].
Qed.

End StringLiterals.

Section Numbers.

Lemma digit_of_digit_char :
  digit_of_char (digit_char 0) = Some Decimal.D0
  /\ digit_of_char (digit_char 1) = Some Decimal.D1
  /\ digit_of_char (digit_char 2) = Some Decimal.D2
  /\ digit_of_char (digit_char 3) = Some Decimal.D3
  /\ digit_of_char (digit_char 4) = Some Decimal.D4
  /\ digit_of_char (digit_char 5) = Some Decimal.D5
  /\ digit_of_char (digit_char 6) = Some Decimal.D6
  /\ digit_of_char (digit_char 7) = Some Decimal.D7
  /\ digit_of_char (digit_char 8) = Some Decimal.D8
  /\ digit_of_char (digit_char 9) = Some Decimal.D9.
Proof. repeat split; reflexivity. Qed.

Lemma scan_digits_str (d : Decimal.uint) (rest : pystr) :
  ends_number rest = true ->
  scan_digits (str_of_uint d ++ rest) = (d, rest).
Proof.
  intros Hrest.
  induction d as [|d IH|d IH|d IH|d IH|d IH|d IH|d IH|d IH|d IH|d IH];
    cbn [str_of_uint app scan_digits];
    try (change (digit_of_char (digit_char 0)) with (Some Decimal.D0);
         change (digit_of_char (digit_char 1)) with (Some Decimal.D1);
         change (digit_of_char (digit_char 2)) with (Some Decimal.D2);
         change (digit_of_char (digit_char 3)) with (Some Decimal.D3);
         change (digit_of_char (digit_char 4)) with (Some Decimal.D4);
         change (digit_of_char (digit_char 5)) with (Some Decimal.D5);
         change (digit_of_char (digit_char 6)) with (Some Decimal.D6);
         change (digit_of_char (digit_char 7)) with (Some Decimal.D7);
         change (digit_of_char (digit_char 8)) with (Some Decimal.D8);
         change (digit_of_char (digit_char 9)) with (Some Decimal.D9);
         cbn iota; now rewrite IH).
  destruct rest as [|c rest]; [reflexivity|].
  cbn [ends_number] in Hrest. cbn [scan_digits].
  destruct (digit_of_char c); [discriminate | reflexivity].
Qed.

Lemma nzhead_not_D0 (d d' : Decimal.uint) : Decimal.nzhead d <> Decimal.D0 d'.
Proof. induction d; cbn; try discriminate. exact IHd. Qed.

Lemma unorm_D0_inv (d d' : Decimal.uint) :
  Decimal.unorm d = Decimal.D0 d' -> d' = Decimal.Nil.
Proof.
  unfold Decimal.unorm. destruct (Decimal.nzhead d) eqn:E; intros H;
    try discriminate.
  - now injection H as <-.
  - exfalso. rewrite <- E in H. now apply nzhead_not_D0 in H.
Qed.

Lemma to_uint_normal (p : positive) :
  Decimal.unorm (Pos.to_uint p) = Pos.to_uint p.
Proof.
  rewrite <- (DecimalPos.Unsigned.to_of (Pos.to_uint p)).
  now rewrite DecimalPos.Unsigned.of_to.
Qed.

Lemma scan_unsigned_pos (p : positive) (rest : pystr) :
  ends_number rest = true ->
  scan_unsigned (str_of_uint (Pos.to_uint p) ++ rest)
  = Some (Pos.to_uint p, rest).
Proof.
  intros Hrest. unfold scan_unsigned. rewrite scan_digits_str by exact Hrest.
  pose proof (DecimalPos.Unsigned.to_uint_nonnil p) as Hnil.
  pose proof (to_uint_normal p) as Hnorm.
  destruct (Pos.to_uint p) as [|d| | | | | | | | | ]; try reflexivity.
  - congruence.
  - apply unorm_D0_inv in Hnorm. now subst d.
Qed.

Lemma str_of_uint_digits (d : Decimal.uint) :
  forallb (fun c => (48 <=? c) && (c <=? 57))%N (str_of_uint d) = true.
Proof. induction d; cbn; auto. Qed.

Lemma str_of_int_chars (z : Z) : forallb number_char (str_of_int z) = true.
Proof.
  assert (H : forall d, forallb number_char (str_of_uint d) = true).
  { intros d. induction d; cbn; auto. }
  unfold str_of_int. destruct (Z.to_int z); [apply H|].
  cbn [lit app forallb]. now rewrite H.
Qed.

Lemma str_of_int_nonempty (z : Z) : str_of_int z <> [].
Proof.
  unfold str_of_int, Z.to_int. destruct z as [|p|p]; try discriminate.
  pose proof (DecimalPos.Unsigned.to_uint_nonnil p).
  destruct (Pos.to_uint p); try discriminate. congruence.
Qed.

(** [str(n)] reads back as [n]. *)
Lemma scan_int_str (z : Z) (rest : pystr) :
  ends_number rest = true ->
  scan_int (str_of_int z ++ rest) = Some (z, rest).
Proof.
  intros Hrest. unfold str_of_int.
  rewrite <- (DecimalZ.of_to z) at 2. unfold Z.to_int.
  assert (Hfrac : starts_fraction rest = false).
  { destruct rest as [|c rest]; [reflexivity|]. cbn [ends_number] in Hrest.
    destruct (digit_of_char c); [discriminate|].
    now apply negb_true_iff in Hrest. }
  destruct z as [|p|p].
  - change (scan_int (digit_char 0 :: rest) = Some (0%Z, rest)).
    unfold scan_int. change (digit_char 0 =? ch "-")%N with false. cbn iota.
    unfold scan_unsigned.
    change (digit_char 0 :: rest)
      with (str_of_uint (Decimal.D0 Decimal.Nil) ++ rest).
    rewrite scan_digits_str by exact Hrest. now rewrite Hfrac.
  - pose proof (scan_unsigned_pos p rest Hrest) as Hscan.
    pose proof (DecimalPos.Unsigned.to_uint_nonnil p) as Hnil.
    pose proof (str_of_uint_digits (Pos.to_uint p)) as Hdig.
    destruct (str_of_uint (Pos.to_uint p)) as [|c s] eqn:E.
    + destruct (Pos.to_uint p); try discriminate. congruence.
    + cbn [app scan_int]. cbn [forallb] in Hdig.
      apply andb_true_iff in Hdig as [Hc _].
      apply andb_true_iff in Hc as [Hlo Hhi].
      apply N.leb_le in Hlo.
      destruct (N.eqb_spec c (ch "-")) as [->|_]; [cbn in Hlo; lia|].
      cbn [app] in Hscan. now rewrite Hscan, Hfrac.
  - cbn [lit app scan_int]. change (N_of_ascii "-" =? ch "-")%N with true.
    cbn iota. now rewrite scan_unsigned_pos, Hfrac.
Qed.

Lemma str_of_int_inj (z1 z2 : Z) : str_of_int z1 = str_of_int z2 -> z1 = z2.
Proof.
  intros H.
  pose proof (scan_int_str z1 [] eq_refl) as H1.
  pose proof (scan_int_str z2 [] eq_refl) as H2.
  rewrite H in H1. congruence.
Qed.

End Numbers.

Section Objects.

Lemma number_char_not_space (c : N) :
  number_char c = true -> is_json_space c = false /\ c <> quote_mark.
Proof.
  unfold number_char, is_json_space, ch, quote_mark. cbn [N_of_ascii].
  intros H. apply orb_true_iff in H as [H|H].
  - apply N.eqb_eq in H. subst c. split; [reflexivity | discriminate].
  - apply andb_true_iff in H as [Hlo Hhi]. apply N.leb_le in Hlo.
    split; [|intros ->; cbn in Hlo; lia].
    repeat (apply orb_false_iff; split); apply N.eqb_neq; intros ->;
      cbn in Hlo; lia.
Qed.

Lemma str_of_int_head (z : Z) :
  exists c r, str_of_int z = c :: r /\ number_char c = true.
Proof.
  pose proof (str_of_int_chars z) as H.
  pose proof (str_of_int_nonempty z) as Hne.
  destruct (str_of_int z) as [|c r]; [congruence|].
  exists c, r. cbn [forallb] in H. apply andb_true_iff in H as [H _]. auto.
Qed.

Lemma skip_ws_head (c : N) (s : pystr) :
  is_json_space c = false -> skip_ws (c :: s) = c :: s.
Proof. intros H. cbn [skip_ws]. now rewrite H. Qed.

Lemma scan_value_dumped (k : pystr) (v : scalar) (tail : pystr) :
  match v with SStr s => python_text s | SInt _ => True end ->
  ends_number tail = true ->
  scan_value (dumps_scalar v ++ tail)
  = Some (jvalue_of_scalar (snd (read_back (k, v))), tail)
  /\ skip_ws (dumps_scalar v ++ tail) = dumps_scalar v ++ tail.
Proof.
  intros Hv Htail. destruct v as [s|z].
  - cbn [dumps_scalar jvalue_of_scalar read_back snd].
    unfold encode_basestring_ascii.
    rewrite <- !app_assoc. cbn [app]. split; [|reflexivity].
    cbn [scan_value]. change (quote_mark =? quote_mark)%N with true. cbn iota.
    now rewrite scan_string_encoded.
  - cbn [dumps_scalar jvalue_of_scalar read_back snd].
    destruct (str_of_int_head z) as (c & r & Hz & Hc).
    apply number_char_not_space in Hc as [Hsp Hq].
    split.
    + pose proof (scan_int_str z tail Htail) as Hscan.
      rewrite Hz in *. cbn [app scan_value] in *.
      destruct (N.eqb_spec c quote_mark); [contradiction|].
      now rewrite Hscan.
    + rewrite Hz. cbn [app]. now apply skip_ws_head.
Qed.

(** One member, whatever follows it. *)
Lemma dumps_member_shape (m : pystr * scalar) (tail : pystr) :
  dumps_member m ++ tail
  = quote_mark :: flat_map escape_char (fst m)
    ++ quote_mark :: ch ":" :: ch " " :: dumps_scalar (snd m) ++ tail.
Proof.
  unfold dumps_member, encode_basestring_ascii. rewrite <- !app_assoc.
  reflexivity.
Qed.

Lemma scan_members_dumped (d : list (pystr * scalar)) :
  d <> [] ->
  Forall python_member d ->
  forall fuel acc tail,
    List.length d <= fuel ->
    scan_members fuel (join_comma (map dumps_member d) ++ ch "}" :: tail) acc
    = Some (dict_of (map read_back d) acc, tail).
Proof.
  induction d as [|m d IH]; [congruence|]. intros _ Hvalid fuel acc tail Hfuel.
  inversion Hvalid as [|? ? [Hkey Hval] Hrest]; subst.
  destruct fuel as [|fuel]; [cbn in Hfuel; lia|].
  cbn [List.length] in Hfuel.
  assert (Hstep : forall after,
             ends_number after = true ->
             forall k,
               (match skip_ws after with
                | [] => None
                | sep :: s5 =>
                    if (sep =? ch "}")%N
                    then Some (dict_set (fst (read_back m))
                                 (jvalue_of_scalar (snd (read_back m))) acc, s5)
                    else if (sep =? ch ",")%N
                         then scan_members fuel (skip_ws s5)
                                (dict_set (fst (read_back m))
                                   (jvalue_of_scalar (snd (read_back m))) acc)
                         else None
                end) = k ->
               scan_members (S fuel) (dumps_member m ++ after) acc = k).
  { intros after Hafter k Hk. rewrite dumps_member_shape.
    cbn [scan_members]. change (quote_mark =? quote_mark)%N with true.
    cbn [negb]. rewrite scan_string_encoded by exact Hkey.
    cbn [skip_ws]. change (is_json_space (ch ":")) with false. cbn iota.
    change (ch ":" =? ch ":")%N with true. cbn [negb].
    cbn [skip_ws]. change (is_json_space (ch " ")) with true. cbn iota.
    destruct (scan_value_dumped (fst m) (snd m) after Hval Hafter)
      as [Hscan Hskip].
    rewrite Hskip, Hscan. destruct m as [key v]. exact Hk. }
  destruct d as [|m' d].
  - cbn [map join_comma]. apply Hstep; reflexivity.
  - change (join_comma (map dumps_member (m :: m' :: d)))
      with (dumps_member m ++ lit ", " ++ join_comma (map dumps_member (m' :: d))).
    rewrite <- !app_assoc. apply Hstep; [reflexivity|].
    cbn [lit app skip_ws].
    change (is_json_space (N_of_ascii ",")) with false. cbn iota.
    change (N_of_ascii "," =? ch "}")%N with false.
    change (N_of_ascii "," =? ch ",")%N with true. cbn iota.
    cbn [skip_ws]. change (is_json_space (N_of_ascii " ")) with true. cbn iota.
    assert (Hhead : skip_ws (join_comma (map dumps_member (m' :: d))
                             ++ ch "}" :: tail)
                    = join_comma (map dumps_member (m' :: d)) ++ ch "}" :: tail).
    { destruct d as [|m'' d].
      - cbn [map join_comma]. rewrite dumps_member_shape. reflexivity.
      - change (join_comma (map dumps_member (m' :: m'' :: d)))
          with (dumps_member m' ++ lit ", "
                ++ join_comma (map dumps_member (m'' :: d))).
        rewrite <- !app_assoc, dumps_member_shape. reflexivity. }
    rewrite Hhead. cbn [dict_of fold_left map].
    apply IH; [discriminate | exact Hrest | cbn [List.length] in *; lia].
Qed.

Lemma join_comma_length (d : list (pystr * scalar)) :
  List.length d <= List.length (join_comma (map dumps_member d)) + 1.
Proof.
  induction d as [|m d IH]; [cbn; lia|].
  destruct d as [|m' d].
  - cbn [map join_comma List.length]. lia.
  - change (join_comma (map dumps_member (m :: m' :: d)))
      with (dumps_member m ++ lit ", " ++ join_comma (map dumps_member (m' :: d))).
    rewrite !length_app. cbn [List.length] in *. cbn [lit List.length]. lia.
Qed.

(** What [json.dumps] writes for a dict of strings and integers reads
    back as that dict, surrogate pairs joined. *)
Lemma loads_flat_dumps (d : list (pystr * scalar)) :
  d <> [] ->
  Forall python_member d ->
  loads_flat (dumps d) = Some (JObj (dict_of (map read_back d) [])).
Proof.
  intros Hne Hvalid. unfold dumps, loads_flat.
  cbn [lit app skip_ws]. change (is_json_space (N_of_ascii "{")) with false.
  cbn iota. change (N_of_ascii "{" =? ch "{")%N with true. cbn [negb].
  remember (join_comma (map dumps_member d)) as body eqn:Hbody.
  assert (Hhead : exists r, body ++ [N_of_ascii "}"] = quote_mark :: r).
  { subst body. destruct d as [|m d]; [congruence|].
    destruct d as [|m' d].
    - cbn [map join_comma]. rewrite dumps_member_shape. eauto.
    - change (join_comma (map dumps_member (m :: m' :: d)))
        with (dumps_member m ++ lit ", "
              ++ join_comma (map dumps_member (m' :: d))).
      rewrite <- !app_assoc, dumps_member_shape. eauto. }
  destruct Hhead as [r Hr].
  assert (Hscan : scan_members (List.length (body ++ [N_of_ascii "}"]))
                    (body ++ [N_of_ascii "}"]) []
                  = Some (dict_of (map read_back d) [], [])).
  { subst body. apply scan_members_dumped; try assumption.
    rewrite length_app. cbn [List.length].
    pose proof (join_comma_length d). lia. }
  rewrite Hr in *. cbn [skip_ws].
  change (is_json_space quote_mark) with false. cbn iota.
  change (quote_mark =? ch "}")%N with false. cbn iota.
  rewrite Hscan. reflexivity.
Qed.

End Objects.

Section PercentEncoding.

Lemma hex_lower_printable (d : N) : (d < 16)%N -> printable (hex_lower d) = true.
Proof.
  intros H. unfold printable, hex_lower. destruct (N.ltb_spec d 10);
    apply andb_true_iff; split; apply N.leb_le; lia.
Qed.

Lemma u_escape_printable (n : N) : forallb printable (u_escape n) = true.
Proof.
  unfold u_escape. cbn [forallb].
  rewrite !hex_lower_printable by (apply N.mod_lt; discriminate).
  reflexivity.
Qed.

Lemma escape_char_printable (c : N) : forallb printable (escape_char c) = true.
Proof.
  unfold escape_char.
  repeat match goal with
         | |- context [N.eqb c ?y] => destruct (N.eqb c y); [reflexivity|]
         end.
  destruct ((32 <=? c) && (c <=? 126))%N eqn:Hp.
  { cbn [forallb]. unfold printable. now rewrite Hp. }
  destruct (c <? 65536)%N.
  - apply u_escape_printable.
  - rewrite forallb_app, !u_escape_printable. reflexivity.
Qed.

Lemma encode_printable (s : pystr) :
  forallb printable (encode_basestring_ascii s) = true.
Proof.
  unfold encode_basestring_ascii. rewrite !forallb_app. cbn [forallb].
  change (printable quote_mark) with true. cbn [andb]. rewrite andb_true_r.
  induction s as [|c s IH]; [reflexivity|].
  cbn [flat_map]. now rewrite forallb_app, escape_char_printable, IH.
Qed.

Lemma str_of_int_printable (z : Z) : forallb printable (str_of_int z) = true.
Proof.
  pose proof (str_of_int_chars z) as H.
  induction (str_of_int z) as [|c s IH]; [reflexivity|].
  cbn [forallb] in *. apply andb_true_iff in H as [Hc Hs].
  rewrite (IH Hs), andb_true_r. unfold number_char in Hc. unfold printable.
  apply orb_true_iff in Hc as [Hc|Hc].
  - apply N.eqb_eq in Hc. now subst c.
  - apply andb_true_iff in Hc as [Hlo Hhi].
    apply N.leb_le in Hlo, Hhi. apply andb_true_iff.
    split; apply N.leb_le; lia.
Qed.

Lemma dumps_printable (d : list (pystr * scalar)) :
  forallb printable (dumps d) = true.
Proof.
  unfold dumps. rewrite !forallb_app. cbn [lit forallb].
  change (printable (N_of_ascii "{")) with true.
  change (printable (N_of_ascii "}")) with true. cbn [andb].
  rewrite andb_true_r.
  assert (Hm : forall m, forallb printable (dumps_member m) = true).
  { intros [k v]. unfold dumps_member. rewrite !forallb_app.
    rewrite encode_printable. cbn [fst snd lit forallb andb].
    change (printable (N_of_ascii ":")) with true.
    change (printable (N_of_ascii " ")) with true. cbn [andb].
    destruct v; cbn [dumps_scalar];
      [apply encode_printable | apply str_of_int_printable]. }
  induction d as [|m d IH]; [reflexivity|].
  destruct d as [|m' d]; [apply Hm|].
  change (join_comma (map dumps_member (m :: m' :: d)))
    with (dumps_member m ++ lit ", " ++ join_comma (map dumps_member (m' :: d))).
  rewrite !forallb_app, Hm, IH. reflexivity.
Qed.

(** ASCII text is its own UTF-8 encoding. *)
Lemma utf8_encode_printable (s : pystr) :
  forallb printable s = true -> utf8_encode s = Some s.
Proof.
  induction s as [|c s IH]; intros H; [reflexivity|].
  cbn [forallb] in H. apply andb_true_iff in H as [Hc Hs].
  cbn [utf8_encode]. rewrite (IH Hs).
  unfold printable in Hc. apply andb_true_iff in Hc as [_ Hhi].
  apply N.leb_le in Hhi. unfold utf8_char.
  destruct (N.ltb_spec c 128); [reflexivity | lia].
Qed.

Lemma quote_dumps (d : list (pystr * scalar)) :
  quote (dumps d) = Some (quote_from_bytes (dumps d)).
Proof.
  unfold quote. now rewrite utf8_encode_printable by apply dumps_printable.
Qed.

Lemma is_safe_plain (b : N) :
  is_safe b = true -> b <> ch "%" /\ b <> quote_mark.
Proof.
  intros H. split; intros ->; discriminate.
Qed.

(** Percent-decoding undoes [quote] on bytes. *)
Lemma unquote_quote (bs : list N) :
  forallb (fun b => b <? 256)%N bs = true ->
  unquote_to_bytes (quote_from_bytes bs) = bs.
Proof.
  unfold quote_from_bytes. induction bs as [|b bs IH]; intros H; [reflexivity|].
  cbn [forallb] in H. apply andb_true_iff in H as [Hb Hbs].
  apply N.ltb_lt in Hb. specialize (IH Hbs).
  cbn [flat_map]. unfold quote_byte at 1.
  destruct (is_safe b) eqn:Hsafe.
  - apply is_safe_plain in Hsafe as [Hpct _].
    cbn [app unquote_to_bytes].
    destruct (N.eqb_spec b (ch "%")); [contradiction|]. now rewrite IH.
  - cbn [app unquote_to_bytes]. change (ch "%" =? ch "%")%N with true.
    cbn iota.
    rewrite !hexval_hex_upper by ndiv. rewrite IH. f_equal. ndiv.
Qed.

Lemma contains_single_app (c : N) (a b : pystr) :
  contains [c] (a ++ b) = contains [c] a || contains [c] b.
Proof.
  induction a as [|x a IH]; [reflexivity|].
  cbn [app contains startswith]. rewrite IH.
  destruct (c =? x)%N; reflexivity.
Qed.

Lemma hex_upper_not_quote (d : N) : (quote_mark =? hex_upper d)%N = false.
Proof.
  apply N.eqb_neq. unfold hex_upper, quote_mark.
  destruct (N.ltb_spec d 10); lia.
Qed.

(** The attribute value holds no double quote. *)
Lemma quote_from_bytes_no_quote (bs : list N) :
  contains dq (quote_from_bytes bs) = false.
Proof.
  unfold quote_from_bytes, dq. induction bs as [|b bs IH]; [reflexivity|].
  cbn [flat_map]. rewrite contains_single_app, IH, orb_false_r.
  unfold quote_byte. destruct (is_safe b) eqn:Hsafe.
  - apply is_safe_plain in Hsafe as [_ Hq]. cbn [contains startswith].
    destruct (N.eqb_spec 34 b) as [E|_]; [now subst b|reflexivity].
  - cbn [contains startswith].
    change 34%N with quote_mark. rewrite !hex_upper_not_quote. reflexivity.
Qed.

End PercentEncoding.

Section ImageBlock.

Lemma split_first_some_length (pat a x y : pystr) :
  Re.split_first pat a = Some (x, y) -> List.length pat <= List.length a.
Proof.
  revert x y. induction a as [|c a IH]; intros x y H.
  - cbn in H. destruct (startswith pat []) eqn:E; [|discriminate].
    now apply startswith_length in E.
  - cbn [Re.split_first] in H. destruct (startswith pat (c :: a)) eqn:E.
    + now apply startswith_length in E.
    + destruct (Re.split_first pat a) as [[b1 b2]|]; [|discriminate].
      specialize (IH _ _ eq_refl). cbn [List.length]. lia.
Qed.

(** The first occurrence stays the first when the text goes on. *)
Lemma split_first_app (pat a r x y : pystr) :
  pat <> [] ->
  Re.split_first pat a = Some (x, y) ->
  Re.split_first pat (a ++ r) = Some (x, y ++ r).
Proof.
  intros Hne. revert x y. induction a as [|c a IH]; intros x y H.
  - cbn in H. destruct pat; [congruence | discriminate].
  - pose proof (split_first_some_length _ _ _ _ H) as Hlen.
    cbn [Re.split_first] in H. change ((c :: a) ++ r) with (c :: (a ++ r)).
    cbn [Re.split_first]. change (c :: (a ++ r)) with ((c :: a) ++ r).
    rewrite (startswith_long pat (c :: a) r Hlen).
    destruct (startswith pat (c :: a)) eqn:E.
    + injection H as <- <-. f_equal. f_equal.
      now rewrite skipn_app, (proj2 (Nat.sub_0_le _ _) Hlen).
    + destruct (Re.split_first pat a) as [[b1 b2]|] eqn:Ea; [|discriminate].
      injection H as <- <-. now rewrite (IH _ _ eq_refl).
Qed.

Lemma attribute_value_of_block (info_str url credit w h : pystr) :
  contains dq info_str = false ->
  attribute_value "data-editornodeinfo"
    (image_block_markup info_str url credit w h) = Some info_str.
Proof.
  intros Hfree. unfold attribute_value, image_block_markup, attr.
  rewrite <- !app_assoc.
  remember (lit ">" ++ lit "<div " ++ _) as rest eqn:Hrest.
  clear Hrest.
  pose (pat := lit "data-editornodeinfo" ++ lit "=" ++ dq).
  pose (pre := lit "<figure>" ++ lit "<div ").
  assert (Hsplit : Re.split_first pat
                     ((pre ++ pat) ++ info_str ++ dq ++ rest)
                   = Some (pre, [] ++ info_str ++ dq ++ rest)).
  { apply split_first_app; [discriminate|]. vm_compute. reflexivity. }
  replace (lit "<figure>" ++ lit "<div " ++ lit "data-editornodeinfo"
           ++ lit "=" ++ dq ++ info_str ++ dq ++ rest)
    with ((pre ++ pat) ++ info_str ++ dq ++ rest)
    by (unfold pre, pat; now rewrite <- !app_assoc).
  fold pat. rewrite Hsplit. cbn [app].
  rewrite split_first_inner; [reflexivity | discriminate | | exact Hfree].
  intros u Hu. destruct u as [|a u]; [congruence | reflexivity].
Qed.

End ImageBlock.

(** The blob in the block decodes to the dict it was made from, the
    surrogate pairs of the URL and of the credit joined. *)
Lemma decoded_metadata_of_block (url credit : pystr) (w h : Z) (ws hs : pystr) :
  python_text url -> python_text credit ->
  decoded_metadata
    (match quote (dumps (info_dict url credit w h)) with
     | Some info_str => Ok (image_block_markup info_str url credit ws hs)
     | None => Raise (OtherError (lit "UnicodeEncodeError"))
     end)
  = Some (metadata (joined url) (joined credit) w h).
Proof.
  intros Hurl Hcredit. rewrite quote_dumps. unfold decoded_metadata.
  rewrite attribute_value_of_block by apply quote_from_bytes_no_quote.
  rewrite unquote_quote.
  - rewrite loads_flat_dumps.
    + reflexivity.
    + discriminate.
    + unfold info_dict. repeat constructor; cbn [fst snd]; assumption.
  - pose proof (dumps_printable (info_dict url credit w h)) as Hp.
    induction (dumps (info_dict url credit w h)) as [|c s IH]; [reflexivity|].
    cbn [forallb] in *. apply andb_true_iff in Hp as [Hc Hs].
    rewrite (IH Hs), andb_true_r. unfold printable in Hc.
    apply andb_true_iff in Hc as [_ Hhi]. apply N.leb_le in Hhi.
    apply N.ltb_lt. lia.
Qed.

Lemma metadata_inj (url credit url' credit' : pystr) (w h : Z) :
  Some (metadata url credit w h) = Some (metadata url' credit' w h)
  <-> url = url' /\ credit = credit'.
Proof.
  split.
  - intros H. injection H as -> ->. split; reflexivity.
  - intros [-> ->]. reflexivity.
Qed.

(** C3, as stated, fails for a credit that holds a high surrogate directly
    followed by a low surrogate: [json.dumps] writes two escapes, and
    reading them back gives the one character of the pair (U+D83D, U+DE00
    come back as U+1F600). *)
Lemma image_metadata_joins_surrogate_pair :
  python_text Cases.surrogate_credit
  /\ decoded_metadata
       (generate_draft.create_image_block (lit "https://x/img.jpg")
          Cases.surrogate_credit)
     = Some (metadata (lit "https://x/img.jpg") [128512%N] 1500 1000)
  /\ decoded_metadata
       (generate_draft.create_image_block (lit "https://x/img.jpg")
          Cases.surrogate_credit)
     <> Some (metadata (lit "https://x/img.jpg") Cases.surrogate_credit
                1500 1000).
Proof.
  split; [reflexivity|].
  assert (H : decoded_metadata
                (generate_draft.create_image_block (lit "https://x/img.jpg")
                   Cases.surrogate_credit)
              = Some (metadata (lit "https://x/img.jpg") [128512%N] 1500 1000))
    by (vm_compute; reflexivity).
  split; [exact H|]. rewrite H. intros E. apply metadata_inj in E as [_ E].
  discriminate E.
Qed.

(** C3 (amended): for every image URL and credit text in which no high
    surrogate is directly followed by a low surrogate, and every pair of
    dimensions, percent-decoding and JSON-parsing the
    [data-editornodeinfo] attribute of the block [create_image_block]
    returns gives back the metadata object with the supplied URL, credit
    and dimensions; on the draft and publish paths the dimensions are 1500
    and 1000.  In general the object read back holds the URL and the
    credit with every such pair joined into its one character, and so it
    is the object supplied only when there is no such pair. *)
Theorem image_metadata_round_trip (url credit : pystr) (width height : Z) :
  python_text url -> python_text credit ->
  decoded_metadata (put_request.create_image_block url credit width height)
  = Some (metadata (joined url) (joined credit) width height)
  /\ decoded_metadata (generate_draft.create_image_block url credit)
     = Some (metadata (joined url) (joined credit) 1500 1000)
  /\ decoded_metadata (make_publish.create_image_block url credit)
     = Some (metadata (joined url) (joined credit) 1500 1000)
  /\ (pair_free url = true /\ pair_free credit = true
      <-> decoded_metadata
            (put_request.create_image_block url credit width height)
          = Some (metadata url credit width height))
  /\ (pair_free url = true /\ pair_free credit = true
      <-> decoded_metadata (generate_draft.create_image_block url credit)
          = Some (metadata url credit 1500 1000))
  /\ (pair_free url = true /\ pair_free credit = true
      <-> decoded_metadata (make_publish.create_image_block url credit)
          = Some (metadata url credit 1500 1000)).
Proof.
  intros Hurl Hcredit.
  assert (Hput := decoded_metadata_of_block url credit width height
                    (str_of_int width) (str_of_int height) Hurl Hcredit).
  assert (Hdraft := decoded_metadata_of_block url credit 1500 1000
                      (lit "1500") (lit "1000") Hurl Hcredit).
  assert (Hiff : forall w h,
             pair_free url = true /\ pair_free credit = true
             <-> Some (metadata (joined url) (joined credit) w h)
                 = Some (metadata url credit w h)).
  { intros w h. rewrite metadata_inj, !joined_pair_free. reflexivity. }
  split; [exact Hput|]. split; [exact Hdraft|]. split; [exact Hdraft|].
  split; [|split].
  - unfold put_request.create_image_block in *. rewrite Hput. apply Hiff.
  - unfold generate_draft.create_image_block in *. rewrite Hdraft. apply Hiff.
  - unfold make_publish.create_image_block in *. rewrite Hdraft. apply Hiff.
Qed.

Lemma image_metadata_round_trip_witness :
  python_text (lit "https://x/img.jpg") /\ python_text Sample.credit_text
  /\ decoded_metadata
       (put_request.create_image_block (lit "https://x/img.jpg")
          Sample.credit_text 1500 993)
     = Some (metadata (lit "https://x/img.jpg") Sample.credit_text 1500 993).
Proof.
  split; [reflexivity|]. split; [reflexivity|].
  exact (proj1 (image_metadata_round_trip (lit "https://x/img.jpg")
                  Sample.credit_text 1500 993 eq_refl eq_refl)).
Defined.

(* ================================================================== *)
(** * Location validation                                              *)
(* ================================================================== *)

Lemma location_allowed_spec (location : pystr) :
  make_publish.location_allowed location = true
  <-> In location make_publish.allowed_locations.
Proof.
  unfold make_publish.location_allowed. rewrite existsb_exists. split.
  - intros (l & Hin & Heq). apply eqb_eq in Heq. now subst l.
  - intros Hin. exists location. split; [exact Hin | apply eqb_refl].
Qed.

(** C4: for every location outside the closed enumeration, [make_publish]
    raises a [ValueError] and leaves the list of issued requests as it
    found it, whatever the other arguments are; for every location of the
    enumeration [validate_location] passes. *)
Theorem make_publish_validates_location
        (markdown : pystr -> result pystr) (json_loads : pystr -> option jvalue)
        (repr_other : jvalue -> pystr) (server : request -> http_result)
        (title author_name author_url article_credit image_link image_credit
         article_content : pystr) (data_id : jvalue) (location : pystr)
        (is_title_rewrited is_ai_assisted : bool) (e : draws) (s : state) :
  (~ In location make_publish.allowed_locations ->
   exists msg,
     make_publish.make_publish markdown json_loads repr_other server
       title author_name author_url article_credit image_link image_credit
       article_content data_id location is_title_rewrited is_ai_assisted e s
     = (Raise (ValueError msg), s))
  /\ (In location make_publish.allowed_locations ->
      make_publish.validate_location location = Ok tt).
Proof.
  split; intros Hloc.
  - assert (Hb : make_publish.location_allowed location = false).
    { destruct (make_publish.location_allowed location) eqn:E; [|reflexivity].
      apply location_allowed_spec in E. contradiction. }
    unfold make_publish.make_publish.
    destruct (negb _); [eexists; reflexivity|].
    unfold bind at 1, lift, make_publish.validate_location.
    rewrite Hb. cbn [negb]. eexists; reflexivity.
  - apply location_allowed_spec in Hloc.
    unfold make_publish.validate_location. now rewrite Hloc.
Qed.

Lemma make_publish_validates_location_witness :
  ~ In (lit "Paris") make_publish.allowed_locations
  /\ exists msg,
       make_publish.make_publish Sample.markdown loads_flat Sample.repr_other
         Sample.server_ok (lit "Test Article") (lit "Temp author")
         (lit "harvard.edu") (lit "Staff") (lit "https://x/img.jpg")
         (lit "testing_credit!") (lit "**bold** text")
         (JStr (lit "100251263")) (lit "Paris") false false Sample.no_draws start
       = (Raise (ValueError msg), start).
Proof.
  assert (H : ~ In (lit "Paris") make_publish.allowed_locations).
  { cbn. intros [H|[H|[H|[H|[]]]]]; discriminate. }
  split; [exact H|].
  exact (proj1 (make_publish_validates_location Sample.markdown loads_flat
                  Sample.repr_other Sample.server_ok (lit "Test Article")
                  (lit "Temp author") (lit "harvard.edu") (lit "Staff")
                  (lit "https://x/img.jpg") (lit "testing_credit!")
                  (lit "**bold** text") (JStr (lit "100251263")) (lit "Paris")
                  false false Sample.no_draws start) H).
Defined.

(* ================================================================== *)
(** * The payloads: salting and ordering                               *)
(* ================================================================== *)

Section Payloads.
Variable markdown : pystr -> result pystr.
Variable server : request -> http_result.

  (** What [create_draft] sends is what [build_article_json] built from
      the salted title and body. *)
Lemma draft_payload_of_built
        (title article_credit image_link image_credit article_content : pystr)
        (e : draws) (p : draft_payload) :
    draft_payload_of markdown server title article_credit image_link
                     image_credit article_content e = Some p
    <-> generate_draft.build_article_json markdown
          (generate_draft.unique_title title e) article_credit image_link
          image_credit (generate_draft.unique_content article_content e)
        = Ok p.
Proof.
    unfold draft_payload_of, generate_draft.create_draft.
    unfold bind at 1, lift.
    destruct (generate_draft.build_article_json _ _ _ _ _ _) as [q|err].
    - unfold bind, send, ret. cbn [sent app start].
      destruct (server (POST_draft q)); cbn [snd sent]; split; congruence.
    - cbn [snd sent start]. split; discriminate.
Qed.

  (** The content [build_article_json] assembles. *)
Lemma build_article_json_content
        (title article_credit image_link image_credit article_content : pystr)
        (p : draft_payload) :
    generate_draft.build_article_json markdown title article_credit image_link
      image_credit article_content = Ok p ->
    exists rendered_image_credit image_block html rendered_article_credit,
      markdown image_credit = Ok rendered_image_credit
      /\ generate_draft.create_image_block image_link
           (strip_credit rendered_image_credit) = Ok image_block
      /\ markdown article_content = Ok html
      /\ markdown article_credit = Ok rendered_article_credit
      /\ d_title p = title
      /\ d_content p
         = image_block ++ paragraph (strip_credit rendered_article_credit)
           ++ generate_draft.wrap_paragraphs html ++ style_block.
Proof.
    unfold generate_draft.build_article_json. unfold rbind.
    destruct (markdown image_credit) as [ric|] eqn:Eic; [|discriminate].
    destruct (generate_draft.create_image_block _ _) as [ib|] eqn:Eib;
      [|discriminate].
    destruct (markdown article_content) as [html|] eqn:Eh; [|discriminate].
    destruct (markdown article_credit) as [rac|] eqn:Eac; [|discriminate].
    intros H.
    apply (f_equal (fun r => match r with Ok q => q | Raise _ => p end)) in H.
    cbn beta iota in H. subst p. cbn [d_title d_content].
    exists ric, ib, html, rac. rewrite <- app_assoc.
    repeat split; try assumption; reflexivity.
Qed.
End Payloads.

Lemma unique_title_inj (title : pystr) (e1 e2 : draws) :
  generate_draft.unique_title title e1 = generate_draft.unique_title title e2
  <-> clock e1 = clock e2 /\ randint e1 = randint e2.
Proof.
  unfold generate_draft.unique_title, generate_draft.unique_suffix. split.
  - intros H. apply app_inv_head in H. apply app_inv_head in H.
    apply app_inv_tail in H.
    pose proof (scan_int_str (clock e1)
                  (lit "-" ++ str_of_int (randint e1)) eq_refl) as H1.
    pose proof (scan_int_str (clock e2)
                  (lit "-" ++ str_of_int (randint e2)) eq_refl) as H2.
    rewrite H in H1.
    assert (Hclock : clock e1 = clock e2) by congruence.
    assert (Hrest : lit "-" ++ str_of_int (randint e1)
                    = lit "-" ++ str_of_int (randint e2)) by congruence.
    apply app_inv_head in Hrest. apply str_of_int_inj in Hrest.
    split; assumption.
  - intros [-> ->]. reflexivity.
Qed.

Lemma unique_content_inj (content : pystr) (e1 e2 : draws) :
  generate_draft.unique_content content e1 = generate_draft.unique_content content e2
  <-> uuid_marker e1 = uuid_marker e2.
Proof.
  unfold generate_draft.unique_content. split.
  - intros H. do 4 apply app_inv_head in H. now apply app_inv_tail in H.
  - intros ->. reflexivity.
Qed.

(** C5, as stated, fails: two invocations with the same input fields that
    fall in the same second and draw the same random number (and different
    draft markers) build payloads with the same title. *)
Lemma create_draft_same_second_same_title :
  match draft_payload_of Sample.markdown Sample.server_ok
          (lit "Test Article") (lit "Staff") (lit "https://x/img.jpg")
          (lit "testing_credit!") (lit "**bold** text") Sample.no_draws,
        draft_payload_of Sample.markdown Sample.server_ok
          (lit "Test Article") (lit "Staff") (lit "https://x/img.jpg")
          (lit "testing_credit!") (lit "**bold** text") Sample.other_marker
  with
  | Some p1, Some p2 =>
      d_title p1 = d_title p2
      /\ uuid_marker Sample.no_draws <> uuid_marker Sample.other_marker
  | _, _ => False
  end.
Proof.
  vm_compute. split; [reflexivity | discriminate].
Qed.

(** A text without [<] holds no closing tag. *)
Lemma contains_closing_tag (s : pystr) :
  forallb (fun c => negb (c =? ch "<")%N) s = true ->
  contains (lit "</p>") s = false.
Proof.
  induction s as [|c s IH]; intros H; [reflexivity|].
  cbn [forallb] in H. apply andb_true_iff in H as [Hc Hs].
  apply negb_true_iff in Hc. cbn [contains].
  rewrite (IH Hs), orb_false_r. cbn [lit startswith].
  change (N_of_ascii "<") with (ch "<"). rewrite N.eqb_sym. now rewrite Hc.
Qed.

(** What [wrap_paragraphs] makes of a rendering that ends with the
    paragraph of the marker line. *)
Lemma wrap_paragraphs_marker_line (doc : list node) (marker : pystr) :
  forallb well_formed doc = true ->
  forallb (fun c => negb (c =? ch "<")%N) marker = true ->
  generate_draft.wrap_paragraphs
    (render doc ++ plain (lit "[Draft ID: " ++ marker ++ lit "]"))
  = render_decorated doc ++ paragraph (lit "[Draft ID: " ++ marker ++ lit "]").
Proof.
  intros Hdoc Hmarker.
  pose proof (wrap_document (doc ++ [Para (lit "[Draft ID: " ++ marker ++ lit "]")]))
    as H.
  unfold render, render_decorated in *. rewrite !flat_map_app in H.
  cbn [flat_map render_with] in H. rewrite !app_nil_r in H.
  apply H. rewrite forallb_app, Hdoc. cbn [forallb well_formed andb].
  rewrite andb_true_r. apply negb_true_iff. apply contains_closing_tag.
  rewrite !forallb_app, Hmarker. reflexivity.
Qed.

(** C5 (amended): for every fixed set of article input fields, the
    payloads of two invocations of [create_draft] have different titles
    exactly when the invocations differ in the second of the clock or in
    the random number drawn; the Markdown bodies handed to the conversion
    differ exactly when the generated draft markers differ; and where the
    conversion renders the marker line as a paragraph of its own after
    the rendering of the article content, the content bodies of the two
    payloads differ exactly when the draft markers differ. *)
Theorem create_draft_salting
        (markdown : pystr -> result pystr) (server : request -> http_result)
        (title article_credit image_link image_credit article_content : pystr)
        (e1 e2 : draws) (p1 p2 : draft_payload) :
  draft_payload_of markdown server title article_credit image_link
                   image_credit article_content e1 = Some p1 ->
  draft_payload_of markdown server title article_credit image_link
                   image_credit article_content e2 = Some p2 ->
  (d_title p1 <> d_title p2 <-> (clock e1 <> clock e2 \/ randint e1 <> randint e2))
  /\ (generate_draft.unique_content article_content e1
      <> generate_draft.unique_content article_content e2
      <-> uuid_marker e1 <> uuid_marker e2)
  /\ (forall doc : list node,
        forallb well_formed doc = true ->
        forallb (fun c => negb (c =? ch "<")%N) (uuid_marker e1) = true ->
        forallb (fun c => negb (c =? ch "<")%N) (uuid_marker e2) = true ->
        markdown (generate_draft.unique_content article_content e1)
        = Ok (render doc
              ++ plain (lit "[Draft ID: " ++ uuid_marker e1 ++ lit "]")) ->
        markdown (generate_draft.unique_content article_content e2)
        = Ok (render doc
              ++ plain (lit "[Draft ID: " ++ uuid_marker e2 ++ lit "]")) ->
        (d_content p1 <> d_content p2 <-> uuid_marker e1 <> uuid_marker e2)).
Proof.
  intros H1 H2.
  apply draft_payload_of_built in H1. apply draft_payload_of_built in H2.
  apply build_article_json_content in H1
    as (ric1 & ib1 & html1 & rac1 & Hic1 & Hib1 & Hh1 & Hac1 & Ht1 & Hc1).
  apply build_article_json_content in H2
    as (ric2 & ib2 & html2 & rac2 & Hic2 & Hib2 & Hh2 & Hac2 & Ht2 & Hc2).
  assert (ric2 = ric1) by congruence. subst ric2.
  assert (ib2 = ib1) by congruence. subst ib2.
  assert (rac2 = rac1) by congruence. subst rac2.
  split; [|split].
  - rewrite Ht1, Ht2, unique_title_inj.
    destruct (Z.eq_dec (clock e1) (clock e2));
      destruct (Z.eq_dec (randint e1) (randint e2)); intuition congruence.
  - now rewrite unique_content_inj.
  - intros doc Hdoc Hm1 Hm2 Hr1 Hr2.
    assert (E1 : html1 = render doc
                         ++ plain (lit "[Draft ID: " ++ uuid_marker e1 ++ lit "]"))
      by congruence.
    assert (E2 : html2 = render doc
                         ++ plain (lit "[Draft ID: " ++ uuid_marker e2 ++ lit "]"))
      by congruence.
    rewrite Hc1, Hc2, E1, E2, !wrap_paragraphs_marker_line by assumption.
    split.
    + intros Hne Heq. apply Hne. now rewrite Heq.
    + intros Hne Heq. apply Hne.
      do 2 apply app_inv_head in Heq. apply app_inv_tail in Heq.
      apply app_inv_head in Heq. unfold paragraph in Heq.
      repeat apply app_inv_head in Heq.
      apply app_inv_tail in Heq. apply app_inv_head in Heq.
      now apply app_inv_tail in Heq.
Qed.

Lemma create_draft_salting_witness :
  exists p1 p2,
    draft_payload_of Cases.markdown_blocks Sample.server_ok
      (lit "Test Article") (lit "Staff") (lit "https://x/img.jpg")
      (lit "testing_credit!") (lit "**bold** text") Sample.no_draws = Some p1
    /\ draft_payload_of Cases.markdown_blocks Sample.server_ok
         (lit "Test Article") (lit "Staff") (lit "https://x/img.jpg")
         (lit "testing_credit!") (lit "**bold** text") Sample.other_marker = Some p2
    /\ d_title p1 = d_title p2
    /\ d_content p1 <> d_content p2.
Proof.
  eexists. eexists. split; [vm_compute; reflexivity|].
  split; [vm_compute; reflexivity|].
  split; [vm_compute; reflexivity|].
  refine (proj2 (proj2 (proj2
            (create_draft_salting Cases.markdown_blocks Sample.server_ok
               (lit "Test Article") (lit "Staff") (lit "https://x/img.jpg")
               (lit "testing_credit!") (lit "**bold** text")
               Sample.no_draws Sample.other_marker _ _ _ _))
            [Para (lit "**bold** text"); Text nl] _ _ _ _ _) _);
    try (vm_compute; reflexivity).
  vm_compute. discriminate.
Defined.

Section PublishPayload.
Opaque style_block empty_paragraph.
Variable markdown : pystr -> result pystr.
Variable json_loads : pystr -> option jvalue.
Variable repr_other : jvalue -> pystr.
Variable server : request -> http_result.

Lemma render_fields_ok (image_credit article_content article_credit : pystr)
        (fields : pystr * pystr * pystr) :
    make_publish.render_fields markdown image_credit article_content
                               article_credit = Ok fields ->
    exists ric html rac,
      markdown image_credit = Ok ric
      /\ markdown article_content = Ok html
      /\ markdown article_credit = Ok rac
      /\ fields = (strip_credit ric, make_publish.wrap_paragraphs html,
                   strip_credit rac).
Proof.
    unfold make_publish.render_fields, rbind.
    destruct (markdown image_credit) as [ric|] eqn:Eic; [|discriminate].
    destruct (markdown article_content) as [html|] eqn:Eh; [|discriminate].
    destruct (markdown article_credit) as [rac|] eqn:Eac; [|discriminate].
    intros H. exists ric, html, rac. repeat split; congruence.
Qed.

  (** The content [make_publish] assembles. *)
Lemma publish_payload_content
        (title author_name author_url article_credit image_link image_credit
         article_content : pystr) (data_id : jvalue) (location : pystr)
        (rewrited assisted : bool) (e : draws) (p : publish_payload) :
    publish_payload_of markdown json_loads repr_other server title author_name
      author_url article_credit image_link image_credit article_content
      data_id location rewrited assisted e = Some p ->
    exists ric html image_block,
      markdown image_credit = Ok ric
      /\ markdown article_content = Ok html
      /\ (image_link <> [] ->
          make_publish.create_image_block image_link (strip_credit ric)
          = Ok image_block)
      /\ (image_link = [] -> image_block = [])
      /\ p_content p
         = image_block ++ make_publish.wrap_paragraphs html
           ++ empty_paragraph ++ style_block.
Proof.
    unfold publish_payload_of, make_publish.make_publish.
    destruct (negb _); [discriminate|].
    unfold bind at 1, lift at 1.
    destruct (make_publish.validate_location location); [|discriminate].
    unfold try_except at 1. unfold bind at 1. unfold try_except at 1.
    unfold lift at 1.
    destruct (make_publish.render_fields markdown image_credit article_content
                article_credit) as [[[raw_ic html_c] raw_ac]|err] eqn:Ef.
    2:{ unfold raise. destruct err; cbn; intros H; discriminate H. }
    apply render_fields_ok in Ef as (ric & html & rac & Hic & Hh & Hac & Hf).
    injection Hf as -> -> ->.
    unfold bind at 1.
    destruct (truthy_str image_link) eqn:Hlink.
    - unfold lift at 1.
      destruct (make_publish.create_image_block image_link (strip_credit ric))
        as [ib|err] eqn:Eib.
      2:{ unfold raise. destruct err; cbn; intros H; discriminate H. }
      unfold bind at 1, send at 1. cbn [sent app start printed].
      intros H. exists ric, html, ib.
      assert (Hp : p_content p
                   = ib ++ make_publish.wrap_paragraphs html
                     ++ empty_paragraph ++ style_block).
      { destruct (server _) as [st text|msg].
        - destruct (make_publish.validate_response json_loads repr_other st text)
            as [[|] msg]; cbn in H; injection H as <-; reflexivity.
        - cbn in H. injection H as <-. reflexivity. }
      split; [exact Hic|]. split; [exact Hh|].
      split; [intros _; exact Eib|]. split; [|exact Hp].
      intros ->. discriminate Hlink.
    - unfold ret at 1. unfold bind at 1, send at 1.
      cbn [sent app start printed].
      intros H. exists ric, html, [].
      assert (Hp : p_content p
                   = [] ++ make_publish.wrap_paragraphs html
                     ++ empty_paragraph ++ style_block).
      { destruct (server _) as [st text|msg].
        - destruct (make_publish.validate_response json_loads repr_other st text)
            as [[|] msg]; cbn in H; injection H as <-; reflexivity.
        - cbn in H. injection H as <-. reflexivity. }
      split; [exact Hic|]. split; [exact Hh|].
      split; [|split; [reflexivity | exact Hp]].
      intros Hne. destruct image_link; [congruence | discriminate Hlink].
Qed.
Transparent style_block empty_paragraph.
End PublishPayload.

(** C6: the content of the draft request is the image block, the article
    credit paragraph, the decorated body paragraphs and the CSS style
    block, in that order; the content of the publish request is the image
    block (present when an image link is given, as it is on the publish
    path of the workflow), the decorated body paragraphs, the empty
    paragraph and the CSS style block, in that order, and holds no credit
    paragraph. *)
Theorem content_ordering
        (markdown : pystr -> result pystr) (json_loads : pystr -> option jvalue)
        (repr_other : jvalue -> pystr) (server : request -> http_result)
        (title author_name author_url article_credit image_link image_credit
         article_content : pystr) (data_id : jvalue) (location : pystr)
        (rewrited assisted : bool) (e : draws) :
  (forall p,
     draft_payload_of markdown server title article_credit image_link
                      image_credit article_content e = Some p ->
     exists rendered_image_credit image_block html rendered_article_credit,
       markdown image_credit = Ok rendered_image_credit
       /\ generate_draft.create_image_block image_link
            (strip_credit rendered_image_credit) = Ok image_block
       /\ markdown (generate_draft.unique_content article_content e) = Ok html
       /\ markdown article_credit = Ok rendered_article_credit
       /\ d_content p
          = image_block ++ paragraph (strip_credit rendered_article_credit)
            ++ generate_draft.wrap_paragraphs html ++ style_block)
  /\ (forall p,
        publish_payload_of markdown json_loads repr_other server title
          author_name author_url article_credit image_link image_credit
          article_content data_id location rewrited assisted e = Some p ->
        exists rendered_image_credit html image_block,
          markdown image_credit = Ok rendered_image_credit
          /\ markdown article_content = Ok html
          /\ (image_link <> [] ->
              make_publish.create_image_block image_link
                (strip_credit rendered_image_credit) = Ok image_block)
          /\ (image_link = [] -> image_block = [])
          /\ p_content p
             = image_block ++ make_publish.wrap_paragraphs html
               ++ empty_paragraph ++ style_block).
Proof.
  split; intros p Hp.
  - apply draft_payload_of_built in Hp.
    apply build_article_json_content in Hp
      as (ric & ib & html & rac & Hic & Hib & Hh & Hac & _ & Hc).
    exists ric, ib, html, rac. repeat split; assumption.
  - now apply publish_payload_content in Hp.
Qed.

Lemma content_ordering_witness :
  exists p q image_block,
    draft_payload_of Sample.markdown Sample.server_ok (lit "Test Article")
      (lit "Staff") (lit "https://x/img.jpg") (lit "testing_credit!")
      (lit "**bold** text") Sample.no_draws = Some p
    /\ publish_payload_of Sample.markdown loads_flat Sample.repr_other
         Sample.server_ok (lit "Test Article") (lit "Temp author")
         (lit "harvard.edu") (lit "Staff") (lit "https://x/img.jpg")
         (lit "testing_credit!") (lit "**bold** text")
         (JStr (lit "100251263")) (lit "Entire U.S") false false
         Sample.no_draws = Some q
    /\ generate_draft.create_image_block (lit "https://x/img.jpg")
         (lit "testing_credit!") = Ok image_block
    /\ d_content p
       = image_block ++ paragraph (lit "Staff")
         ++ generate_draft.wrap_paragraphs
              (plain (generate_draft.unique_content (lit "**bold** text")
                        Sample.no_draws))
         ++ style_block
    /\ p_content q
       = image_block
         ++ make_publish.wrap_paragraphs (plain (lit "**bold** text"))
         ++ empty_paragraph ++ style_block.
Proof.
  pose proof (content_ordering Sample.markdown loads_flat Sample.repr_other
                Sample.server_ok (lit "Test Article") (lit "Temp author")
                (lit "harvard.edu") (lit "Staff") (lit "https://x/img.jpg")
                (lit "testing_credit!") (lit "**bold** text")
                (JStr (lit "100251263")) (lit "Entire U.S") false false
                Sample.no_draws) as [Hdraft Hpublish].
  destruct (draft_payload_of Sample.markdown Sample.server_ok
              (lit "Test Article") (lit "Staff") (lit "https://x/img.jpg")
              (lit "testing_credit!") (lit "**bold** text") Sample.no_draws)
    as [p|] eqn:Ep; [|vm_compute in Ep; discriminate Ep].
  destruct (publish_payload_of Sample.markdown loads_flat Sample.repr_other
              Sample.server_ok (lit "Test Article") (lit "Temp author")
              (lit "harvard.edu") (lit "Staff") (lit "https://x/img.jpg")
              (lit "testing_credit!") (lit "**bold** text")
              (JStr (lit "100251263")) (lit "Entire U.S") false false
              Sample.no_draws)
    as [q|] eqn:Eq; [|vm_compute in Eq; discriminate Eq].
  destruct (Hdraft p eq_refl)
    as (ric & ib & html & rac & Hic & Hib & Hh & Hac & Hc).
  destruct (Hpublish q eq_refl) as (ric' & html' & ib' & Hic' & Hh' & Hib' & _ & Hc').
  injection Hic as <-. injection Hh as <-. injection Hac as <-.
  injection Hic' as <-. injection Hh' as <-.
  specialize (Hib' ltac:(discriminate)).
  exists p, q, ib. split; [reflexivity|]. split; [reflexivity|].
  split; [exact Hib|]. split; [exact Hc|].
  assert (ib' = ib) by (unfold make_publish.create_image_block in Hib';
                        unfold generate_draft.create_image_block in Hib;
                        congruence).
  subst ib'. exact Hc'.
Defined.

(* ================================================================== *)
(** * Responses: parse failures and HTML pages                         *)
(* ================================================================== *)

(** C10, as stated, fails: [calculate_nlp] catches only
    [json.JSONDecodeError].  On a body of 2000 opening brackets, which is
    no valid JSON, a decoder with a recursion limit raises
    [RecursionError], and the exception leaves [calculate_nlp]. *)
Lemma calculate_nlp_deep_nesting_raises :
  loads_flat (repeat (ch "[") 2000) = None
  /\ calculate.calculate_nlp Cases.loads_within_limit
       (fun _ => Response 200 (repeat (ch "[") 2000)) 100251263
       Sample.no_draws start
     = (Raise (OtherError (lit "RecursionError")),
        {| sent := [POST_nlp_calculate 100251263]; printed := [] |}).
Proof.
  split; vm_compute; reflexivity.
Qed.

(** C10 (amended): when [json.loads] raises [json.JSONDecodeError] on the
    body of the response, [calculate_nlp] does not raise: it returns the
    HTTP status code, the dict [{"code": -1, "status": "error", "message":
    "Failed to parse JSON response"}] and the request id, so the caller
    finds the keys [code], [status] and [message].  A body that decodes
    is returned decoded; any other exception of [json.loads] leaves
    [calculate_nlp] as it is, after the one request. *)
Theorem calculate_nlp_parse_failure
        (json_loads : pystr -> decoding) (server : request -> http_result)
        (post_id : Z) (e : draws) (s : state) (status_code : Z) (text : pystr) :
  server (POST_nlp_calculate post_id) = Response status_code text ->
  calculate.calculate_nlp json_loads server post_id e s
  = (match json_loads text with
     | Decoded v => Ok (status_code, v, uuid_request e)
     | JSONDecodeError =>
         Ok (status_code, calculate.parse_failure_dict, uuid_request e)
     | DecodingRaised err => Raise err
     end,
     {| sent := sent s ++ [POST_nlp_calculate post_id]; printed := printed s |})
  /\ newsbreak_api.get calculate.parse_failure_dict (lit "code") JNull
     = Ok (JInt (-1))
  /\ newsbreak_api.get calculate.parse_failure_dict (lit "status") JNull
     = Ok (JStr (lit "error"))
  /\ newsbreak_api.get calculate.parse_failure_dict (lit "message") JNull
     = Ok (JStr (lit "Failed to parse JSON response")).
Proof.
  intros Hserver. split; [|repeat split; reflexivity].
  unfold calculate.calculate_nlp, bind, send, ret, raise.
  rewrite Hserver. cbn [fst snd]. now destruct (json_loads text).
Qed.

Lemma calculate_nlp_parse_failure_witness :
  Sample.server_expired (POST_nlp_calculate 100251263)
  = Response 200 Sample.login_page
  /\ decoding_of (loads_flat Sample.login_page) = JSONDecodeError
  /\ calculate.calculate_nlp (fun text => decoding_of (loads_flat text))
       Sample.server_expired 100251263 Sample.no_draws start
     = (Ok (200%Z, calculate.parse_failure_dict, uuid_request Sample.no_draws),
        {| sent := [POST_nlp_calculate 100251263]; printed := [] |}).
Proof.
  split; [reflexivity|]. split; [reflexivity|].
  exact (proj1 (calculate_nlp_parse_failure
                  (fun text => decoding_of (loads_flat text))
                  Sample.server_expired 100251263 Sample.no_draws start 200
                  Sample.login_page eq_refl)).
Defined.

(** With a decoder that raises nothing but [JSONDecodeError],
    [calculate_nlp] always returns a dict or value. *)
Lemma calculate_nlp_of_loads (json_loads : pystr -> option jvalue)
      (server : request -> http_result) (post_id : Z) (e : draws) (s : state) :
  calculate.calculate_nlp (fun text => decoding_of (json_loads text)) server
    post_id e s
  = bind (send server (POST_nlp_calculate post_id))
      (fun response =>
         ret (fst response,
              match json_loads (snd response) with
              | Some v => v
              | None => calculate.parse_failure_dict
              end,
              uuid_request e)) s.
Proof.
  unfold calculate.calculate_nlp, bind, send, ret.
  destruct (server (POST_nlp_calculate post_id)) as [status_code text|msg];
    [|reflexivity].
  cbn [fst snd]. now destruct (json_loads text).
Qed.

Section Validation.
Variable json_loads : pystr -> option jvalue.
Variable repr_other : jvalue -> pystr.


End Validation.

(** ** White space at the ends does not hide an HTML page *)

Section Stripping.

Lemma startswith_iff (p s : pystr) :
  startswith p s = true <-> exists b, s = p ++ b.
Proof.
  split.
  - revert s. induction p as [|x p IH]; intros s H; [now exists s|].
    destruct s as [|y s]; [discriminate|]. cbn [startswith] in H.
    apply andb_true_iff in H as [Hxy H]. apply N.eqb_eq in Hxy. subst y.
    destruct (IH _ H) as [b ->]. now exists b.
  - intros [b ->]. apply startswith_app.
Qed.

Lemma contains_iff (p s : pystr) :
  contains p s = true <-> exists a b, s = a ++ p ++ b.
Proof.
  split.
  - induction s as [|c s IH]; cbn [contains]; intros H.
    + apply startswith_iff in H as [b Hb]. exists [], b. exact Hb.
    + apply orb_true_iff in H as [H|H].
      * apply startswith_iff in H as [b Hb]. exists [], b. exact Hb.
      * destruct (IH H) as (a & b & ->). now exists (c :: a), b.
  - intros (a & b & ->). induction a as [|c a IH].
    + cbn [app]. destruct (p ++ b) eqn:E.
      * cbn [contains]. destruct p; [reflexivity | discriminate].
      * cbn [contains]. rewrite <- E, startswith_app. reflexivity.
    + cbn [app contains]. rewrite IH. apply orb_true_r.
Qed.

Lemma contains_rev (p s : pystr) : contains p (rev s) = contains (rev p) s.
Proof.
  destruct (contains p (rev s)) eqn:E1; destruct (contains (rev p) s) eqn:E2;
    try reflexivity; exfalso.
  - apply contains_iff in E1 as (a & b & H).
    apply (f_equal (@rev N)) in H. rewrite rev_involutive in H.
    rewrite !rev_app_distr, <- app_assoc in H.
    assert (contains (rev p) s = true) by (apply contains_iff; eauto).
    congruence.
  - apply contains_iff in E2 as (a & b & ->).
    assert (contains p (rev (a ++ rev p ++ b)) = true).
    { apply contains_iff. exists (rev b), (rev a).
      now rewrite !rev_app_distr, rev_involutive, <- app_assoc. }
    congruence.
Qed.

Lemma contains_lstrip (x : N) (p s : pystr) :
  isspace x = false -> contains (x :: p) (lstrip s) = contains (x :: p) s.
Proof.
  intros Hx. induction s as [|c s IH]; [reflexivity|].
  cbn [lstrip]. destruct (isspace c) eqn:Hc; [|reflexivity].
  rewrite IH. cbn [contains startswith].
  destruct (N.eqb_spec x c) as [->|_]; [congruence | reflexivity].
Qed.

Lemma contains_strip (x y : N) (p s : pystr) :
  isspace x = false -> isspace y = false ->
  contains (x :: p ++ [y]) (strip s) = contains (x :: p ++ [y]) s.
Proof.
  intros Hx Hy. unfold strip, rstrip.
  assert (Hr : rev (x :: p ++ [y]) = y :: rev p ++ [x])
    by (cbn [rev]; rewrite rev_app_distr; reflexivity).
  assert (Hr2 : rev (y :: rev p ++ [x]) = x :: p ++ [y])
    by (cbn [rev]; rewrite rev_app_distr, rev_involutive; reflexivity).
  rewrite (contains_rev (x :: p ++ [y])), Hr, (contains_lstrip y _ _ Hy).
  rewrite (contains_rev (y :: rev p ++ [x])), Hr2.
  now apply contains_lstrip.
Qed.

Lemma lstrip_idem (s : pystr) : lstrip (lstrip s) = lstrip s.
Proof.
  induction s as [|c s IH]; [reflexivity|]. cbn [lstrip].
  destruct (isspace c) eqn:E; [exact IH|]. cbn [lstrip]. now rewrite E.
Qed.

Lemma lstrip_keeps_last (c : N) (y : pystr) :
  isspace c = false -> exists u, lstrip (y ++ [c]) = u ++ [c].
Proof.
  intros Hc. induction y as [|a y IH].
  - exists []. cbn [app lstrip]. now rewrite Hc.
  - cbn [app lstrip]. destruct (isspace a); [exact IH|]. now exists (a :: y).
Qed.

Lemma strip_idem (s : pystr) : strip (strip s) = strip s.
Proof.
  unfold strip.
  assert (Hl : lstrip (rstrip (lstrip s)) = rstrip (lstrip s)).
  { pose proof (lstrip_idem s) as Hidem.
    destruct (lstrip s) as [|c r] eqn:E; [reflexivity|].
    cbn [lstrip] in Hidem. destruct (isspace c) eqn:Hc.
    - exfalso. apply (f_equal (@List.length N)) in Hidem.
      assert (Hle : forall t, List.length (lstrip t) <= List.length t).
      { induction t as [|a t IHt]; cbn [lstrip]; [lia|].
        destruct (isspace a); cbn [List.length]; lia. }
      specialize (Hle r). cbn [List.length] in Hidem. lia.
    - unfold rstrip. cbn [rev].
      destruct (lstrip_keeps_last c (rev r) Hc) as [u ->].
      rewrite rev_app_distr. cbn [rev app lstrip]. now rewrite Hc. }
  rewrite Hl. unfold rstrip. now rewrite rev_involutive, lstrip_idem.
Qed.

Lemma isspace_letters (c : N) : (33 <= c <= 132)%N -> isspace c = false.
Proof.
  intros Hc. unfold isspace.
  repeat (apply orb_false_iff; split);
    try (apply N.eqb_neq; lia);
    apply andb_false_iff;
    ((left; apply N.leb_gt; lia) || (right; apply N.leb_gt; lia)).
Qed.

Lemma isspace_lower (c : N) : isspace (lower_char c) = isspace c.
Proof.
  unfold lower_char. destruct ((65 <=? c) && (c <=? 90))%N eqn:E; [|reflexivity].
  apply andb_true_iff in E as [Hlo Hhi]. apply N.leb_le in Hlo, Hhi.
  rewrite !isspace_letters by lia. reflexivity.
Qed.

Lemma lstrip_lower (s : pystr) : lstrip (lower s) = lower (lstrip s).
Proof.
  induction s as [|c s IH]; [reflexivity|]. cbn [lower map lstrip].
  rewrite isspace_lower. destruct (isspace c); [exact IH | reflexivity].
Qed.

Lemma rstrip_lower (s : pystr) : rstrip (lower s) = lower (rstrip s).
Proof.
  unfold rstrip. unfold lower at 1. rewrite <- map_rev.
  change (map lower_char (rev s)) with (lower (rev s)).
  rewrite lstrip_lower. unfold lower. now rewrite map_rev.
Qed.

Lemma strip_lower (s : pystr) : strip (lower s) = lower (strip s).
Proof. unfold strip. now rewrite lstrip_lower, rstrip_lower. Qed.

(** The test of [validate_response] gives the same answer on the body and
    on the stripped body. *)
Lemma is_html_response_strip (text : pystr) :
  make_publish.is_html_response (strip text) = make_publish.is_html_response text.
Proof.
  unfold make_publish.is_html_response. rewrite strip_idem. f_equal.
  rewrite <- strip_lower.
  exact (contains_strip (N_of_ascii "<") (N_of_ascii "l") (lit "htm")
                        (lower text) eq_refl eq_refl).
Qed.

End Stripping.

(* ================================================================== *)
(** * The workflow                                                     *)
(* ================================================================== *)

Section Traces.

Lemma emits_silent {A} (n : nat) (m : M A) :
  (forall s, sent (snd (m s)) = sent s) -> emits n m.
Proof.
  intros H s r s' E. exists []. rewrite app_nil_r. split; [|constructor].
  specialize (H s). now rewrite E in H.
Qed.

Lemma emits_ret {A} n (a : A) : emits n (ret a).
Proof. now apply emits_silent. Qed.

Lemma emits_raise {A} n (e : exn) : emits n (@raise A e).
Proof. now apply emits_silent. Qed.

Lemma emits_sys_exit {A} n (c : Z) : emits n (@sys_exit A c).
Proof. now apply emits_silent. Qed.

Lemma emits_lift {A} n (r : result A) : emits n (lift r).
Proof. now apply emits_silent. Qed.

Lemma emits_say n (m : message) : emits n (say m).
Proof. now apply emits_silent. Qed.

Lemma emits_send n (server : request -> http_result) (q : request) :
  stage q = n -> emits n (send server q).
Proof.
  intros Hq s r s' E. exists [q]. split; [|now constructor].
  unfold send in E. destruct (server q); injection E as <- <-; reflexivity.
Qed.

Lemma emits_bind {A B} n (m : M A) (k : A -> M B) :
  emits n m -> (forall a, emits n (k a)) -> emits n (bind m k).
Proof.
  intros Hm Hk s r s' E. unfold bind in E.
  destruct (m s) as [[a|e] s1] eqn:Em.
  - destruct (Hm _ _ _ Em) as (l1 & Hs1 & Hl1).
    destruct (Hk a _ _ _ E) as (l2 & Hs2 & Hl2).
    exists (l1 ++ l2). rewrite Hs2, Hs1, app_assoc. split; [reflexivity|].
    apply Forall_app. now split.
  - injection E as <- <-. now apply (Hm _ _ _ Em).
Qed.

Lemma emits_try {A} n (body : M A) (selects : exn -> bool) (handler : exn -> M A) :
  emits n body -> (forall e, emits n (handler e)) ->
  emits n (try_except body selects handler).
Proof.
  intros Hb Hh s r s' E. unfold try_except in E.
  destruct (body s) as [[a|e] s1] eqn:Eb.
  - injection E as <- <-. now apply (Hb _ _ _ Eb).
  - destruct (Hb _ _ _ Eb) as (l1 & Hs1 & Hl1).
    destruct (selects e).
    + destruct (Hh e _ _ _ E) as (l2 & Hs2 & Hl2).
      exists (l1 ++ l2). rewrite Hs2, Hs1, app_assoc. split; [reflexivity|].
      apply Forall_app. now split.
    + injection E as <- <-. eauto.
Qed.

Lemma emits_when n (c : bool) (m : M unit) :
  emits n m -> emits n (newsbreak_api.when c m).
Proof. intros H. destruct c; [exact H | apply emits_ret]. Qed.

End Traces.

Ltac emits_step :=
  first
    [ apply emits_ret | apply emits_raise | apply emits_sys_exit
    | apply emits_lift | apply emits_say
    | apply emits_send; reflexivity
    | apply emits_when
    | apply emits_bind; [|intros]
    | apply emits_try; [|intros]
    | match goal with
      | |- emits _ (match ?x with _ => _ end) => destruct x
      | |- emits _ (if ?c then _ else _) => destruct c
      end ].

Ltac emits_auto := repeat emits_step.

Section Steps.
Variable markdown : pystr -> result pystr.
Variable json_loads : pystr -> option jvalue.
Variable repr_other : jvalue -> pystr.
Variable py_int : jvalue -> option Z.
Variable server : request -> http_result.
Variable config : newsbreak_api.ArticleConfig.
Variable env : newsbreak_api.environment.

Lemma emits_process_json_response n (text : pystr) :
    emits n (newsbreak_api.process_json_response json_loads text).
Proof. unfold newsbreak_api.process_json_response. emits_auto. Qed.

Lemma emits_create_draft (content : pystr) :
    emits 1 (newsbreak_api.step_create_draft markdown json_loads server
               config env content).
Proof.
    unfold newsbreak_api.step_create_draft, generate_draft.create_draft.
    emits_auto; apply emits_process_json_response.
Qed.

Lemma emits_upload_image (data_id : jvalue) :
    emits 2 (newsbreak_api.step_upload_image json_loads server config env data_id).
Proof.
    unfold newsbreak_api.step_upload_image, upload_image.upload_image.
    emits_auto; apply emits_process_json_response.
Qed.

Lemma emits_update_content (content : pystr) (data_id : jvalue) :
    emits 3 (newsbreak_api.step_update_content json_loads server config env
               content data_id).
Proof.
    unfold newsbreak_api.step_update_content, put_request.make_put_request.
    emits_auto.
Qed.

Lemma emits_calculate_nlp (data_id : jvalue) :
    emits 4 (newsbreak_api.step_calculate_nlp json_loads py_int server env data_id).
Proof.
    unfold newsbreak_api.step_calculate_nlp, calculate.calculate_nlp.
    emits_auto.
Qed.

Lemma emits_make_publish
        (title author_name author_url article_credit image_link image_credit
         article_content : pystr) (data_id : jvalue) (location : pystr)
        (rewrited assisted : bool) (e : draws) :
    emits 5 (make_publish.make_publish markdown json_loads repr_other server
               title author_name author_url article_credit image_link
               image_credit article_content data_id location rewrited
               assisted e).
Proof.
    unfold make_publish.make_publish. emits_auto.
Qed.

Lemma emits_publish (content : pystr) (data_id image_url : jvalue) :
    emits 5 (newsbreak_api.step_publish markdown json_loads repr_other server
               config env content data_id image_url).
Proof.
    unfold newsbreak_api.step_publish.
    emits_auto. apply emits_make_publish.
Qed.
End Steps.

Section Run.
Variable markdown : pystr -> result pystr.
Variable json_loads : pystr -> option jvalue.
Variable repr_other : jvalue -> pystr.
Variable py_int : jvalue -> option Z.
Variable server : request -> http_result.
Variable config : newsbreak_api.ArticleConfig.
Variable env : newsbreak_api.environment.

Lemma bind_raise {A B} (m : M A) (k : A -> M B) (s s1 : state) (e : exn) :
    m s = (Raise e, s1) -> bind m k s = (Raise e, s1).
Proof. intros H. unfold bind. now rewrite H. Qed.

Lemma bind_ok {A B} (m : M A) (k : A -> M B) (s s1 : state) (a : A) :
    m s = (Ok a, s1) -> bind m k s = k a s1.
Proof. intros H. unfold bind. now rewrite H. Qed.

  (** An aborted step ends the run with exit status 1 and no further
      request. *)
Lemma try_handler_abort (body : M unit) (e : exn) (s0 s1 : state) :
    body s0 = (Raise e, s1) -> aborting e ->
    exists pr,
      try_except body is_Exception
        (fun err => bind (say (ErrorLine (str_exn err))) (fun _ => sys_exit 1)) s0
      = (Raise (SystemExit 1), {| sent := sent s1; printed := pr |}).
Proof.
    intros Hbody [->|He]; unfold try_except; rewrite Hbody.
    - cbn [is_Exception]. exists (printed s1). now destruct s1.
    - rewrite He. eexists. reflexivity.
Qed.

Lemma run_main_abort (content : pystr) (e : exn) (s1 : state) :
    newsbreak_api.content_read env = Some content ->
    newsbreak_api.steps markdown json_loads repr_other py_int server config
      env content start = (Raise e, s1) ->
    aborting e ->
    newsbreak_api.status
      (newsbreak_api.run_main markdown json_loads repr_other py_int server
         config env) = 1%Z
    /\ newsbreak_api.requests
         (newsbreak_api.run_main markdown json_loads repr_other py_int server
            config env) = sent s1.
Proof.
    intros Hcontent Hbody He.
    unfold newsbreak_api.run_main, newsbreak_api.main. rewrite Hcontent.
    destruct (try_handler_abort _ e start s1 Hbody He) as [pr Hrun].
    rewrite Hrun. split; reflexivity.
Qed.

  (** Step 1 when the draft response is not an accepted envelope. *)
Lemma create_draft_rejected (content : pystr) (p : draft_payload)
        (status_code : Z) (text : pystr) :
    draft_payload_of markdown server (newsbreak_api.title config)
      (newsbreak_api.article_credit config) (newsbreak_api.image_link config)
      (newsbreak_api.image_credit config) content
      (newsbreak_api.draws_draft env) = Some p ->
    server (POST_draft p) = Response status_code text ->
    draft_accepted json_loads text = false ->
    exists e pr,
      newsbreak_api.step_create_draft markdown json_loads server config env
        content start
      = (Raise e, {| sent := [POST_draft p]; printed := pr |})
      /\ aborting e.
Proof.
    intros Hp Hserver Hrej. apply draft_payload_of_built in Hp.
    unfold newsbreak_api.step_create_draft, generate_draft.create_draft.
    unfold bind at 1. unfold bind at 1. unfold lift at 1. rewrite Hp.
    unfold bind at 1. unfold send at 1. rewrite Hserver.
    unfold ret at 1. cbn [fst snd sent printed start app].
    unfold draft_accepted in Hrej.
    unfold newsbreak_api.process_json_response.
    destruct (json_loads text) as [v|].
    2:{ do 2 eexists. split; [reflexivity | left; reflexivity]. }
    destruct v as [|b|z|f|str|items|d];
      try (unfold bind at 1; unfold ret at 1;
           match goal with
           | |- context [newsbreak_api.when (negb (truthy ?v))] =>
               destruct (truthy v) eqn:Ht
           end;
           do 2 eexists; (split; [reflexivity|]);
           ((left; reflexivity) || (right; reflexivity))).
    destruct (eq_zero (dict_get (lit "code") JNull d)) eqn:Hcode.
    - cbn [negb andb] in *. unfold bind at 1. unfold ret at 1.
      destruct d as [|m d]; [discriminate Hcode|].
      cbn [truthy negb newsbreak_api.when]. unfold bind at 1, ret at 1.
      unfold bind at 1, lift at 1. cbn [newsbreak_api.get].
      rewrite Hrej. cbn [negb newsbreak_api.when].
      do 2 eexists. split; [reflexivity | left; reflexivity].
    - cbn [negb]. do 2 eexists. split; [reflexivity | left; reflexivity].
Qed.
End Run.

(** JSON text does not begin with a tag: the sample reader, like
    [json.loads], refuses it. *)
Lemma loads_flat_rejects_markup (t : pystr) :
  startswith (lit "<") (lstrip t) = true -> loads_flat t = None.
Proof.
  induction t as [|c t IH]; [discriminate|].
  cbn [lstrip]. unfold loads_flat. cbn [skip_ws].
  destruct (is_json_space c) eqn:Hjs.
  - assert (Hsp : isspace c = true).
    { unfold is_json_space in Hjs. unfold isspace.
      repeat match type of Hjs with
             | (_ || _ = true) => apply orb_true_iff in Hjs as [Hjs|Hjs]
             end; apply N.eqb_eq in Hjs; subst c; reflexivity. }
    rewrite Hsp. exact IH.
  - destruct (isspace c) eqn:Hsp.
    + intros _. destruct (N.eqb_spec c (ch "{")) as [->|_];
        [discriminate Hsp | reflexivity].
    + cbn [lit startswith]. intros H. apply andb_true_iff in H as [H _].
      apply N.eqb_eq in H. subst c. reflexivity.
Qed.

Lemma html_page_begins_with_tag (t : pystr) :
  html_page t = true -> startswith (lit "<") (lstrip t) = true.
Proof.
  unfold html_page. intros H. apply orb_true_iff in H as [H|H].
  - destruct (lstrip t) as [|c r]; [discriminate|].
    cbn [lit startswith] in *. apply andb_true_iff in H as [H _].
    now rewrite H.
  - destruct (lstrip t) as [|c r]; [discriminate|].
    cbn [lower map lit startswith] in *. apply andb_true_iff in H as [H _].
    apply N.eqb_eq in H. unfold lower_char in H.
    destruct ((65 <=? c) && (c <=? 90))%N eqn:E.
    + apply andb_true_iff in E as [Hlo _]. apply N.leb_le in Hlo.
      cbn in H. lia.
    + subst c. reflexivity.
Qed.

(** C7: on the draft-creation step the run ends with exit status 1,
    the draft request being the only one issued, whenever the body of the
    response does not parse as JSON or parses as something else than a
    dict, or parses as an envelope whose [code] differs from 0, or begins
    with a doctype or [html] tag; the
    image upload is issued only when the body parses as an envelope with
    [code] equal to 0 and a non-empty [data] identifier.  (That JSON text
    does not begin with [<] is the one fact about [json.loads] the
    property rests on.) *)
Theorem draft_step_gate
        (markdown : pystr -> result pystr) (json_loads : pystr -> option jvalue)
        (repr_other : jvalue -> pystr) (py_int : jvalue -> option Z)
        (server : request -> http_result)
        (config : newsbreak_api.ArticleConfig) (env : newsbreak_api.environment)
        (content : pystr) (p : draft_payload) (status_code : Z) (text : pystr) :
  (forall t, startswith (lit "<") (lstrip t) = true -> json_loads t = None) ->
  newsbreak_api.content_read env = Some content ->
  draft_payload_of markdown server (newsbreak_api.title config)
    (newsbreak_api.article_credit config) (newsbreak_api.image_link config)
    (newsbreak_api.image_credit config) content
    (newsbreak_api.draws_draft env) = Some p ->
  server (POST_draft p) = Response status_code text ->
  let r := newsbreak_api.run_main markdown json_loads repr_other py_int server
             config env in
  ((json_loads text = None
    \/ (exists v, json_loads text = Some v /\ forall d, v <> JObj d)
    \/ (exists d, json_loads text = Some (JObj d)
                  /\ eq_zero (dict_get (lit "code") JNull d) = false)
    \/ html_page text = true) ->
   newsbreak_api.status r = 1%Z /\ newsbreak_api.requests r = [POST_draft p])
  /\ ((exists q, In q (newsbreak_api.requests r) /\ stage q = 2) ->
      exists d, json_loads text = Some (JObj d)
                /\ eq_zero (dict_get (lit "code") JNull d) = true
                /\ truthy (dict_get (lit "data") JNull d) = true).
Proof.
  intros Hjson Hcontent Hp Hserver r.
  assert (Habort : draft_accepted json_loads text = false ->
                   newsbreak_api.status r = 1%Z
                   /\ newsbreak_api.requests r = [POST_draft p]).
  { intros Hrej.
    destruct (create_draft_rejected markdown json_loads server config env
                content p status_code text Hp Hserver Hrej)
      as (e & pr & Hstep & He).
    destruct (run_main_abort markdown json_loads repr_other py_int server
                config env content e _ Hcontent
                (bind_raise _ _ _ _ _ Hstep) He) as [Hst Hreq].
    split; [exact Hst | exact Hreq]. }
  split.
  - intros Hcase. apply Habort. unfold draft_accepted.
    destruct Hcase as [Hnone|[(v & Hv & Hshape)|[(d & Hd & Hcode)|Hhtml]]].
    + now rewrite Hnone.
    + rewrite Hv. destruct v; try reflexivity. now destruct (Hshape members).
    + now rewrite Hd, Hcode.
    + apply html_page_begins_with_tag in Hhtml. now rewrite (Hjson _ Hhtml).
  - intros (q & Hin & Hq).
    destruct (draft_accepted json_loads text) eqn:Hacc.
    + unfold draft_accepted in Hacc.
      destruct (json_loads text) as [[| | | | | |d]|]; try discriminate.
      apply andb_true_iff in Hacc as [Hcode Hdata]. now exists d.
    + destruct (Habort eq_refl) as [_ Hreq]. rewrite Hreq in Hin.
      destruct Hin as [<-|[]]. discriminate Hq.
Qed.

Lemma draft_step_gate_witness :
  exists p,
    draft_payload_of Sample.markdown Sample.server_expired
      (newsbreak_api.title Sample.config)
      (newsbreak_api.article_credit Sample.config)
      (newsbreak_api.image_link Sample.config)
      (newsbreak_api.image_credit Sample.config) (lit "**bold** text")
      (newsbreak_api.draws_draft Sample.env) = Some p
    /\ html_page Sample.login_page = true
    /\ newsbreak_api.status (Sample.run Sample.server_expired) = 1%Z
    /\ newsbreak_api.requests (Sample.run Sample.server_expired) = [POST_draft p].
Proof.
  eexists. split; [vm_compute; reflexivity|]. split; [reflexivity|].
  refine (proj1 (draft_step_gate Sample.markdown loads_flat Sample.repr_other
                   Sample.py_int Sample.server_expired Sample.config Sample.env
                   (lit "**bold** text") _ 200 Sample.login_page
                   loads_flat_rejects_markup eq_refl _ eq_refl)
                (or_intror (or_intror (or_intror eq_refl)))).
  vm_compute. reflexivity.
Defined.

Section NlpStep.
Variable markdown : pystr -> result pystr.
Variable json_loads : pystr -> option jvalue.
Variable repr_other : jvalue -> pystr.
Variable py_int : jvalue -> option Z.
Variable server : request -> http_result.
Variable config : newsbreak_api.ArticleConfig.
Variable env : newsbreak_api.environment.

  (** Step 4: either no request leaves (the identifier is no integer), or
      one NLP request leaves and the step goes on exactly when its
      response signals success. *)
Lemma calculate_nlp_cases (data_id : jvalue) (s : state) (r : result unit)
        (s' : state) :
    newsbreak_api.step_calculate_nlp json_loads py_int server env data_id s
    = (r, s') ->
    (sent s' = sent s /\ exists e, r = Raise e /\ aborting e)
    \/ exists post_id,
        sent s' = sent s ++ [POST_nlp_calculate post_id]
        /\ ((exists status_code text,
               server (POST_nlp_calculate post_id) = Response status_code text
               /\ nlp_accepted json_loads text = true /\ r = Ok tt)
            \/ (exists e, r = Raise e /\ aborting e)).
Proof.
    unfold newsbreak_api.step_calculate_nlp.
    unfold bind at 1.
    destruct (py_int data_id) as [post_id|] eqn:Hint.
    2:{ unfold raise. intros H. injection H as <- <-. left.
        split; [reflexivity|]. eexists. split; [reflexivity|]. now right. }
    unfold ret at 1. intros H. right. exists post_id.
    unfold bind at 1 in H. rewrite calculate_nlp_of_loads in H.
    unfold bind at 1 in H. unfold send at 1 in H.
    destruct (server (POST_nlp_calculate post_id)) as [status_code text|msg]
      eqn:Hserver.
    2:{ injection H as <- <-. split; [reflexivity|]. right.
        eexists. split; [reflexivity|]. now right. }
    unfold ret at 1 in H. cbn [fst snd] in H.
    assert (Hacc : nlp_accepted json_loads text
                   = match (match json_loads text with
                            | Some v => v
                            | None => calculate.parse_failure_dict
                            end) with
                     | JObj d =>
                         eq_zero (dict_get (lit "code") JNull d)
                         && eq_str (dict_get (lit "status") JNull d)
                                   (lit "success")
                     | _ => false
                     end) by reflexivity.
    destruct (match json_loads text with
              | Some v => v
              | None => calculate.parse_failure_dict
              end) as [|b|z|f|str|items|d];
      try (injection H as <- <-; split; [reflexivity|]; right;
           eexists; split; [reflexivity|]; now right).
    unfold bind at 1 in H. unfold lift at 1 in H. cbn [newsbreak_api.get] in H.
    unfold bind at 1 in H. unfold lift at 1 in H.
    destruct (eq_zero (dict_get (lit "code") JNull d)
              && eq_str (dict_get (lit "status") JNull d) (lit "success")).
    - injection H as <- <-. split; [reflexivity|]. left.
      exists status_code, text. repeat split; assumption.
    - injection H as <- <-. split; [reflexivity|]. right.
      eexists. split; [reflexivity|]. now left.
Qed.

  (** The requests of a run, step by step. *)
Lemma body_trace (content : pystr) (rb : result unit) (sb : state) :
    newsbreak_api.steps markdown json_loads repr_other py_int server config
      env content start = (rb, sb) ->
    exists before l4 l5,
      sent sb = before ++ l4 ++ l5
      /\ Forall (fun q => stage q < 4) before
      /\ Forall (fun q => stage q = 5) l5
      /\ (l4 = [] /\ l5 = []
          \/ exists post_id,
              l4 = [POST_nlp_calculate post_id]
              /\ ((exists status_code text,
                     server (POST_nlp_calculate post_id)
                     = Response status_code text
                     /\ nlp_accepted json_loads text = true)
                  \/ (l5 = [] /\ exists e, rb = Raise e /\ aborting e))).
Proof.
    unfold newsbreak_api.steps. intros H.
    assert (Hlt : forall n l, n < 4 -> Forall (fun q => stage q = n) l ->
                              Forall (fun q => stage q < 4) l).
    { intros n l Hn Hl. eapply Forall_impl; [|exact Hl]. cbn. intros q ->. exact Hn. }
    unfold bind at 1 in H.
    destruct (newsbreak_api.step_create_draft _ _ _ _ _ _ start)
      as [[data_id|e1] s1] eqn:E1;
      destruct (emits_create_draft _ _ _ _ _ _ _ _ _ E1) as (l1 & Hs1 & Hl1);
      cbn [sent start app] in Hs1.
    2:{ injection H as <- <-. exists l1, [], []. rewrite Hs1, !app_nil_r.
        split; [reflexivity|]. split; [eauto|]. split; [constructor|].
        left. split; reflexivity. }
    unfold bind at 1 in H.
    destruct (newsbreak_api.step_upload_image _ _ _ _ _ s1)
      as [[image_url|e2] s2] eqn:E2;
      destruct (emits_upload_image _ _ _ _ _ _ _ _ E2) as (l2 & Hs2 & Hl2).
    2:{ injection H as <- <-. exists (l1 ++ l2), [], [].
        rewrite Hs2, Hs1, !app_nil_r.
        split; [reflexivity|]. split; [apply Forall_app; split; eauto|].
        split; [constructor|]. left. split; reflexivity. }
    unfold bind at 1 in H.
    destruct (newsbreak_api.step_update_content _ _ _ _ _ _ s2)
      as [[u3|e3] s3] eqn:E3;
      destruct (emits_update_content _ _ _ _ _ _ _ _ _ E3) as (l3 & Hs3 & Hl3).
    2:{ injection H as <- <-. exists ((l1 ++ l2) ++ l3), [], [].
        rewrite Hs3, Hs2, Hs1, !app_nil_r.
        split; [reflexivity|].
        split; [repeat (apply Forall_app; split); eauto|].
        split; [constructor|]. left. split; reflexivity. }
    assert (Hbefore : Forall (fun q => stage q < 4) ((l1 ++ l2) ++ l3)).
    { repeat (apply Forall_app; split); eauto. }
    unfold bind at 1 in H.
    destruct (newsbreak_api.step_calculate_nlp _ _ _ _ _ s3)
      as [r4 s4] eqn:E4.
    destruct (calculate_nlp_cases _ _ _ _ E4)
      as [[Hs4 (e & -> & He)]|(post_id & Hs4 & Hcase)].
    { injection H as <- <-. exists ((l1 ++ l2) ++ l3), [], [].
      rewrite Hs4, Hs3, Hs2, Hs1, !app_nil_r.
      split; [reflexivity|]. split; [exact Hbefore|].
      split; [constructor|]. left. split; reflexivity. }
    destruct Hcase as [(status_code & text & Hserver & Hacc & ->)|(e & -> & He)].
    - destruct (emits_publish _ _ _ _ _ _ _ _ _ _ _ _ H) as (l5 & Hs5 & Hl5).
      exists ((l1 ++ l2) ++ l3), [POST_nlp_calculate post_id], l5.
      rewrite Hs5, Hs4, Hs3, Hs2, Hs1.
      split; [now rewrite <- !app_assoc|]. split; [exact Hbefore|].
      split; [exact Hl5|]. right. exists post_id. split; [reflexivity|].
      left. eauto.
    - injection H as <- <-.
      exists ((l1 ++ l2) ++ l3), [POST_nlp_calculate post_id], [].
      rewrite Hs4, Hs3, Hs2, Hs1.
      split; [now rewrite <- !app_assoc|]. split; [exact Hbefore|].
      split; [constructor|]. right. exists post_id. split; [reflexivity|].
      right. split; [reflexivity|]. eauto.
Qed.

Lemma run_main_requests (content : pystr) :
    newsbreak_api.content_read env = Some content ->
    newsbreak_api.requests
      (newsbreak_api.run_main markdown json_loads repr_other py_int server
         config env)
    = sent (snd (newsbreak_api.steps markdown json_loads repr_other py_int
                   server config env content start)).
Proof.
    intros Hcontent. unfold newsbreak_api.run_main, newsbreak_api.main.
    rewrite Hcontent. unfold try_except.
    destruct (newsbreak_api.steps _ _ _ _ _ _ _ _ start) as [[u|e] s];
      [reflexivity|].
    destruct (is_Exception e); reflexivity.
Qed.
End NlpStep.

(** C9: in every run in which the NLP request is issued and its response
    does not carry both [code == 0] and [status == "success"], the run
    ends with exit status 1, the NLP request is the last request of the
    run, and no publish request is issued. *)
Theorem nlp_failure_aborts
        (markdown : pystr -> result pystr) (json_loads : pystr -> option jvalue)
        (repr_other : jvalue -> pystr) (py_int : jvalue -> option Z)
        (server : request -> http_result)
        (config : newsbreak_api.ArticleConfig) (env : newsbreak_api.environment)
        (post_id status_code : Z) (text : pystr) :
  let r := newsbreak_api.run_main markdown json_loads repr_other py_int server
             config env in
  In (POST_nlp_calculate post_id) (newsbreak_api.requests r) ->
  server (POST_nlp_calculate post_id) = Response status_code text ->
  nlp_accepted json_loads text = false ->
  newsbreak_api.status r = 1%Z
  /\ Forall (fun q => stage q <> 5) (newsbreak_api.requests r)
  /\ exists before,
       newsbreak_api.requests r = before ++ [POST_nlp_calculate post_id].
Proof.
  intros r Hin Hserver Hrej. subst r.
  destruct (newsbreak_api.content_read env) as [content|] eqn:Hcontent.
  2:{ exfalso. unfold newsbreak_api.run_main, newsbreak_api.main in Hin.
      rewrite Hcontent in Hin. exact Hin. }
  pose proof (run_main_requests markdown json_loads repr_other py_int server
                config env content Hcontent) as Hreq.
  destruct (newsbreak_api.steps markdown json_loads repr_other py_int server
              config env content start) as [rb sb] eqn:Hbody.
  destruct (body_trace markdown json_loads repr_other py_int server config env
              content rb sb Hbody)
    as (before & l4 & l5 & Htrace & Hbefore & Hl5 & Hcase).
  cbn [snd] in Hreq. rewrite Hreq, Htrace in *.
  assert (Hnot_before : ~ In (POST_nlp_calculate post_id) before).
  { intros H. rewrite Forall_forall in Hbefore. apply Hbefore in H.
    cbn in H. lia. }
  assert (Hnot_l5 : ~ In (POST_nlp_calculate post_id) l5).
  { intros H. rewrite Forall_forall in Hl5. apply Hl5 in H. discriminate H. }
  destruct Hcase as [[-> ->]|(pid & -> & Hcase)].
  { rewrite app_nil_r in Hin. contradiction. }
  assert (pid = post_id).
  { apply in_app_or in Hin as [H|H]; [contradiction|].
    apply in_app_or in H as [[H|[]]|H]; [congruence | contradiction]. }
  subst pid.
  destruct Hcase as [(st & tx & Hs & Hacc)|(-> & e & -> & He)].
  { rewrite Hserver in Hs. injection Hs as <- <-. congruence. }
  rewrite app_nil_r in *.
  destruct (run_main_abort markdown json_loads repr_other py_int server config
              env content e sb Hcontent Hbody He) as [Hst _].
  split; [exact Hst|]. split; [|now exists before].
  apply Forall_app. split.
  - eapply Forall_impl; [|exact Hbefore]. cbn. intros q Hq. lia.
  - constructor; [discriminate | constructor].
Qed.

Lemma nlp_failure_aborts_witness :
  In (POST_nlp_calculate 100251263)
     (newsbreak_api.requests (Sample.run Sample.server_nlp_busy))
  /\ nlp_accepted loads_flat Sample.envelope_busy = false
  /\ newsbreak_api.status (Sample.run Sample.server_nlp_busy) = 1%Z
  /\ Forall (fun q => stage q <> 5)
       (newsbreak_api.requests (Sample.run Sample.server_nlp_busy)).
Proof.
  assert (Hin : In (POST_nlp_calculate 100251263)
                   (newsbreak_api.requests (Sample.run Sample.server_nlp_busy))).
  { vm_compute. do 3 right. left. reflexivity. }
  split; [exact Hin|]. split; [reflexivity|].
  destruct (nlp_failure_aborts Sample.markdown loads_flat Sample.repr_other
              Sample.py_int Sample.server_nlp_busy Sample.config Sample.env
              100251263 200 Sample.envelope_busy Hin eq_refl eq_refl)
    as (Hst & Hno & _).
  split; [exact Hst | exact Hno].
Defined.

Section SessionExpired.
Variable json_loads : pystr -> option jvalue.
Variable server : request -> http_result.
Variable config : newsbreak_api.ArticleConfig.
Variable env : newsbreak_api.environment.




End SessionExpired.




Section PublishOutcome.
Variable markdown : pystr -> result pystr.
Variable json_loads : pystr -> option jvalue.
Variable repr_other : jvalue -> pystr.
Variable server : request -> http_result.
Opaque style_block empty_paragraph.

(** [make_publish] once its fields are validated and rendered: one
    request, and a refusal of the validator raised again by the last
    [except] clause under "Unexpected error: ", without status code. *)
Lemma make_publish_outcome
      (title author_name author_url article_credit image_link image_credit
       article_content : pystr) (data_id : jvalue) (location : pystr)
      (rewrited assisted : bool) (e : draws) (s : state)
      (raw_image_credit html_content raw_article_credit image_block : pystr) :
  truthy_str title && truthy_str author_name && truthy_str article_content
  && truthy data_id = true ->
  make_publish.location_allowed location = true ->
  make_publish.render_fields markdown image_credit article_content
    article_credit = Ok (raw_image_credit, html_content, raw_article_credit) ->
  (if truthy_str image_link
   then make_publish.create_image_block image_link raw_image_credit
   else Ok []) = Ok image_block ->
  let payload :=
    {| p_content := image_block ++ html_content ++ empty_paragraph
                    ++ style_block;
       p_mp_tags_manual := [];
       p_location := location;
       p_locationPid := location;
       p_title := title;
       p_is_title_rewrited := rewrited;
       p_is_ai_assisted := assisted;
       p_editor_version := lit "1.0";
       p_covers := if truthy_str image_link then [image_link] else [] |} in
  let s' := {| sent := sent s ++ [PUT_publish data_id payload];
               printed := printed s |} in
  make_publish.make_publish markdown json_loads repr_other server title
    author_name author_url article_credit image_link image_credit
    article_content data_id location rewrited assisted e s
  = match server (PUT_publish data_id payload) with
    | Response status_code text =>
        match make_publish.validate_response json_loads repr_other
                status_code text with
        | (true, _) => (Ok (status_code, text, uuid_request e), s')
        | (false, error_message) =>
            (Raise (PublishError (lit "Unexpected error: " ++ error_message)
                                 None None), s')
        end
    | ConnectionFailed msg =>
        (Raise (PublishError (lit "Network error occurred: " ++ msg)
                             None None), s')
    end.
Proof.
  intros Hfields Hloc Hrender Hblock payload s'.
  unfold make_publish.make_publish. rewrite Hfields. cbn [negb].
  unfold make_publish.validate_location. rewrite Hloc. cbn [negb].
  unfold bind at 1, lift at 1.
  unfold try_except at 1. unfold bind at 1. unfold try_except at 1.
  unfold lift at 1. rewrite Hrender.
  unfold bind at 1.
  assert (Hib : (if truthy_str image_link
                 then lift (make_publish.create_image_block image_link
                              raw_image_credit)
                 else ret []) s = (Ok image_block, s)).
  { destruct (truthy_str image_link); unfold lift, ret; now rewrite Hblock. }
  rewrite Hib. unfold bind at 1, send at 1. fold payload.
  destruct (server (PUT_publish data_id payload)) as [status_code text|msg].
  - fold s'.
    destruct (make_publish.validate_response json_loads repr_other
                status_code text) as [[|] error_message]; reflexivity.
  - reflexivity.
Qed.

Transparent style_block empty_paragraph.
End PublishOutcome.

(* ================================================================== *)
(** * Further properties of the renderers                              *)
(* ================================================================== *)

Section BlobCharacters.

Lemma hex_upper_safe (d : N) : (d < 16)%N -> is_safe (hex_upper d) = true.
Proof.
  intros H. unfold hex_upper, is_safe.
  destruct (N.ltb_spec d 10).
  - replace ((48 <=? 48 + d) && (48 + d <=? 57))%N with true.
    + now rewrite !orb_true_r.
    + symmetry. apply andb_true_iff. split; apply N.leb_le; lia.
  - replace ((65 <=? 55 + d) && (55 + d <=? 90))%N with true; [reflexivity|].
    symmetry. apply andb_true_iff. split; apply N.leb_le; lia.
Qed.

Lemma quote_byte_safe (b : N) :
  (b < 256)%N -> forallb attribute_safe (quote_byte b) = true.
Proof.
  intros H. unfold quote_byte, attribute_safe.
  destruct (is_safe b) eqn:Hs.
  - cbn [forallb]. now rewrite Hs.
  - cbn [forallb]. rewrite !hex_upper_safe by ndiv.
    rewrite N.eqb_refl, orb_true_r. reflexivity.
Qed.

Lemma quote_from_bytes_safe (bs : list N) :
  forallb printable bs = true ->
  forallb attribute_safe (quote_from_bytes bs) = true.
Proof.
  unfold quote_from_bytes. induction bs as [|b bs IH]; intros H; [reflexivity|].
  cbn [forallb] in H. apply andb_true_iff in H as [Hb Hbs].
  cbn [flat_map]. rewrite forallb_app, (IH Hbs), andb_true_r.
  apply quote_byte_safe. unfold printable in Hb.
  apply andb_true_iff in Hb as [_ Hhi]. apply N.leb_le in Hhi. lia.
Qed.

End BlobCharacters.

(** X1: the percent-encoding step of [create_image_block] cannot fail, since
    [json.dumps] writes ASCII only: each of the three copies returns a
    block for every URL and credit, whatever code points they hold, and
    the metadata blob of the block holds only letters, digits, [_.-~/]
    and [%], so that it cannot end the attribute it is written in. *)
Theorem create_image_block_never_fails (url credit : pystr) (width height : Z) :
  exists blob blob',
    forallb attribute_safe blob = true
    /\ forallb attribute_safe blob' = true
    /\ put_request.create_image_block url credit width height
       = Ok (image_block_markup blob url credit
               (str_of_int width) (str_of_int height))
    /\ generate_draft.create_image_block url credit
       = Ok (image_block_markup blob' url credit (lit "1500") (lit "1000"))
    /\ make_publish.create_image_block url credit
       = Ok (image_block_markup blob' url credit (lit "1500") (lit "1000")).
Proof.
  exists (quote_from_bytes (dumps (info_dict url credit width height))),
         (quote_from_bytes (dumps (info_dict url credit 1500 1000))).
  split; [apply quote_from_bytes_safe, dumps_printable|].
  split; [apply quote_from_bytes_safe, dumps_printable|].
  unfold put_request.create_image_block, generate_draft.create_image_block,
    make_publish.create_image_block.
  rewrite !quote_dumps. repeat split.
Qed.

Lemma printable_is_byte (s : pystr) :
  forallb printable s = true -> forallb (fun b => b <? 256)%N s = true.
Proof.
  induction s as [|c s IH]; intros H; [reflexivity|].
  cbn [forallb] in *. apply andb_true_iff in H as [Hc Hs].
  rewrite (IH Hs), andb_true_r. unfold printable in Hc.
  apply andb_true_iff in Hc as [_ Hhi]. apply N.leb_le in Hhi.
  apply N.ltb_lt. lia.
Qed.

(** The serialized metadata grows with the digits of the height. *)
Lemma dumps_info_dict_length (url credit : pystr) (w h h' : Z) :
  List.length (dumps (info_dict url credit w h))
  + List.length (str_of_int h')
  = List.length (dumps (info_dict url credit w h'))
    + List.length (str_of_int h).
Proof.
  unfold dumps, info_dict. cbn [map join_comma].
  unfold dumps_member. cbn [fst snd dumps_scalar].
  rewrite !length_app. lia.
Qed.

(** X2: the three copies of [create_image_block] return the same block when
    the copy of put_request.py is given the dimensions 1500 and 1000 that
    the two others write; with its own defaults, 1500 and 993, it returns
    another block, for every URL and credit. *)
Theorem create_image_block_copies_agree (url credit : pystr) :
  put_request.create_image_block url credit 1500 1000
  = generate_draft.create_image_block url credit
  /\ make_publish.create_image_block url credit
     = generate_draft.create_image_block url credit
  /\ put_request.create_image_block url credit
       put_request.default_width put_request.default_height
     <> generate_draft.create_image_block url credit.
Proof.
  split; [reflexivity|]. split; [reflexivity|].
  unfold put_request.create_image_block, generate_draft.create_image_block,
    put_request.default_width, put_request.default_height.
  rewrite !quote_dumps. intros Heq.
  apply (f_equal (fun r => match r with
                           | Ok html => attribute_value "data-editornodeinfo" html
                           | Raise _ => None
                           end)) in Heq.
  rewrite !attribute_value_of_block in Heq by apply quote_from_bytes_no_quote.
  apply (f_equal (fun o => match o with
                           | Some v => unquote_to_bytes v
                           | None => []
                           end)) in Heq.
  rewrite !unquote_quote in Heq by apply printable_is_byte, dumps_printable.
  pose proof (dumps_info_dict_length url credit 1500 993 1000) as Hlen.
  rewrite Heq in Hlen.
  change (List.length (str_of_int 1000)) with 4 in Hlen.
  change (List.length (str_of_int 993)) with 3 in Hlen. lia.
Qed.

Lemma endswith_iff (p s : pystr) :
  endswith p s = true <-> exists a, s = a ++ p.
Proof.
  unfold endswith. rewrite startswith_iff. split.
  - intros [b Hb]. exists (rev b).
    rewrite <- (rev_involutive s), Hb, rev_app_distr, rev_involutive.
    reflexivity.
  - intros [a ->]. exists (rev a). apply rev_app_distr.
Qed.

(** A text that starts with [<p>] and ends with [</p>] holds both tags
    side by side: the two cannot share a character. *)
Lemma paragraph_tags_apart (raw : pystr) :
  startswith (lit "<p>") raw = true -> endswith (lit "</p>") raw = true ->
  exists inner, raw = plain inner.
Proof.
  intros Hs He. apply startswith_iff in Hs as [a Ha].
  apply endswith_iff in He as [b Hb]. subst raw.
  destruct b as [|x [|y [|z b]]]; try discriminate Hb.
  cbn [lit app] in Hb. injection Hb as <- <- <- ->.
  now exists b.
Qed.

(** X3: where the renderers cut a credit, they cut exactly the opening tag
    at its start and the closing tag at its end: the text between [<p>]
    and [</p>] is what is left, so that wrapping it again gives the stripped
    rendering back; any other rendering is embedded as it is, white space
    at its ends apart. *)
Theorem strip_credit_cut_is_exact (rendered : pystr) :
  let raw := strip rendered in
  if startswith (lit "<p>") raw && endswith (lit "</p>") raw
  then plain (strip_credit rendered) = raw
  else strip_credit rendered = raw.
Proof.
  intros raw. unfold strip_credit. fold raw.
  destruct (startswith (lit "<p>") raw) eqn:Hs; [|reflexivity].
  destruct (endswith (lit "</p>") raw) eqn:He; [|reflexivity].
  cbn [andb]. destruct (paragraph_tags_apart raw Hs He) as [inner Hraw].
  rewrite Hraw. f_equal. unfold slice, plain. rewrite !length_app.
  change (skipn 3 (lit "<p>" ++ inner ++ lit "</p>")) with (inner ++ lit "</p>").
  replace (List.length (lit "<p>") + (List.length inner + List.length (lit "</p>"))
           - 4 - 3) with (List.length inner + 0) by (cbn [lit List.length]; lia).
  now rewrite firstn_app_2, app_nil_r.
Qed.

Section Unmatched.

Lemma contains_skipn (p s : pystr) (n : nat) :
  contains p s = false -> contains p (skipn n s) = false.
Proof.
  revert s. induction n as [|n IH]; intros s H; [exact H|].
  destruct s as [|c s]; [exact H|]. cbn [skipn]. apply IH.
  cbn [contains] in H. now apply orb_false_iff in H as [_ H].
Qed.

Lemma split_first_none (p s : pystr) :
  contains p s = false -> Re.split_first p s = None.
Proof.
  induction s as [|c s IH]; cbn [contains Re.split_first]; intros H.
  - now rewrite H.
  - apply orb_false_iff in H as [Hh Ht]. now rewrite Hh, (IH Ht).
Qed.

Lemma sub_from_no_opening (opening closing : pystr) (repl : pystr -> pystr)
      (s : pystr) :
  contains opening s = false -> Re.sub_from opening closing repl 0 s = s.
Proof.
  induction s as [|c s IH]; intros H; [reflexivity|].
  cbn [contains] in H. apply orb_false_iff in H as [Hh Ht].
  cbn [Re.sub_from]. now rewrite Hh, (IH Ht).
Qed.

Lemma sub_from_no_closing (opening closing : pystr) (repl : pystr -> pystr)
      (s : pystr) :
  contains closing s = false -> Re.sub_from opening closing repl 0 s = s.
Proof.
  induction s as [|c s IH]; intros H; [reflexivity|].
  pose proof (contains_skipn closing (c :: s) (List.length opening) H) as Hk.
  cbn [contains] in H. apply orb_false_iff in H as [_ Ht].
  cbn [Re.sub_from]. rewrite (split_first_none _ _ Hk), (IH Ht).
  now destruct (startswith opening (c :: s)).
Qed.

End Unmatched.

(** X4: [wrap_paragraphs] changes nothing in a text that holds no complete
    paragraph: without a [<p>], or with a [<p>] that no [</p>] closes,
    the text comes back as it is. *)
Theorem wrap_paragraphs_without_paragraph (html_text : pystr) :
  contains (lit "<p>") html_text = false
  \/ contains (lit "</p>") html_text = false ->
  generate_draft.wrap_paragraphs html_text = html_text
  /\ make_publish.wrap_paragraphs html_text = html_text.
Proof.
  unfold generate_draft.wrap_paragraphs, make_publish.wrap_paragraphs,
    Markup.wrap_paragraphs, Re.sub_delimited.
  intros [H|H]; split;
    (now apply sub_from_no_opening) || (now apply sub_from_no_closing).
Qed.

Lemma wrap_paragraphs_without_paragraph_witness :
  generate_draft.wrap_paragraphs (lit "<ul><li><p>open</li></ul>")
  = lit "<ul><li><p>open</li></ul>".
Proof.
  exact (proj1 (wrap_paragraphs_without_paragraph
                  (lit "<ul><li><p>open</li></ul>") (or_intror eq_refl))).
Defined.

(** X5: [wrap_paragraph] of put_request.py with the alignment [start] writes
    the block that [wrap_paragraphs] writes for a paragraph of the same
    inner text: decorating [<p>text</p>] with the one is decorating [text]
    with the other, for every text that holds no [</p>]. *)
Theorem wrap_paragraph_is_the_decorated_block (text : pystr) :
  contains (lit "</p>") text = false ->
  generate_draft.wrap_paragraphs (plain text)
  = put_request.wrap_paragraph text (lit "start").
Proof.
  intros H. unfold generate_draft.wrap_paragraphs, Markup.wrap_paragraphs,
    Re.sub_delimited, plain.
  replace (lit "<p>" ++ text ++ lit "</p>")
    with (lit "<p>" ++ text ++ lit "</p>" ++ []) by now rewrite app_nil_r.
  rewrite sub_from_match;
    [| discriminate | now apply split_first_closing_tag].
  cbn [Re.sub_from]. rewrite app_nil_r.
  unfold paragraph, put_request.wrap_paragraph, attr.
  now rewrite <- !app_assoc.
Qed.

Lemma wrap_paragraph_is_the_decorated_block_witness :
  generate_draft.wrap_paragraphs (plain (lit "<strong>bold</strong> text"))
  = put_request.wrap_paragraph (lit "<strong>bold</strong> text") (lit "start").
Proof.
  exact (wrap_paragraph_is_the_decorated_block
           (lit "<strong>bold</strong> text") eq_refl).
Defined.

(* ================================================================== *)
(** * Further properties of the publish call                           *)
(* ================================================================== *)

(** X6: [validate_response] accepts a response exactly when its status is
    200, its body is no HTML page and parses as JSON, and the parsed value,
    if it is a dict, has [code] equal to 0; the error message is empty
    exactly for an accepted response, so that every refusal comes with a
    text. *)
Theorem validate_response_verdict
        (json_loads : pystr -> option jvalue) (repr_other : jvalue -> pystr)
        (status_code : Z) (text : pystr) :
  let verdict :=
    make_publish.validate_response json_loads repr_other status_code text in
  (fst verdict = true
   <-> status_code = 200%Z
       /\ make_publish.is_html_response text = false
       /\ exists v, json_loads (strip text) = Some v
                    /\ forall d, v = JObj d ->
                                 eq_zero (dict_get (lit "code") JNull d) = true)
  /\ (snd verdict = [] <-> fst verdict = true).
Proof.
  cbv zeta. unfold make_publish.validate_response.
  destruct (Z.eqb_spec status_code 200) as [->|Hne]; cbn [negb].
  2:{ split; split; try discriminate.
      intros (H & _). contradiction. }
  rewrite is_html_response_strip.
  destruct (make_publish.is_html_response text).
  { split; split; try discriminate. intros (_ & H & _). discriminate. }
  destruct (json_loads (strip text)) as [v|].
  2:{ split; split; try discriminate. intros (_ & _ & v & H & _). discriminate. }
  destruct v as [|b|z|f|str|items|d];
    try (split; split; try reflexivity; intros _;
         split; [reflexivity|]; split; [reflexivity|];
         eexists; split; [reflexivity|]; intros d Hd; discriminate Hd).
  destruct (eq_zero (dict_get (lit "code") JNull d)) eqn:Hcode; cbn [negb fst snd].
  - split; split; try reflexivity. intros _.
    split; [reflexivity|]. split; [reflexivity|].
    exists (JObj d). split; [reflexivity|].
    intros d' Hd'. injection Hd' as <-. exact Hcode.
  - split; split; try discriminate.
    intros (_ & _ & v & Hv & Hd). injection Hv as <-.
    rewrite (Hd d eq_refl) in Hcode. discriminate.
Qed.

Section PublishCases.
Variable markdown : pystr -> result pystr.
Variable json_loads : pystr -> option jvalue.
Variable repr_other : jvalue -> pystr.
Variable server : request -> http_result.
Opaque style_block empty_paragraph.

  (** The ways [make_publish] ends: refused fields, a refused location, a
      rendering that raised, or one request and what came of it. *)
Lemma make_publish_cases
        (title author_name author_url article_credit image_link image_credit
         article_content : pystr) (data_id : jvalue) (location : pystr)
        (rewrited assisted : bool) (e : draws) (s : state)
        (r : result (Z * pystr * pystr)) (s' : state) :
    make_publish.make_publish markdown json_loads repr_other server title
      author_name author_url article_credit image_link image_credit
      article_content data_id location rewrited assisted e s = (r, s') ->
    let required := truthy_str title && truthy_str author_name
                    && truthy_str article_content && truthy data_id in
    (required = false /\ s' = s
     /\ r = Raise (ValueError (lit
          "Required fields missing: title, author_name, article_content, or data_id")))
    \/ (required = true /\ make_publish.location_allowed location = false
        /\ s' = s
        /\ r = Raise (ValueError make_publish.invalid_location_message))
    \/ (required = true /\ make_publish.location_allowed location = true
        /\ s' = s
        /\ exists err,
             make_publish.render_fields markdown image_credit article_content
               article_credit = Raise err
             /\ r = if is_Exception err
                    then Raise (PublishError
                                  (lit "Unexpected error: "
                                   ++ lit "Error processing markdown content: "
                                   ++ str_exn err) None None)
                    else Raise err)
    \/ (required = true /\ make_publish.location_allowed location = true
        /\ exists payload,
             s' = {| sent := sent s ++ [PUT_publish data_id payload];
                     printed := printed s |}
             /\ p_title payload = title
             /\ p_location payload = location
             /\ p_locationPid payload = location
             /\ p_covers payload
                = (if truthy_str image_link then [image_link] else [])
             /\ p_is_title_rewrited payload = rewrited
             /\ p_is_ai_assisted payload = assisted
             /\ p_mp_tags_manual payload = []
             /\ p_editor_version payload = lit "1.0"
             /\ r = match server (PUT_publish data_id payload) with
                    | Response status_code text =>
                        match make_publish.validate_response json_loads
                                repr_other status_code text with
                        | (true, _) => Ok (status_code, text, uuid_request e)
                        | (false, error_message) =>
                            Raise (PublishError
                                     (lit "Unexpected error: " ++ error_message)
                                     None None)
                        end
                    | ConnectionFailed msg =>
                        Raise (PublishError
                                 (lit "Network error occurred: " ++ msg)
                                 None None)
                    end).
Proof.
    intros H required.
    destruct required eqn:Hreq; subst required.
    2:{ left. unfold make_publish.make_publish in H. rewrite Hreq in H.
        cbn [negb] in H. unfold raise in H. injection H as <- <-.
        repeat split. }
    right.
    destruct (make_publish.location_allowed location) eqn:Hloc.
    2:{ left. unfold make_publish.make_publish in H. rewrite Hreq in H.
        cbn [negb] in H. unfold bind at 1, lift at 1 in H.
        unfold make_publish.validate_location in H. rewrite Hloc in H.
        cbn [negb] in H. injection H as <- <-. repeat split. }
    right.
    destruct (make_publish.render_fields markdown image_credit article_content
                article_credit) as [[[raw_image_credit html_content]
                                       raw_article_credit]|err] eqn:Hrender.
    2:{ left. unfold make_publish.make_publish in H. rewrite Hreq in H.
        cbn [negb] in H. unfold bind at 1, lift at 1 in H.
        unfold make_publish.validate_location in H. rewrite Hloc in H.
        cbn [negb] in H.
        unfold try_except at 1 in H. unfold bind at 1 in H.
        unfold try_except at 1 in H. unfold lift at 1 in H.
        rewrite Hrender in H.
        split; [reflexivity|]. split; [reflexivity|].
        destruct err; cbn [is_Exception] in H;
          unfold raise in H; cbn [is_Exception is_RequestException] in H;
          injection H as <- <-;
          (split; [reflexivity|]); eexists; (split; [reflexivity|]);
          reflexivity. }
    right. split; [reflexivity|]. split; [reflexivity|].
    pose proof (make_publish_outcome markdown json_loads repr_other server
                  title author_name author_url article_credit image_link
                  image_credit article_content data_id location rewrited
                  assisted e s raw_image_credit html_content
                  raw_article_credit
                  (if truthy_str image_link
                   then image_block_markup
                          (quote_from_bytes
                             (dumps (info_dict image_link raw_image_credit
                                               1500 1000)))
                          image_link raw_image_credit (lit "1500") (lit "1000")
                   else [])
                  Hreq Hloc Hrender) as Hout.
    cbv zeta in Hout. rewrite Hout in H.
    2:{ unfold make_publish.create_image_block. rewrite quote_dumps.
        now destruct (truthy_str image_link). }
    match type of H with
    | context [server (PUT_publish data_id ?p)] => exists p
    end.
    destruct (server _) as [status_code text|msg];
      [destruct (make_publish.validate_response _ _ _ _) as [[|] m]|];
      injection H as <- <-; repeat split.
Qed.

Transparent style_block empty_paragraph.
End PublishCases.

Section RenderFields.
Variable markdown : pystr -> result pystr.

  (** What the inner [try] of [make_publish] raises, Markdown conversion
      raised. *)
Lemma render_fields_raises (image_credit article_content article_credit : pystr)
        (err : exn) :
    make_publish.render_fields markdown image_credit article_content
      article_credit = Raise err ->
    exists text, markdown text = Raise err.
Proof.
    unfold make_publish.render_fields, rbind.
    destruct (markdown image_credit) eqn:E1; [|intros H; exists image_credit; congruence].
    destruct (markdown article_content) eqn:E2;
      [|intros H; exists article_content; congruence].
    destruct (markdown article_credit) eqn:E3;
      [discriminate|intros H; exists article_credit; congruence].
Qed.
End RenderFields.

(** X7: [make_publish] raises [ValueError] exactly for arguments it refuses
    before any request: for an empty title, author name, article content or
    draft identifier, with the message "Required fields missing: ...",
    whatever the location is; and otherwise for a location outside the four
    allowed ones, with the message that lists them.  The state is left as it
    was.  A [ValueError] of Markdown conversion never leaves as one. *)
Theorem make_publish_value_errors
        (markdown : pystr -> result pystr) (json_loads : pystr -> option jvalue)
        (repr_other : jvalue -> pystr) (server : request -> http_result)
        (title author_name author_url article_credit image_link image_credit
         article_content : pystr) (data_id : jvalue) (location : pystr)
        (is_title_rewrited is_ai_assisted : bool) (e : draws) (s s' : state)
        (msg : pystr) :
  let required := truthy_str title && truthy_str author_name
                  && truthy_str article_content && truthy data_id in
  make_publish.make_publish markdown json_loads repr_other server
    title author_name author_url article_credit image_link image_credit
    article_content data_id location is_title_rewrited is_ai_assisted e s
  = (Raise (ValueError msg), s')
  <-> s' = s
      /\ (required = false
          /\ msg = lit
               "Required fields missing: title, author_name, article_content, or data_id"
          \/ required = true
             /\ ~ In location make_publish.allowed_locations
             /\ msg = lit "Invalid location. Must be one of: "
                      ++ lit "Entire U.S, Cambridge, MA, Boston, MA, Massachusetts State").
Proof.
  cbv zeta. split.
  - intros H.
    destruct (make_publish_cases _ _ _ _ _ _ _ _ _ _ _ _ _ _ _ _ _ _ _ H)
      as [(Hreq & -> & Hr)|[(Hreq & Hloc & -> & Hr)
         |[(_ & _ & _ & er & _ & Hr)|(_ & _ & payload & _ & _ & _ & _ & _ & _ & _ & _ & _ & Hr)]]].
    + injection Hr as ->. split; [reflexivity|]. left. now split.
    + injection Hr as ->. split; [reflexivity|]. right.
      split; [exact Hreq|]. split; [|reflexivity].
      intros Hin. apply location_allowed_spec in Hin.
      rewrite Hin in Hloc. discriminate Hloc.
    + destruct er; discriminate Hr.
    + destruct (server _) as [status_code text|m];
        [destruct (make_publish.validate_response _ _ _ _) as [[|] m]|];
        discriminate Hr.
  - intros (-> & [(Hreq & ->)|(Hreq & Hloc & ->)]).
    + unfold make_publish.make_publish. now rewrite Hreq.
    + assert (Hb : make_publish.location_allowed location = false).
      { destruct (make_publish.location_allowed location) eqn:E; [|reflexivity].
        apply location_allowed_spec in E. contradiction. }
      unfold make_publish.make_publish. rewrite Hreq. cbn [negb].
      unfold bind at 1, lift at 1, make_publish.validate_location.
      rewrite Hb. reflexivity.
Qed.

(** X8: whatever goes wrong, [make_publish] raises one of two things: a
    [ValueError], before any request, or a [PublishError] that carries
    neither a status code nor a response text.  The [PublishError] that the
    validation of the response raises with both is caught by the last
    [except] clause and raised again without them. *)
Theorem make_publish_error_kinds
        (markdown : pystr -> result pystr) (json_loads : pystr -> option jvalue)
        (repr_other : jvalue -> pystr) (server : request -> http_result)
        (title author_name author_url article_credit image_link image_credit
         article_content : pystr) (data_id : jvalue) (location : pystr)
        (is_title_rewrited is_ai_assisted : bool) (e : draws) (s s' : state)
        (err : exn) :
  (forall text er, markdown text = Raise er -> is_Exception er = true) ->
  make_publish.make_publish markdown json_loads repr_other server
    title author_name author_url article_credit image_link image_credit
    article_content data_id location is_title_rewrited is_ai_assisted e s
  = (Raise err, s') ->
  (exists msg, err = ValueError msg /\ s' = s)
  \/ (exists msg, err = PublishError msg None None).
Proof.
  intros Hmd H.
  destruct (make_publish_cases _ _ _ _ _ _ _ _ _ _ _ _ _ _ _ _ _ _ _ H)
    as [(_ & -> & Hr)|[(_ & _ & -> & Hr)|[(_ & _ & -> & er & Hrender & Hr)
       |(_ & _ & payload & _ & _ & _ & _ & _ & _ & _ & _ & _ & Hr)]]].
  - left. injection Hr as ->. eexists. split; reflexivity.
  - left. injection Hr as ->. eexists. split; reflexivity.
  - right. destruct (render_fields_raises _ _ _ _ _ Hrender) as [text Htext].
    rewrite (Hmd _ _ Htext) in Hr. injection Hr as ->. eexists. reflexivity.
  - right. destruct (server _) as [status_code text|msg];
      [destruct (make_publish.validate_response _ _ _ _) as [[|] m]|];
      try discriminate Hr; injection Hr as ->; eexists; reflexivity.
Qed.

Lemma make_publish_error_kinds_witness :
  fst (make_publish.make_publish Sample.markdown loads_flat Sample.repr_other
         Sample.server_expired (lit "Test Article") (lit "Temp author")
         (lit "harvard.edu") (lit "Staff") (lit "https://x/img.jpg")
         (lit "testing_credit!") (lit "**bold** text")
         (JStr (lit "100251263")) (lit "Entire U.S") false false
         Sample.no_draws start)
  = Raise (PublishError
             (lit "Unexpected error: " ++ make_publish.session_expired_message)
             None None)
  /\ exists msg,
    PublishError (lit "Unexpected error: " ++ make_publish.session_expired_message)
                 None None
    = PublishError msg None None.
Proof.
  assert (Hmd : forall text er,
             Sample.markdown text = Raise er -> is_Exception er = true)
    by (intros text er H; discriminate H).
  destruct (make_publish_error_kinds Sample.markdown loads_flat
              Sample.repr_other Sample.server_expired (lit "Test Article")
              (lit "Temp author") (lit "harvard.edu") (lit "Staff")
              (lit "https://x/img.jpg") (lit "testing_credit!")
              (lit "**bold** text") (JStr (lit "100251263"))
              (lit "Entire U.S") false false Sample.no_draws start
              (snd (make_publish.make_publish Sample.markdown loads_flat
                      Sample.repr_other Sample.server_expired
                      (lit "Test Article") (lit "Temp author")
                      (lit "harvard.edu") (lit "Staff")
                      (lit "https://x/img.jpg") (lit "testing_credit!")
                      (lit "**bold** text") (JStr (lit "100251263"))
                      (lit "Entire U.S") false false Sample.no_draws start))
              (PublishError
                 (lit "Unexpected error: " ++ make_publish.session_expired_message)
                 None None)
              Hmd
              eq_refl) as [(msg & Hm & _)|Hm].
  - discriminate Hm.
  - split; [reflexivity | exact Hm].
Defined.

(** X9: when Markdown conversion raises on the image credit, the body or the
    article credit, [make_publish] issues no request and raises a
    [PublishError] whose message wraps the text of the exception twice: in
    the prefix of the inner handler, and in the prefix of the last
    [except] clause, which catches the [PublishError] of the inner one. *)
Theorem make_publish_rendering_failure
        (markdown : pystr -> result pystr) (json_loads : pystr -> option jvalue)
        (repr_other : jvalue -> pystr) (server : request -> http_result)
        (title author_name author_url article_credit image_link image_credit
         article_content : pystr) (data_id : jvalue) (location : pystr)
        (is_title_rewrited is_ai_assisted : bool) (e : draws) (s : state)
        (err : exn) :
  truthy_str title && truthy_str author_name && truthy_str article_content
  && truthy data_id = true ->
  make_publish.location_allowed location = true ->
  make_publish.render_fields markdown image_credit article_content
    article_credit = Raise err ->
  is_Exception err = true ->
  make_publish.make_publish markdown json_loads repr_other server
    title author_name author_url article_credit image_link image_credit
    article_content data_id location is_title_rewrited is_ai_assisted e s
  = (Raise (PublishError
              (lit "Unexpected error: Error processing markdown content: "
               ++ str_exn err) None None), s).
Proof.
  intros Hreq Hloc Hrender Herr.
  destruct (make_publish.make_publish _ _ _ _ _ _ _ _ _ _ _ _ _ _ _ _ s)
    as [r s'] eqn:H.
  destruct (make_publish_cases _ _ _ _ _ _ _ _ _ _ _ _ _ _ _ _ _ _ _ H)
    as [(Hf & _)|[(_ & Hf & _)|[(_ & _ & -> & er & Hrender' & ->)
       |(_ & _ & payload & Hs & _)]]].
  - rewrite Hreq in Hf. discriminate Hf.
  - rewrite Hloc in Hf. discriminate Hf.
  - rewrite Hrender in Hrender'. injection Hrender' as <-.
    rewrite Herr. reflexivity.
  - exfalso. clear - Hrender H Hreq Hloc Hs.
    unfold make_publish.make_publish in H. rewrite Hreq in H.
    cbn [negb] in H. unfold bind at 1, lift at 1 in H.
    unfold make_publish.validate_location in H. rewrite Hloc in H.
    cbn [negb] in H.
    unfold try_except at 1 in H. unfold bind at 1 in H.
    unfold try_except at 1 in H. unfold lift at 1 in H.
    rewrite Hrender in H.
    assert (Hsame : s' = s).
    { destruct err; cbn [is_Exception is_RequestException] in H;
        unfold raise in H; cbn [is_Exception is_RequestException] in H;
        now injection H as _ <-. }
    rewrite Hsame in Hs. apply (f_equal sent) in Hs. cbn [sent] in Hs.
    apply (f_equal (@List.length request)) in Hs.
    rewrite length_app in Hs. cbn [List.length] in Hs. lia.
Qed.

Lemma make_publish_rendering_failure_witness :
  make_publish.make_publish Cases.markdown_failing loads_flat Sample.repr_other
    Sample.server_ok (lit "Test Article") (lit "Temp author")
    (lit "harvard.edu") (lit "Staff") (lit "https://x/img.jpg")
    (lit "testing_credit!") (lit "**bold** text") (JStr (lit "100251263"))
    (lit "Entire U.S") false false Sample.no_draws start
  = (Raise (PublishError
              (lit "Unexpected error: Error processing markdown content: "
               ++ lit "conversion failed") None None), start).
Proof.
  exact (make_publish_rendering_failure Cases.markdown_failing loads_flat
           Sample.repr_other Sample.server_ok (lit "Test Article")
           (lit "Temp author") (lit "harvard.edu") (lit "Staff")
           (lit "https://x/img.jpg") (lit "testing_credit!")
           (lit "**bold** text") (JStr (lit "100251263")) (lit "Entire U.S")
           false false Sample.no_draws start
           (OtherError (lit "conversion failed"))
           eq_refl eq_refl eq_refl eq_refl).
Defined.

(** X10: when the request cannot be delivered, [make_publish] has issued
    exactly one request and raises a [PublishError] that says
    "Network error occurred: " before the text of the transport error. *)
Theorem make_publish_network_failure
        (markdown : pystr -> result pystr) (json_loads : pystr -> option jvalue)
        (repr_other : jvalue -> pystr) (server : request -> http_result)
        (title author_name author_url article_credit image_link image_credit
         article_content : pystr) (data_id : jvalue) (location : pystr)
        (is_title_rewrited is_ai_assisted : bool) (e : draws) (s : state)
        (fields : pystr * pystr * pystr) (msg : pystr) :
  truthy_str title && truthy_str author_name && truthy_str article_content
  && truthy data_id = true ->
  make_publish.location_allowed location = true ->
  make_publish.render_fields markdown image_credit article_content
    article_credit = Ok fields ->
  (forall payload, server (PUT_publish data_id payload) = ConnectionFailed msg) ->
  exists payload,
    make_publish.make_publish markdown json_loads repr_other server
      title author_name author_url article_credit image_link image_credit
      article_content data_id location is_title_rewrited is_ai_assisted e s
    = (Raise (PublishError (lit "Network error occurred: " ++ msg) None None),
       {| sent := sent s ++ [PUT_publish data_id payload];
          printed := printed s |}).
Proof.
  intros Hreq Hloc Hrender Hdown.
  destruct (make_publish.make_publish _ _ _ _ _ _ _ _ _ _ _ _ _ _ _ _ s)
    as [r s'] eqn:H.
  destruct (make_publish_cases _ _ _ _ _ _ _ _ _ _ _ _ _ _ _ _ _ _ _ H)
    as [(Hf & _)|[(_ & Hf & _)|[(_ & _ & _ & er & Hrender' & _)
       |(_ & _ & payload & -> & _ & _ & _ & _ & _ & _ & _ & _ & ->)]]].
  - rewrite Hreq in Hf. discriminate Hf.
  - rewrite Hloc in Hf. discriminate Hf.
  - rewrite Hrender in Hrender'. discriminate Hrender'.
  - exists payload. now rewrite Hdown.
Qed.

Lemma make_publish_network_failure_witness :
  exists payload,
    make_publish.make_publish Sample.markdown loads_flat Sample.repr_other
      Cases.server_down (lit "Test Article") (lit "Temp author")
      (lit "harvard.edu") (lit "Staff") (lit "https://x/img.jpg")
      (lit "testing_credit!") (lit "**bold** text") (JStr (lit "100251263"))
      (lit "Entire U.S") false false Sample.no_draws start
    = (Raise (PublishError (lit "Network error occurred: "
                            ++ lit "connection refused") None None),
       {| sent := [PUT_publish (JStr (lit "100251263")) payload];
          printed := [] |}).
Proof.
  exact (make_publish_network_failure Sample.markdown loads_flat
           Sample.repr_other Cases.server_down (lit "Test Article")
           (lit "Temp author") (lit "harvard.edu") (lit "Staff")
           (lit "https://x/img.jpg") (lit "testing_credit!")
           (lit "**bold** text") (JStr (lit "100251263")) (lit "Entire U.S")
           false false Sample.no_draws start _ (lit "connection refused")
           eq_refl eq_refl eq_refl (fun _ => eq_refl)).
Defined.

(** X11: [make_publish] returns only after one request whose response the
    validator accepted: the status it returns is 200, the text is the body
    of that response, the request id is the one it drew, the location is one
    of the four allowed ones, and the payload it sent carries the title as
    given, the location twice, the image link as the only cover (none for an
    empty link), the two flags as given, no tags and editor version
    "1.0". *)
Theorem make_publish_returns
        (markdown : pystr -> result pystr) (json_loads : pystr -> option jvalue)
        (repr_other : jvalue -> pystr) (server : request -> http_result)
        (title author_name author_url article_credit image_link image_credit
         article_content : pystr) (data_id : jvalue) (location : pystr)
        (is_title_rewrited is_ai_assisted : bool) (e : draws) (s s' : state)
        (status_code : Z) (text request_id : pystr) :
  make_publish.make_publish markdown json_loads repr_other server
    title author_name author_url article_credit image_link image_credit
    article_content data_id location is_title_rewrited is_ai_assisted e s
  = (Ok (status_code, text, request_id), s') ->
  status_code = 200%Z
  /\ fst (make_publish.validate_response json_loads repr_other status_code text)
     = true
  /\ request_id = uuid_request e
  /\ In location make_publish.allowed_locations
  /\ exists payload,
       s' = {| sent := sent s ++ [PUT_publish data_id payload];
               printed := printed s |}
       /\ server (PUT_publish data_id payload) = Response status_code text
       /\ p_title payload = title
       /\ p_location payload = location
       /\ p_locationPid payload = location
       /\ p_covers payload = (if truthy_str image_link then [image_link] else [])
       /\ p_is_title_rewrited payload = is_title_rewrited
       /\ p_is_ai_assisted payload = is_ai_assisted
       /\ p_mp_tags_manual payload = []
       /\ p_editor_version payload = lit "1.0".
Proof.
  intros H.
  destruct (make_publish_cases _ _ _ _ _ _ _ _ _ _ _ _ _ _ _ _ _ _ _ H)
    as [(_ & _ & Hr)|[(_ & _ & _ & Hr)|[(_ & _ & _ & er & _ & Hr)
       |(_ & Hloc & payload & Hs & Ht & Hl & Hp & Hc & Hw & Ha & Hm & Hv & Hr)]]];
    try discriminate Hr.
  { destruct (is_Exception er); discriminate Hr. }
  destruct (server (PUT_publish data_id payload)) as [st body|msg] eqn:Hserver;
    [|discriminate Hr].
  destruct (make_publish.validate_response json_loads repr_other st body)
    as [[|] m] eqn:Hvalid; [|discriminate Hr].
  injection Hr as E1 E2 E3. subst status_code text request_id.
  assert (Hst : st = 200%Z).
  { unfold make_publish.validate_response in Hvalid.
    destruct (Z.eqb_spec st 200); [assumption | discriminate Hvalid]. }
  split; [exact Hst|]. split; [now rewrite Hvalid|].
  split; [reflexivity|]. split; [now apply location_allowed_spec|].
  exists payload. repeat split; assumption.
Qed.

Lemma make_publish_returns_witness :
  exists payload,
    snd (make_publish.make_publish Sample.markdown loads_flat Sample.repr_other
           Sample.server_ok (lit "Test Article") (lit "Temp author")
           (lit "harvard.edu") (lit "Staff") (lit "https://x/img.jpg")
           (lit "testing_credit!") (lit "**bold** text")
           (JStr (lit "100251263")) (lit "Entire U.S") false false
           Sample.no_draws start)
    = {| sent := [PUT_publish (JStr (lit "100251263")) payload]; printed := [] |}
    /\ p_title payload = lit "Test Article"
    /\ p_covers payload = [lit "https://x/img.jpg"].
Proof.
  destruct (make_publish_returns Sample.markdown loads_flat Sample.repr_other
              Sample.server_ok (lit "Test Article") (lit "Temp author")
              (lit "harvard.edu") (lit "Staff") (lit "https://x/img.jpg")
              (lit "testing_credit!") (lit "**bold** text")
              (JStr (lit "100251263")) (lit "Entire U.S") false false
              Sample.no_draws start
              (snd (make_publish.make_publish Sample.markdown loads_flat
                      Sample.repr_other Sample.server_ok (lit "Test Article")
                      (lit "Temp author") (lit "harvard.edu") (lit "Staff")
                      (lit "https://x/img.jpg") (lit "testing_credit!")
                      (lit "**bold** text") (JStr (lit "100251263"))
                      (lit "Entire U.S") false false Sample.no_draws start))
              200%Z Sample.envelope_ok (uuid_request Sample.no_draws)
              eq_refl)
    as (_ & _ & _ & _ & payload & Hs & _ & Ht & _ & _ & Hc & _).
  exists payload. split; [exact Hs|]. split; [exact Ht | exact Hc].
Defined.

(* ================================================================== *)
(** * Further properties of the draft call                             *)
(* ================================================================== *)

Section DraftCases.
Variable markdown : pystr -> result pystr.
Variable server : request -> http_result.
Opaque style_block.

  (** [build_article_json] once the three renderings are known. *)
Lemma build_article_json_built
        (title article_credit image_link image_credit article_content : pystr)
        (ric html rac : pystr) :
    markdown image_credit = Ok ric ->
    markdown article_content = Ok html ->
    markdown article_credit = Ok rac ->
    generate_draft.build_article_json markdown title article_credit image_link
      image_credit article_content
    = Ok {| d_title := title;
            d_content :=
              image_block_markup
                (quote_from_bytes
                   (dumps (info_dict image_link (strip_credit ric) 1500 1000)))
                image_link (strip_credit ric) (lit "1500") (lit "1000")
              ++ (paragraph (strip_credit rac)
                  ++ generate_draft.wrap_paragraphs html)
              ++ style_block;
            d_covers := if truthy_str image_link then [image_link] else [];
            d_isEvergreen := false;
            d_location := [];
            d_locationPid := [];
            d_mp_tags_manual := [];
            d_editor_version := lit "1.0" |}.
Proof.
    intros Hic Hh Hac. unfold generate_draft.build_article_json, rbind.
    rewrite Hic. unfold generate_draft.create_image_block.
    rewrite quote_dumps, Hh, Hac. reflexivity.
Qed.

Transparent style_block.
End DraftCases.

(** X13: the payload of the draft request: the title followed by the clock
    second and the random number in brackets, the image link as the only
    cover (none for an empty link), never evergreen, no location, no tags,
    editor version "1.0"; its content opens with the image block even when
    the image link is empty.  *)
Theorem create_draft_payload_fields
        (markdown : pystr -> result pystr) (server : request -> http_result)
        (title article_credit image_link image_credit article_content : pystr)
        (e : draws) (p : draft_payload) :
  draft_payload_of markdown server title article_credit image_link
    image_credit article_content e = Some p ->
  d_title p = title ++ lit " [" ++ str_of_int (clock e) ++ lit "-"
              ++ str_of_int (randint e) ++ lit "]"
  /\ d_covers p = (if truthy_str image_link then [image_link] else [])
  /\ d_isEvergreen p = false
  /\ d_location p = []
  /\ d_locationPid p = []
  /\ d_mp_tags_manual p = []
  /\ d_editor_version p = lit "1.0"
  /\ startswith (lit "<figure><div data-editornodeinfo=") (d_content p) = true.
Proof.
  intros Hp. apply draft_payload_of_built in Hp.
  pose proof Hp as Hb.
  apply build_article_json_content in Hb
    as (ric & ib & html & rac & Hic & _ & Hh & Hac & _ & _).
  rewrite (build_article_json_built markdown _ _ _ _ _ ric html rac Hic Hh Hac)
    in Hp.
  apply (f_equal (fun r => match r with Ok q => q | Raise _ => p end)) in Hp.
  cbn beta iota in Hp. subst p.
  cbn [d_title d_covers d_isEvergreen d_location d_locationPid
       d_mp_tags_manual d_editor_version d_content].
  unfold generate_draft.unique_title, generate_draft.unique_suffix.
  rewrite <- !app_assoc. repeat (split; [reflexivity|]).
  unfold image_block_markup, attr. rewrite <- !app_assoc.
  change (lit "<figure>" ++ lit "<div " ++ lit "data-editornodeinfo" ++ lit "="
          ++ ?x)
    with (lit "<figure><div data-editornodeinfo=" ++ x).
  apply startswith_app.
Qed.

Lemma create_draft_payload_fields_witness :
  exists p,
    draft_payload_of Sample.markdown Sample.server_ok (lit "Test Article")
      (lit "Staff") [] (lit "testing_credit!") (lit "**bold** text")
      Sample.no_draws = Some p
    /\ d_title p = lit "Test Article [1700000000-1234]"
    /\ d_covers p = []
    /\ startswith (lit "<figure><div data-editornodeinfo=") (d_content p) = true.
Proof.
  eexists. split; [reflexivity|].
  destruct (create_draft_payload_fields Sample.markdown Sample.server_ok
              (lit "Test Article") (lit "Staff") [] (lit "testing_credit!")
              (lit "**bold** text") Sample.no_draws _ eq_refl)
    as (Ht & Hc & _ & _ & _ & _ & _ & Hf).
  split; [exact Ht|]. split; [exact Hc | exact Hf].
Defined.

(** X14: [create_draft] validates nothing.  When Markdown conversion accepts
    the image credit, the salted body and the article credit, it issues one
    request and returns the status code and the body of the response as
    they are, whatever they are, with the request id it drew; a transport
    error leaves as the [RequestException] it is.  When conversion raises,
    the first exception leaves as it is and no request is issued. *)
Theorem create_draft_outcome
        (markdown : pystr -> result pystr) (server : request -> http_result)
        (title article_credit image_link image_credit article_content : pystr)
        (e : draws) (s : state) :
  match markdown image_credit,
        markdown (generate_draft.unique_content article_content e),
        markdown article_credit with
  | Ok _, Ok _, Ok _ =>
      exists p,
        draft_payload_of markdown server title article_credit image_link
          image_credit article_content e = Some p
        /\ generate_draft.create_draft markdown server title article_credit
             image_link image_credit article_content e s
           = (match server (POST_draft p) with
              | Response status_code text =>
                  Ok (status_code, text, uuid_request e)
              | ConnectionFailed msg => Raise (RequestException msg)
              end,
              {| sent := sent s ++ [POST_draft p]; printed := printed s |})
  | Raise err, _, _ | Ok _, Raise err, _ | Ok _, Ok _, Raise err =>
      generate_draft.create_draft markdown server title article_credit
        image_link image_credit article_content e s = (Raise err, s)
  end.
Proof.
  destruct (markdown image_credit) as [ric|e1] eqn:Hic.
  2:{ unfold generate_draft.create_draft, bind, lift.
      unfold generate_draft.build_article_json, rbind. now rewrite Hic. }
  destruct (markdown (generate_draft.unique_content article_content e))
    as [html|e2] eqn:Hh.
  2:{ unfold generate_draft.create_draft, bind, lift.
      unfold generate_draft.build_article_json, rbind. rewrite Hic.
      unfold generate_draft.create_image_block. rewrite quote_dumps.
      now rewrite Hh. }
  destruct (markdown article_credit) as [rac|e3] eqn:Hac.
  2:{ unfold generate_draft.create_draft, bind, lift.
      unfold generate_draft.build_article_json, rbind. rewrite Hic.
      unfold generate_draft.create_image_block. rewrite quote_dumps.
      now rewrite Hh, Hac. }
  pose proof (build_article_json_built markdown
                (generate_draft.unique_title title e) article_credit image_link
                image_credit (generate_draft.unique_content article_content e)
                ric html rac Hic Hh Hac) as Hb.
  eexists. split; [apply draft_payload_of_built; exact Hb|].
  unfold generate_draft.create_draft. unfold bind at 1, lift at 1.
  rewrite Hb. unfold bind, send, ret.
  destruct (server _); reflexivity.
Qed.

(* ================================================================== *)
(** * The two tests for an HTML page; what the publish request leaves out *)
(* ================================================================== *)

Lemma startswith_shorter (p q s : pystr) :
  startswith (p ++ q) s = true -> startswith p s = true.
Proof.
  intros H. apply startswith_iff in H as [b ->]. rewrite <- app_assoc.
  apply startswith_app.
Qed.

(** X15: the test of step 3 for an HTML page is narrower than the test of
    [validate_response]: every body the first takes for a login page the
    second takes for HTML, but a page whose doctype is written in lower
    case, and which holds no [html] tag, passes the first and not the
    second. *)
Theorem login_page_test_is_narrower (text : pystr) :
  (newsbreak_api.looks_like_login_page text = true ->
   make_publish.is_html_response text = true)
  /\ newsbreak_api.looks_like_login_page (lit "<!doctype html><body>Sign in</body>")
     = false
  /\ make_publish.is_html_response (lit "<!doctype html><body>Sign in</body>")
     = true.
Proof.
  split; [|split; reflexivity].
  unfold newsbreak_api.looks_like_login_page, make_publish.is_html_response.
  intros H. apply orb_true_iff in H as [H|H].
  - rewrite H. apply orb_true_r.
  - change (lit "<!DOCTYPE") with (lit "<!" ++ lit "DOCTYPE") in H.
    now rewrite (startswith_shorter _ _ _ H).
Qed.

Section Unused.
Variable markdown : pystr -> result pystr.
Variable json_loads : pystr -> option jvalue.
Variable repr_other : jvalue -> pystr.
Variable server : request -> http_result.
Opaque style_block empty_paragraph.

  (** The payload of the publish request, from the fields that reach
      it. *)
Lemma publish_payload_of_value
        (title author_name author_url article_credit image_link image_credit
         article_content : pystr) (data_id : jvalue) (location : pystr)
        (rewrited assisted : bool) (e : draws) :
    publish_payload_of markdown json_loads repr_other server title author_name
      author_url article_credit image_link image_credit article_content
      data_id location rewrited assisted e
    = if truthy_str title && truthy_str author_name
         && truthy_str article_content && truthy data_id
         && make_publish.location_allowed location
      then match make_publish.render_fields markdown image_credit
                   article_content article_credit with
           | Ok (raw_image_credit, html_content, _) =>
               Some {| p_content :=
                         (if truthy_str image_link
                          then image_block_markup
                                 (quote_from_bytes
                                    (dumps (info_dict image_link
                                              raw_image_credit 1500 1000)))
                                 image_link raw_image_credit
                                 (lit "1500") (lit "1000")
                          else [])
                         ++ html_content ++ empty_paragraph ++ style_block;
                       p_mp_tags_manual := [];
                       p_location := location;
                       p_locationPid := location;
                       p_title := title;
                       p_is_title_rewrited := rewrited;
                       p_is_ai_assisted := assisted;
                       p_editor_version := lit "1.0";
                       p_covers :=
                         if truthy_str image_link then [image_link] else [] |}
           | Raise _ => None
           end
      else None.
Proof.
    unfold publish_payload_of.
    destruct (truthy_str title && truthy_str author_name
              && truthy_str article_content && truthy data_id) eqn:Hreq.
    2:{ unfold make_publish.make_publish. rewrite Hreq. reflexivity. }
    destruct (make_publish.location_allowed location) eqn:Hloc.
    2:{ unfold make_publish.make_publish. rewrite Hreq. cbn [negb].
        unfold bind at 1, lift at 1. unfold make_publish.validate_location.
        rewrite Hloc. reflexivity. }
    cbn [andb].
    destruct (make_publish.render_fields markdown image_credit article_content
                article_credit) as [[[raw_image_credit html_content]
                                       raw_article_credit]|err] eqn:Hrender.
    2:{ unfold make_publish.make_publish. rewrite Hreq. cbn [negb].
        unfold bind at 1, lift at 1. unfold make_publish.validate_location.
        rewrite Hloc. cbn [negb].
        unfold try_except at 1. unfold bind at 1.
        unfold try_except at 1. unfold lift at 1. rewrite Hrender.
        destruct err; reflexivity. }
    pose proof (make_publish_outcome markdown json_loads repr_other server
                  title author_name author_url article_credit image_link
                  image_credit article_content data_id location rewrited
                  assisted e start raw_image_credit html_content
                  raw_article_credit
                  (if truthy_str image_link
                   then image_block_markup
                          (quote_from_bytes
                             (dumps (info_dict image_link raw_image_credit
                                               1500 1000)))
                          image_link raw_image_credit (lit "1500") (lit "1000")
                   else [])
                  Hreq Hloc Hrender) as Hout.
    cbv zeta in Hout. rewrite Hout.
    2:{ unfold make_publish.create_image_block. rewrite quote_dumps.
        now destruct (truthy_str image_link). }
    destruct (server _) as [status_code text|msg];
      [destruct (make_publish.validate_response _ _ _ _) as [[|] m]|];
      reflexivity.
Qed.

Transparent style_block empty_paragraph.
End Unused.

(** X12: the publish request leaves out the author and the article credit:
    [make_publish] requires an author name and converts the article credit,
    but neither of them, nor the author URL, nor the identifiers it draws,
    reaches the payload.  Another author name (not empty), author URL and
    article credit (one that Markdown conversion accepts) give the same
    payload. *)
Theorem make_publish_leaves_out_author_and_credit
        (markdown : pystr -> result pystr) (json_loads : pystr -> option jvalue)
        (repr_other : jvalue -> pystr) (server : request -> http_result)
        (title author_name author_url article_credit image_link image_credit
         article_content : pystr) (data_id : jvalue) (location : pystr)
        (is_title_rewrited is_ai_assisted : bool) (e : draws)
        (author_name' author_url' article_credit' rendered : pystr) (e' : draws)
        (p : publish_payload) :
  publish_payload_of markdown json_loads repr_other server title author_name
    author_url article_credit image_link image_credit article_content
    data_id location is_title_rewrited is_ai_assisted e = Some p ->
  truthy_str author_name' = true ->
  markdown article_credit' = Ok rendered ->
  publish_payload_of markdown json_loads repr_other server title author_name'
    author_url' article_credit' image_link image_credit article_content
    data_id location is_title_rewrited is_ai_assisted e' = Some p.
Proof.
  intros Hp Hname Hcredit. rewrite publish_payload_of_value in *.
  destruct (truthy_str title) eqn:Ht; [|discriminate Hp].
  destruct (truthy_str author_name); [|discriminate Hp].
  destruct (truthy_str article_content); [|discriminate Hp].
  destruct (truthy data_id); [|discriminate Hp].
  destruct (make_publish.location_allowed location); [|discriminate Hp].
  rewrite Hname. cbn [andb] in *.
  unfold make_publish.render_fields, rbind in *.
  destruct (markdown image_credit) as [ric|]; [|discriminate Hp].
  destruct (markdown article_content) as [html|]; [|discriminate Hp].
  rewrite Hcredit.
  destruct (markdown article_credit) as [rac|]; [|discriminate Hp].
  exact Hp.
Qed.

Lemma make_publish_leaves_out_author_and_credit_witness :
  publish_payload_of Sample.markdown loads_flat Sample.repr_other
    Sample.server_ok (lit "Test Article") (lit "Temp author")
    (lit "harvard.edu") (lit "Staff") (lit "https://x/img.jpg")
    (lit "testing_credit!") (lit "**bold** text") (JStr (lit "100251263"))
    (lit "Entire U.S") false false Sample.no_draws
  = publish_payload_of Sample.markdown loads_flat Sample.repr_other
      Sample.server_ok (lit "Test Article") (lit "Another author")
      (lit "example.org") (lit "Another credit") (lit "https://x/img.jpg")
      (lit "testing_credit!") (lit "**bold** text") (JStr (lit "100251263"))
      (lit "Entire U.S") false false Sample.other_marker.
Proof.
  symmetry.
  exact (make_publish_leaves_out_author_and_credit Sample.markdown loads_flat
           Sample.repr_other Sample.server_ok (lit "Test Article")
           (lit "Temp author") (lit "harvard.edu") (lit "Staff")
           (lit "https://x/img.jpg") (lit "testing_credit!")
           (lit "**bold** text") (JStr (lit "100251263")) (lit "Entire U.S")
           false false Sample.no_draws (lit "Another author")
           (lit "example.org") (lit "Another credit")
           (plain (lit "Another credit")) Sample.other_marker _
           eq_refl eq_refl eq_refl).
Defined.

Lemma dict_get_missing (key : pystr) (default : jvalue)
      (d : list (pystr * jvalue)) :
  (forall k v, In (k, v) d -> k <> key) -> dict_get key default d = default.
Proof.
  induction d as [|[k v] d IH]; intros H; [reflexivity|].
  cbn [dict_get]. destruct (PyStr.eqb k key) eqn:E.
  - apply eqb_eq in E. destruct (H k v (or_introl eq_refl) E).
  - apply IH. intros k' v' Hin. apply (H k' v'). now right.
Qed.

(** X16: an envelope without a [code] is refused at every step: [d.get('code')]
    is then [None], which is not 0.  No test of the workflow accepts such a
    response, whatever its other keys say, and the validator of the publish
    call reports the code as "None". *)
Theorem envelope_without_code_is_refused
        (json_loads : pystr -> option jvalue) (repr_other : jvalue -> pystr)
        (status_code : Z) (text : pystr) (d : list (pystr * jvalue)) :
  json_loads text = Some (JObj d) ->
  json_loads (strip text) = Some (JObj d) ->
  (forall k v, In (k, v) d -> k <> lit "code") ->
  (forall q, accepted json_loads repr_other q status_code text = false)
  /\ (make_publish.is_html_response text = false ->
      make_publish.validate_response json_loads repr_other 200 text
      = (false,
         lit "API returned error code: None - "
         ++ make_publish.format_value repr_other
              (dict_get (lit "message") (JStr (lit "No message")) d))).
Proof.
  intros Hjson Hstrip Hcode.
  pose proof (dict_get_missing (lit "code") JNull d Hcode) as Hget.
  split.
  - intros q.
    destruct q; cbn [accepted];
      unfold draft_accepted, update_accepted, nlp_accepted,
        make_publish.validate_response.
    + now rewrite Hjson, Hget.
    + now rewrite Hjson, Hget.
    + rewrite Hjson, Hget. cbn [eq_zero]. now rewrite andb_false_r.
    + now rewrite Hjson, Hget.
    + destruct (negb (status_code =? 200)%Z); [reflexivity|].
      destruct (make_publish.is_html_response (strip text)); [reflexivity|].
      now rewrite Hstrip, Hget.
  - intros Hhtml. unfold make_publish.validate_response.
    change (negb (200 =? 200)%Z) with false. cbv iota.
    rewrite is_html_response_strip, Hhtml, Hstrip, Hget. reflexivity.
Qed.

Lemma envelope_without_code_is_refused_witness :
  accepted loads_flat Sample.repr_other (POST_nlp_calculate 100251263) 200
    (dumps [(lit "status", SStr (lit "success"));
            (lit "data", SStr (lit "100251263"))]) = false.
Proof.
  refine (proj1 (envelope_without_code_is_refused loads_flat Sample.repr_other
                   200
                   (dumps [(lit "status", SStr (lit "success"));
                           (lit "data", SStr (lit "100251263"))])
                   [(lit "status", JStr (lit "success"));
                    (lit "data", JStr (lit "100251263"))]
                   eq_refl eq_refl _) (POST_nlp_calculate 100251263)).
  intros k v [H|[H|[]]]; injection H as <- _; discriminate.
Defined.

(* ================================================================== *)
(** * The five steps, one by one                                       *)
(* ================================================================== *)

Ltac run_in H :=
  cbv beta iota zeta delta [bind ret lift raise say sys_exit try_except
                       newsbreak_api.when send fst snd] in H.

Ltac stop_with :=
  eexists; split; [reflexivity | first [left; reflexivity | right; reflexivity]].

Ltac settle_in H :=
  run_in H; cbn [negb andb is_Exception newsbreak_api.get] in H; run_in H;
  injection H as <- <-;
  (split; [reflexivity | first [reflexivity | stop_with]]).

Ltac settle := let H := fresh "H" in intros H; settle_in H.

Section StepCases.
Variable markdown : pystr -> result pystr.
Variable json_loads : pystr -> option jvalue.
Variable repr_other : jvalue -> pystr.
Variable py_int : jvalue -> option Z.
Variable server : request -> http_result.
Variable config : newsbreak_api.ArticleConfig.
Variable env : newsbreak_api.environment.
Hypothesis markdown_raises :
    forall text err, markdown text = Raise err -> is_Exception err = true.

Lemma build_article_json_stops
        (title article_credit image_link image_credit article_content : pystr)
        (err : exn) :
    generate_draft.build_article_json markdown title article_credit image_link
      image_credit article_content = Raise err ->
    exists text, markdown text = Raise err.
Proof.
    unfold generate_draft.build_article_json, rbind.
    destruct (markdown image_credit) as [ric|e1] eqn:E1.
    2:{ intros H. injection H as <-. eauto. }
    unfold generate_draft.create_image_block. rewrite quote_dumps.
    destruct (markdown article_content) as [html|e2] eqn:E2.
    2:{ intros H. injection H as <-. eauto. }
    destruct (markdown article_credit) as [rac|e3] eqn:E3.
    2:{ intros H. injection H as <-. eauto. }
    discriminate.
Qed.

  (** The checks of steps 1 and 2 on the body of a response. *)
Lemma envelope_gate (text : pystr) (m1 m2 : message) (s : state)
        (r : result jvalue) (s' : state) :
    bind (newsbreak_api.process_json_response json_loads text)
      (fun data =>
         bind (newsbreak_api.when (negb (truthy data))
                 (bind (say m1) (fun _ => sys_exit 1)))
           (fun _ =>
              bind (lift (newsbreak_api.get data (lit "data") JNull))
                (fun id =>
                   bind (newsbreak_api.when (negb (truthy id))
                           (bind (say m2) (fun _ => sys_exit 1)))
                     (fun _ => ret id)))) s = (r, s') ->
    sent s' = sent s
    /\ if draft_accepted json_loads text
       then exists d,
              json_loads text = Some (JObj d)
              /\ r = Ok (dict_get (lit "data") JNull d)
              /\ truthy (dict_get (lit "data") JNull d) = true
       else stopped r.
Proof.
    unfold newsbreak_api.process_json_response, draft_accepted, stopped.
    destruct (json_loads text) as [v|].
    2:{ intros H. run_in H. injection H as <- <-.
        split; [reflexivity | stop_with]. }
    destruct v as [|b|z|f|str|items|d];
      try (intros H; run_in H;
           match type of H with
           | context [truthy ?v] => destruct (truthy v)
           end;
           cbn [negb newsbreak_api.get] in H; run_in H;
           injection H as <- <-; (split; [reflexivity | stop_with])).
    destruct (eq_zero (dict_get (lit "code") JNull d)) eqn:Hcode;
      cbn [negb andb]; intros H; run_in H.
    - destruct d as [|m d]; [discriminate Hcode|].
      cbn [truthy negb newsbreak_api.get] in H. run_in H.
      destruct (truthy (dict_get (lit "data") JNull (m :: d))) eqn:Hdata;
        cbn [negb] in H; run_in H; injection H as <- <-;
        (split; [reflexivity|]).
      + eexists. repeat split. exact Hdata.
      + stop_with.
    - injection H as <- <-. split; [reflexivity | stop_with].
Qed.

  (** Step 1: nothing leaves when rendering fails; otherwise the draft
      request leaves, and the step hands on the identifier of the
      response exactly when the response passes the test. *)
Lemma create_draft_step (content : pystr) (s : state) (r : result jvalue)
        (s' : state) :
    newsbreak_api.step_create_draft markdown json_loads server config env
      content s = (r, s') ->
    (sent s' = sent s /\ stopped r
     /\ draft_payload_of markdown server (newsbreak_api.title config)
          (newsbreak_api.article_credit config)
          (newsbreak_api.image_link config)
          (newsbreak_api.image_credit config) content
          (newsbreak_api.draws_draft env) = None
     /\ exists text err, markdown text = Raise err)
    \/ exists p,
         draft_payload_of markdown server (newsbreak_api.title config)
           (newsbreak_api.article_credit config)
           (newsbreak_api.image_link config)
           (newsbreak_api.image_credit config) content
           (newsbreak_api.draws_draft env) = Some p
         /\ sent s' = sent s ++ [POST_draft p]
         /\ if answered json_loads repr_other server (POST_draft p)
            then exists id,
                   r = Ok id
                   /\ data_of json_loads server (POST_draft p) = Some id
                   /\ truthy id = true
            else stopped r.
Proof.
    unfold newsbreak_api.step_create_draft, generate_draft.create_draft.
    intros H. unfold bind at 1 in H. unfold bind at 1 in H.
    unfold lift at 1 in H.
    destruct (generate_draft.build_article_json markdown _ _ _ _ _)
      as [p|err] eqn:Hbuild.
    2:{ left. injection H as <- <-. split; [reflexivity|].
        assert (Hnone : draft_payload_of markdown server
                          (newsbreak_api.title config)
                          (newsbreak_api.article_credit config)
                          (newsbreak_api.image_link config)
                          (newsbreak_api.image_credit config) content
                          (newsbreak_api.draws_draft env) = None).
        { destruct (draft_payload_of _ _ _ _ _ _ _ _) as [q|] eqn:Hq;
            [|reflexivity].
          apply draft_payload_of_built in Hq. rewrite Hq in Hbuild.
          discriminate Hbuild. }
        apply build_article_json_stops in Hbuild as (text & Htext).
        split; [|eauto].
        exists err. split; [reflexivity|]. right. eauto. }
    right. exists p. split; [now apply draft_payload_of_built|].
    unfold bind at 1 in H. unfold send at 1 in H.
    unfold answered, data_of, accepted.
    destruct (server (POST_draft p)) as [status_code text|msg].
    2:{ injection H as <- <-. split; [reflexivity|]. stop_with. }
    unfold ret at 1 in H. cbn [fst snd] in H.
    apply envelope_gate in H as [Hsent Hr]. cbn [sent] in Hsent.
    split; [exact Hsent|].
    destruct (draft_accepted json_loads text); [|exact Hr].
    destruct Hr as (d & Hd & -> & Ht). rewrite Hd. eauto.
Qed.

  (** Step 2, likewise, with the image file in place of the rendering. *)
Lemma upload_image_step (data_id : jvalue) (s : state) (r : result jvalue)
        (s' : state) :
    newsbreak_api.step_upload_image json_loads server config env data_id s
    = (r, s') ->
    (sent s' = sent s /\ stopped r /\ newsbreak_api.image_read env = None)
    \/ exists image,
         newsbreak_api.image_read env = Some image
         /\ sent s' = sent s ++ [POST_uploadFile data_id image]
         /\ if answered json_loads repr_other server
                 (POST_uploadFile data_id image)
            then exists url,
                   r = Ok url
                   /\ data_of json_loads server (POST_uploadFile data_id image)
                      = Some url
                   /\ truthy url = true
            else stopped r.
Proof.
    unfold newsbreak_api.step_upload_image, upload_image.upload_image.
    intros H. unfold bind at 1 in H.
    destruct (newsbreak_api.image_read env) as [image|].
    2:{ left. run_in H. injection H as <- <-. split; [reflexivity|].
        split; [stop_with | reflexivity]. }
    right. exists image. split; [reflexivity|].
    unfold bind at 1 in H. unfold send at 1 in H.
    unfold answered, data_of, accepted.
    destruct (server (POST_uploadFile data_id image)) as [status_code text|msg].
    2:{ injection H as <- <-. split; [reflexivity|]. stop_with. }
    unfold ret at 1 in H. cbn [fst snd] in H.
    apply envelope_gate in H as [Hsent Hr]. cbn [sent] in Hsent.
    split; [exact Hsent|].
    destruct (draft_accepted json_loads text); [|exact Hr].
    destruct Hr as (d & Hd & -> & Ht). rewrite Hd. eauto.
Qed.

  (** Step 3: nothing leaves when the content file cannot be read again
      or is blank; otherwise the update request leaves, and the step goes
      on exactly when the response passes the test. *)
Lemma update_content_step (content : pystr) (data_id : jvalue) (s : state)
        (r : result unit) (s' : state) :
    newsbreak_api.step_update_content json_loads server config env content
      data_id s = (r, s') ->
    (sent s' = sent s /\ stopped r
     /\ match newsbreak_api.content_read_again env with
        | Some again => truthy_str (strip again) = false
        | None => True
        end)
    \/ (sent s' = sent s ++ [PUT_draft data_id (newsbreak_api.title config)
                                       content]
        /\ if answered json_loads repr_other server
                (PUT_draft data_id (newsbreak_api.title config) content)
           then r = Ok tt
           else stopped r).
Proof.
    unfold newsbreak_api.step_update_content, put_request.make_put_request,
      answered, accepted, update_accepted, stopped.
    destruct (newsbreak_api.content_read_again env) as [c|];
      [|intros H; left; run_in H; injection H as <- <-;
        split; [reflexivity|]; split; [stop_with | exact I]].
    destruct (truthy_str (strip c));
      [|intros H; left; run_in H; cbn [negb] in H; injection H as <- <-;
        split; [reflexivity|]; split; [stop_with | reflexivity]].
    intros H. right. run_in H. revert H.
    destruct (server (PUT_draft data_id (newsbreak_api.title config) content))
      as [status_code text|msg]; cbv beta iota zeta; [|settle].
    destruct (status_code =? 200)%Z; cbn [negb andb]; cbv beta iota zeta; [|settle].
    destruct (newsbreak_api.looks_like_login_page text); cbn [negb andb];
      cbv beta iota zeta; [settle|].
    destruct (json_loads text) as [[|b|z|f|str|items|d]|]; cbv beta iota zeta;
      try settle.
    destruct (eq_zero (dict_get (lit "code") JNull d)); cbn [negb];
      cbv beta iota zeta; settle.
Qed.

  (** Step 4: nothing leaves when the identifier is no integer; otherwise
      the NLP request leaves, and the step goes on exactly when the
      response signals success. *)
Lemma calculate_nlp_step (data_id : jvalue) (s : state) (r : result unit)
        (s' : state) :
    newsbreak_api.step_calculate_nlp json_loads py_int server env data_id s
    = (r, s') ->
    (sent s' = sent s /\ stopped r /\ py_int data_id = None)
    \/ exists post_id,
         py_int data_id = Some post_id
         /\ sent s' = sent s ++ [POST_nlp_calculate post_id]
         /\ if answered json_loads repr_other server
                 (POST_nlp_calculate post_id)
            then r = Ok tt
            else stopped r.
Proof.
    unfold newsbreak_api.step_calculate_nlp, answered, accepted,
      nlp_accepted, stopped.
    destruct (py_int data_id) as [post_id|]; intros H.
    2:{ left. run_in H. injection H as <- <-. split; [reflexivity|].
        split; [stop_with | reflexivity]. }
    right. exists post_id. split; [reflexivity|].
    cbv beta iota delta [bind ret] in H. rewrite calculate_nlp_of_loads in H.
    run_in H. revert H.
    destruct (server (POST_nlp_calculate post_id)) as [status_code text|msg];
      cbv beta iota zeta; [|settle].
    destruct (match json_loads text with
              | Some v => v
              | None => calculate.parse_failure_dict
              end) as [|b|z|f|str|items|d];
      cbn [newsbreak_api.get]; cbv beta iota zeta; try settle.
    destruct (eq_zero (dict_get (lit "code") JNull d)
              && eq_str (dict_get (lit "status") JNull d) (lit "success"));
      cbv beta iota zeta; settle.
Qed.

  (** Step 5: nothing leaves when the image URL is no string, a required
      field is empty or rendering fails; otherwise the publish request
      leaves, with the title, the fixed location and the uploaded image as
      its cover, and the step ends well exactly when the validator accepts
      the response. *)
Lemma publish_step (content : pystr) (data_id image_url : jvalue) (s : state)
        (r : result unit) (s' : state) :
    truthy image_url = true ->
    newsbreak_api.step_publish markdown json_loads repr_other server config
      env content data_id image_url s = (r, s') ->
    (sent s' = sent s /\ stopped r
     /\ ((forall url, image_url <> JStr url)
         \/ truthy_str (newsbreak_api.title config)
            && truthy_str (newsbreak_api.author_name config)
            && truthy_str content && truthy data_id = false
         \/ exists text err, markdown text = Raise err))
    \/ exists url payload,
         image_url = JStr url
         /\ sent s' = sent s ++ [PUT_publish data_id payload]
         /\ p_title payload = newsbreak_api.title config
         /\ p_location payload = lit "Entire U.S"
         /\ p_locationPid payload = lit "Entire U.S"
         /\ p_covers payload = [url]
         /\ p_is_title_rewrited payload = false
         /\ p_is_ai_assisted payload = false
         /\ if answered json_loads repr_other server
                 (PUT_publish data_id payload)
            then r = Ok tt
            else stopped r.
Proof.
    intros Hurl H. unfold newsbreak_api.step_publish in H.
    unfold try_except in H. unfold bind at 1, lift at 1 in H.
    destruct image_url as [|b|z|f|url|items|d];
      try (left; cbn [newsbreak_api.as_str] in H; injection H as <- <-;
           split; [reflexivity|]; split; [stop_with|];
           left; intros url Hu; discriminate Hu).
    cbn [newsbreak_api.as_str] in H. unfold bind at 1 in H.
    destruct (make_publish.make_publish markdown json_loads repr_other server
                _ _ _ _ _ _ _ _ _ _ _ _ s) as [rp sp] eqn:Hmp.
    destruct (make_publish_cases _ _ _ _ _ _ _ _ _ _ _ _ _ _ _ _ _ _ _ Hmp)
      as [(Hreq & -> & ->)|[(_ & Hloc & _)|[(_ & _ & -> & er & Hrender & ->)
         |(_ & _ & payload & -> & Ht & Hl & Hp & Hc & Hw & Ha & _ & _ & ->)]]].
    - left. cbn beta iota in H. injection H as <- <-.
      split; [reflexivity|]. split; [stop_with|]. right. left. exact Hreq.
    - discriminate Hloc.
    - left. destruct (render_fields_raises _ _ _ _ _ Hrender) as [text Htext].
      rewrite (markdown_raises _ _ Htext) in H. run_in H.
      injection H as <- <-. split; [reflexivity|]. split; [stop_with|].
      right. right. eauto.
    - right. exists url, payload. split; [reflexivity|].
      cbn [truthy] in Hurl. rewrite Hurl in Hc.
      unfold answered, accepted.
      destruct (server (PUT_publish data_id payload)) as [status_code text|msg].
      + destruct (make_publish.validate_response json_loads repr_other
                    status_code text) as [[|] m];
          run_in H; injection H as <- <-; cbn [sent];
          repeat (split; [first [reflexivity | assumption]|]);
          first [reflexivity | stop_with].
      + run_in H. injection H as <- <-. cbn [sent].
        repeat (split; [first [reflexivity | assumption]|]). stop_with.
Qed.
End StepCases.

(* ================================================================== *)
(** * The run as a whole                                               *)
(* ================================================================== *)

Ltac trace_parts :=
  split; [repeat (apply Forall_cons; [assumption|]); apply Forall_nil|];
  split; [reflexivity|];
  split; [cbn [List.length]; lia|];
  split; [cbn [removelast];
          repeat (apply Forall_cons; [assumption|]); apply Forall_nil|].

Section RunTrace.
Variable markdown : pystr -> result pystr.
Variable json_loads : pystr -> option jvalue.
Variable repr_other : jvalue -> pystr.
Variable py_int : jvalue -> option Z.
Variable server : request -> http_result.
Variable config : newsbreak_api.ArticleConfig.
Variable env : newsbreak_api.environment.
Hypothesis markdown_raises :
    forall text err, markdown text = Raise err -> is_Exception err = true.

  Local Abbreviation ok := (answered json_loads repr_other server).
  Local Abbreviation from_run :=
    (threaded markdown json_loads py_int server config env).

  (** The requests of the five steps: each one built from what the steps
      before it received, each one but the last answered well, and all of
      them answered well when the steps end well. *)
Lemma steps_trace (content : pystr) (rb : result unit) (sb : state) :
    newsbreak_api.steps markdown json_loads repr_other py_int server config
      env content start = (rb, sb) ->
    Forall (from_run content) (sent sb)
    /\ map stage (sent sb) = seq 1 (List.length (sent sb))
    /\ List.length (sent sb) <= 5
    /\ Forall (fun q => ok q = true) (removelast (sent sb))
    /\ ((rb = Ok tt /\ List.length (sent sb) = 5
         /\ Forall (fun q => ok q = true) (sent sb))
        \/ stopped rb).
Proof.
    unfold newsbreak_api.steps. intros H.
    (* step 1 *)
    unfold bind at 1 in H.
    destruct (newsbreak_api.step_create_draft _ _ _ _ _ _ start)
      as [r1 s1] eqn:E1.
    destruct (create_draft_step markdown json_loads repr_other server config
                env markdown_raises _ _ _ _ E1)
      as [(Hs1 & Hr1 & _)|(p & Hp & Hs1 & Hr1)]; cbn [sent start app] in Hs1.
    { destruct Hr1 as (e & -> & He). injection H as <- <-. rewrite Hs1.
      trace_parts. right. now exists e. }
    assert (T1 : from_run content (POST_draft p)) by exact Hp.
    destruct (ok (POST_draft p)) eqn:A1.
    2:{ destruct Hr1 as (e & -> & He). injection H as <- <-. rewrite Hs1.
        trace_parts. right. now exists e. }
    destruct Hr1 as (id & -> & Hid & Htid).
    assert (Hdraft : draft_id markdown json_loads server config env content id)
      by (exists p; split; assumption).
    (* step 2 *)
    unfold bind at 1 in H.
    destruct (newsbreak_api.step_upload_image _ _ _ _ id s1) as [r2 s2] eqn:E2.
    destruct (upload_image_step json_loads repr_other server config env
                _ _ _ _ E2)
      as [(Hs2 & Hr2 & _)|(image & Himage & Hs2 & Hr2)]; rewrite Hs1 in Hs2;
      cbn [app] in Hs2.
    { destruct Hr2 as (e & -> & He). injection H as <- <-. rewrite Hs2.
      trace_parts. right. now exists e. }
    assert (T2 : from_run content (POST_uploadFile id image))
      by (split; assumption).
    destruct (ok (POST_uploadFile id image)) eqn:A2.
    2:{ destruct Hr2 as (e & -> & He). injection H as <- <-. rewrite Hs2.
        trace_parts. right. now exists e. }
    destruct Hr2 as (image_url & -> & Hurl & Hturl).
    (* step 3 *)
    unfold bind at 1 in H.
    destruct (newsbreak_api.step_update_content _ _ _ _ _ _ s2)
      as [r3 s3] eqn:E3.
    destruct (update_content_step json_loads repr_other server config env
                _ _ _ _ _ E3)
      as [(Hs3 & Hr3 & _)|(Hs3 & Hr3)]; rewrite Hs2 in Hs3; cbn [app] in Hs3.
    { destruct Hr3 as (e & -> & He). injection H as <- <-. rewrite Hs3.
      trace_parts. right. now exists e. }
    assert (T3 : from_run content
                   (PUT_draft id (newsbreak_api.title config) content))
      by (repeat split; assumption).
    destruct (ok (PUT_draft id (newsbreak_api.title config) content)) eqn:A3.
    2:{ destruct Hr3 as (e & -> & He). injection H as <- <-. rewrite Hs3.
        trace_parts. right. now exists e. }
    subst r3.
    (* step 4 *)
    unfold bind at 1 in H.
    destruct (newsbreak_api.step_calculate_nlp _ _ _ _ _ s3)
      as [r4 s4] eqn:E4.
    destruct (calculate_nlp_step json_loads repr_other py_int server env
                _ _ _ _ E4)
      as [(Hs4 & Hr4 & _)|(post_id & Hint & Hs4 & Hr4)]; rewrite Hs3 in Hs4;
      cbn [app] in Hs4.
    { destruct Hr4 as (e & -> & He). injection H as <- <-. rewrite Hs4.
      trace_parts. right. now exists e. }
    assert (T4 : from_run content (POST_nlp_calculate post_id))
      by (exists id; split; assumption).
    destruct (ok (POST_nlp_calculate post_id)) eqn:A4.
    2:{ destruct Hr4 as (e & -> & He). injection H as <- <-. rewrite Hs4.
        trace_parts. right. now exists e. }
    subst r4.
    (* step 5 *)
    destruct (publish_step markdown json_loads repr_other server config env
                markdown_raises _ _ _ _ _ _ Hturl H)
      as [(Hs5 & Hr5 & _)
         |(url & payload & -> & Hs5 & Ht & Hl & Hlp & Hc & Hw & Ha & Hr5)];
      rewrite Hs4 in Hs5; cbn [app] in Hs5.
    { rewrite Hs5. trace_parts. now right. }
    assert (T5 : from_run content (PUT_publish id payload)).
    { cbn [threaded]. repeat (split; [assumption|]). now exists image, url. }
    rewrite Hs5.
    destruct (ok (PUT_publish id payload)) eqn:A5.
    - trace_parts. left. split; [assumption|]. split; [reflexivity|].
      repeat (apply Forall_cons; [assumption|]). apply Forall_nil.
    - trace_parts. now right.
Qed.
End RunTrace.

Section RunOutcome.
Variable markdown : pystr -> result pystr.
Variable json_loads : pystr -> option jvalue.
Variable repr_other : jvalue -> pystr.
Variable py_int : jvalue -> option Z.
Variable server : request -> http_result.
Variable config : newsbreak_api.ArticleConfig.
Variable env : newsbreak_api.environment.

  Local Abbreviation the_run :=
    (newsbreak_api.run_main markdown json_loads repr_other py_int server
       config env).

  (** What [main] makes of the five steps. *)
Lemma run_main_outcome (content : pystr) (rb : result unit) (sb : state) :
    newsbreak_api.content_read env = Some content ->
    newsbreak_api.steps markdown json_loads repr_other py_int server config
      env content start = (rb, sb) ->
    newsbreak_api.requests the_run = sent sb
    /\ (rb = Ok tt -> newsbreak_api.status the_run = 0%Z)
    /\ (stopped rb -> newsbreak_api.status the_run = 1%Z).
Proof.
    intros Hcontent Hsteps.
    unfold newsbreak_api.run_main, newsbreak_api.main. rewrite Hcontent.
    unfold try_except. rewrite Hsteps.
    destruct rb as [u|e].
    - repeat split. intros (e & He & _). discriminate He.
    - destruct (is_Exception e) eqn:Hexc.
      + repeat split. discriminate.
      + repeat split; [discriminate|].
        intros (e' & He' & [->|Ha]); injection He' as ->.
        * reflexivity.
        * rewrite Ha in Hexc. discriminate Hexc.
Qed.

Lemma run_main_without_content :
    newsbreak_api.content_read env = None ->
    newsbreak_api.status the_run = 1%Z /\ newsbreak_api.requests the_run = [].
Proof.
    intros H. unfold newsbreak_api.run_main, newsbreak_api.main.
    rewrite H. split; reflexivity.
Qed.
End RunOutcome.

(** X17: the requests of a run are those of steps 1, 2, ... in this order, one
    for each step the run reached and five at most; the run exits with
    status 0 or 1, and with 0 only after all five requests.  Stated for a
    backend whose upload responses carry a URL that is a string, when they
    carry one. *)
Theorem run_stages_in_order
        (markdown : pystr -> result pystr) (json_loads : pystr -> option jvalue)
        (repr_other : jvalue -> pystr) (py_int : jvalue -> option Z)
        (server : request -> http_result)
        (config : newsbreak_api.ArticleConfig) (env : newsbreak_api.environment) :
  (forall text err, markdown text = Raise err -> is_Exception err = true) ->
  (forall id image v,
     data_of json_loads server (POST_uploadFile id image) = Some v ->
     truthy v = true -> exists url, v = JStr url) ->
  let r := newsbreak_api.run_main markdown json_loads repr_other py_int server
             config env in
  map stage (newsbreak_api.requests r)
  = seq 1 (List.length (newsbreak_api.requests r))
  /\ List.length (newsbreak_api.requests r) <= 5
  /\ (newsbreak_api.status r = 0%Z \/ newsbreak_api.status r = 1%Z)
  /\ (newsbreak_api.status r = 0%Z -> List.length (newsbreak_api.requests r) = 5).
Proof.
  intros Hmd _ r. subst r.
  destruct (newsbreak_api.content_read env) as [content|] eqn:Hcontent.
  2:{ destruct (run_main_without_content markdown json_loads repr_other py_int
                  server config env Hcontent) as [Hst Hreq].
      rewrite Hst, Hreq. cbn. repeat split; try lia; auto. }
  destruct (newsbreak_api.steps markdown json_loads repr_other py_int server
              config env content start) as [rb sb] eqn:Hsteps.
  destruct (run_main_outcome _ _ _ _ _ _ _ _ _ _ Hcontent Hsteps)
    as (Hreq & Hok & Hstop).
  destruct (steps_trace _ _ _ _ _ _ _ Hmd _ _ _ Hsteps)
    as (_ & Hstage & Hlen & _ & Hend).
  rewrite Hreq. split; [exact Hstage|]. split; [exact Hlen|].
  destruct Hend as [(Hrb & Hfive & _)|Hs].
  - rewrite (Hok Hrb). split; [now left | intros _; exact Hfive].
  - rewrite (Hstop Hs). split; [now right | discriminate].
Qed.

Lemma run_stages_in_order_witness :
  map stage (newsbreak_api.requests (Sample.run Sample.server_nlp_busy))
  = [1; 2; 3; 4]
  /\ newsbreak_api.status (Sample.run Sample.server_nlp_busy) = 1%Z.
Proof.
  assert (Hmd : forall text err,
             Sample.markdown text = Raise err -> is_Exception err = true)
    by (intros text err H; discriminate H).
  assert (Hurl : forall id image v,
             data_of loads_flat Sample.server_nlp_busy
               (POST_uploadFile id image) = Some v ->
             truthy v = true -> exists url, v = JStr url).
  { intros id image v H _. vm_compute in H. injection H as <-. eexists.
    reflexivity. }
  destruct (run_stages_in_order Sample.markdown loads_flat Sample.repr_other
              Sample.py_int Sample.server_nlp_busy Sample.config Sample.env Hmd
              Hurl)
    as (Hstage & _ & _ & _).
  split; [exact Hstage | reflexivity].
Defined.

(** X18: the run fails fast: a request that the backend does not answer, or
    answers with a response that does not pass the test of its step, is the
    last request of the run, and the run exits with status 1.  Stated for a
    backend whose upload responses carry a URL that is a string, when they
    carry one. *)
Theorem run_fails_fast
        (markdown : pystr -> result pystr) (json_loads : pystr -> option jvalue)
        (repr_other : jvalue -> pystr) (py_int : jvalue -> option Z)
        (server : request -> http_result)
        (config : newsbreak_api.ArticleConfig) (env : newsbreak_api.environment)
        (before after : list request) (q : request) :
  (forall text err, markdown text = Raise err -> is_Exception err = true) ->
  (forall id image v,
     data_of json_loads server (POST_uploadFile id image) = Some v ->
     truthy v = true -> exists url, v = JStr url) ->
  let r := newsbreak_api.run_main markdown json_loads repr_other py_int server
             config env in
  newsbreak_api.requests r = before ++ q :: after ->
  answered json_loads repr_other server q = false ->
  after = [] /\ newsbreak_api.status r = 1%Z.
Proof.
  intros Hmd _ r Hreq Hq. subst r.
  destruct (newsbreak_api.content_read env) as [content|] eqn:Hcontent.
  2:{ destruct (run_main_without_content markdown json_loads repr_other py_int
                  server config env Hcontent) as [_ Hnone].
      rewrite Hnone in Hreq. now destruct before. }
  destruct (newsbreak_api.steps markdown json_loads repr_other py_int server
              config env content start) as [rb sb] eqn:Hsteps.
  destruct (run_main_outcome _ _ _ _ _ _ _ _ _ _ Hcontent Hsteps)
    as (Hsent & Hok & Hstop).
  destruct (steps_trace _ _ _ _ _ _ _ Hmd _ _ _ Hsteps)
    as (_ & _ & _ & Hinit & Hend).
  rewrite <- Hsent, Hreq in Hinit, Hend.
  assert (Hafter : after = []).
  { destruct after as [|a after]; [reflexivity|]. exfalso.
    replace (before ++ q :: a :: after) with ((before ++ [q]) ++ a :: after)
      in Hinit by now rewrite <- app_assoc.
    assert (Hin : In q (removelast ((before ++ [q]) ++ a :: after))).
    { rewrite removelast_app by discriminate.
      apply in_or_app. left. apply in_or_app. right. now left. }
    rewrite Forall_forall in Hinit. rewrite (Hinit q Hin) in Hq.
    discriminate Hq. }
  split; [exact Hafter|]. subst after.
  destruct Hend as [(_ & _ & Hall)|Hs]; [|exact (Hstop Hs)].
  rewrite Forall_forall in Hall.
  rewrite (Hall q) in Hq; [discriminate Hq|].
  apply in_or_app. right. now left.
Qed.

Lemma run_fails_fast_witness :
  answered loads_flat Sample.repr_other Sample.server_nlp_busy
    (POST_nlp_calculate 100251263) = false
  /\ newsbreak_api.status (Sample.run Sample.server_nlp_busy) = 1%Z.
Proof.
  assert (Hmd : forall text err,
             Sample.markdown text = Raise err -> is_Exception err = true)
    by (intros text err H; discriminate H).
  assert (Hurl : forall id image v,
             data_of loads_flat Sample.server_nlp_busy
               (POST_uploadFile id image) = Some v ->
             truthy v = true -> exists url, v = JStr url).
  { intros id image v H _. vm_compute in H. injection H as <-. eexists.
    reflexivity. }
  split; [reflexivity|].
  exact (proj2 (run_fails_fast Sample.markdown loads_flat Sample.repr_other
                  Sample.py_int Sample.server_nlp_busy Sample.config Sample.env
                  (firstn 3 (newsbreak_api.requests
                               (Sample.run Sample.server_nlp_busy)))
                  [] (POST_nlp_calculate 100251263) Hmd Hurl eq_refl eq_refl)).
Defined.

(** X19: every request of a run is built from what the run was given and from
    what the steps before it received: the draft request carries the
    payload [create_draft] builds from the configuration and the content
    file; the upload, the content update, the NLP call and the publish
    request carry the identifier of the response to the draft request (the
    NLP call as an integer); the content update carries the title and the
    content without their salt; the publish request carries the title, the
    location "Entire U.S" and, as its only cover, the URL of the response to
    the upload, not the image link of the configuration.  Stated for a
    backend whose upload responses carry their URL as a string. *)
Theorem run_threads_identifiers
        (markdown : pystr -> result pystr) (json_loads : pystr -> option jvalue)
        (repr_other : jvalue -> pystr) (py_int : jvalue -> option Z)
        (server : request -> http_result)
        (config : newsbreak_api.ArticleConfig) (env : newsbreak_api.environment)
        (content : pystr) :
  (forall text err, markdown text = Raise err -> is_Exception err = true) ->
  (forall id image v,
     data_of json_loads server (POST_uploadFile id image) = Some v ->
     exists url, v = JStr url) ->
  newsbreak_api.content_read env = Some content ->
  Forall (threaded markdown json_loads py_int server config env content)
    (newsbreak_api.requests
       (newsbreak_api.run_main markdown json_loads repr_other py_int server
          config env)).
Proof.
  intros Hmd _ Hcontent.
  destruct (newsbreak_api.steps markdown json_loads repr_other py_int server
              config env content start) as [rb sb] eqn:Hsteps.
  destruct (run_main_outcome _ _ _ _ _ _ _ _ _ _ Hcontent Hsteps)
    as (Hsent & _ & _).
  rewrite Hsent.
  now destruct (steps_trace _ _ _ _ _ _ _ Hmd _ _ _ Hsteps) as (Hth & _).
Qed.

Lemma run_threads_identifiers_witness :
  Forall (threaded Sample.markdown loads_flat Sample.py_int Sample.server_ok
            Sample.config Sample.env (lit "**bold** text"))
    (newsbreak_api.requests (Sample.run Sample.server_ok)).
Proof.
  assert (Hmd : forall text err,
             Sample.markdown text = Raise err -> is_Exception err = true)
    by (intros text err H; discriminate H).
  assert (Hurl : forall id image v,
             data_of loads_flat Sample.server_ok (POST_uploadFile id image)
             = Some v -> exists url, v = JStr url).
  { intros id image v H. vm_compute in H. injection H as <-. eexists.
    reflexivity. }
  exact (run_threads_identifiers Sample.markdown loads_flat Sample.repr_other
           Sample.py_int Sample.server_ok Sample.config Sample.env
           (lit "**bold** text") Hmd Hurl eq_refl).
Defined.

Section Progress.
Variable markdown : pystr -> result pystr.
Variable json_loads : pystr -> option jvalue.
Variable repr_other : jvalue -> pystr.
Variable py_int : jvalue -> option Z.
Variable server : request -> http_result.
Variable config : newsbreak_api.ArticleConfig.
Variable env : newsbreak_api.environment.
Hypothesis markdown_raises :
    forall text err, markdown text = Raise err -> is_Exception err = true.

Lemma stopped_raise {A B : Type} (e : exn) :
    @stopped A (Raise e) -> @stopped B (Raise e).
Proof. intros (e' & He & Ha). injection He as <-. now exists e. Qed.

  (** The steps up to the first one that has to open a file again. *)
Lemma steps_until_upload (content : pystr) (rb : result unit) (sb : state) :
    newsbreak_api.image_read env = None ->
    newsbreak_api.steps markdown json_loads repr_other py_int server config
      env content start = (rb, sb) ->
    stopped rb /\ Forall (fun q => stage q = 1) (sent sb).
Proof.
    intros Himage H. unfold newsbreak_api.steps in H.
    unfold bind at 1 in H.
    destruct (newsbreak_api.step_create_draft _ _ _ _ _ _ start)
      as [r1 s1] eqn:E1.
    destruct (emits_create_draft _ _ _ _ _ _ _ _ _ E1) as (l1 & Hs1 & Hl1).
    cbn [sent start app] in Hs1.
    destruct r1 as [id|e1].
    2:{ injection H as <- <-. rewrite Hs1. split; [|exact Hl1].
        apply (@stopped_raise jvalue).
        destruct (create_draft_step markdown json_loads repr_other server
                    config env markdown_raises _ _ _ _ E1)
          as [(_ & Hr & _)|(p & _ & _ & Hr)]; [exact Hr|].
        destruct (answered _ _ _ _); [|exact Hr].
        destruct Hr as (x & Hx & _). discriminate Hx. }
    unfold bind at 1 in H.
    destruct (newsbreak_api.step_upload_image _ _ _ _ id s1) as [r2 s2] eqn:E2.
    destruct (upload_image_step json_loads repr_other server config env
                _ _ _ _ E2)
      as [(Hs2 & (e & -> & He) & _)|(image & Hsome & _)].
    - injection H as <- <-. rewrite Hs2, Hs1. split; [now exists e | exact Hl1].
    - rewrite Himage in Hsome. discriminate Hsome.
Qed.

  (** The steps up to the second read of the content file. *)
Lemma steps_until_update (content : pystr) (rb : result unit) (sb : state) :
    match newsbreak_api.content_read_again env with
    | Some again => truthy_str (strip again) = false
    | None => True
    end ->
    newsbreak_api.steps markdown json_loads repr_other py_int server config
      env content start = (rb, sb) ->
    stopped rb /\ Forall (fun q => stage q <= 2) (sent sb).
Proof.
    intros Hagain H.
    destruct (steps_trace _ _ _ _ _ _ _ markdown_raises _ _ _ H)
      as (_ & Hstage & _ & _ & Hend).
    unfold newsbreak_api.steps in H.
    unfold bind at 1 in H.
    destruct (newsbreak_api.step_create_draft _ _ _ _ _ _ start)
      as [r1 s1] eqn:E1.
    destruct (emits_create_draft _ _ _ _ _ _ _ _ _ E1) as (l1 & Hs1 & Hl1).
    cbn [sent start app] in Hs1.
    assert (Hl1' : Forall (fun q => stage q <= 2) l1).
    { eapply Forall_impl; [|exact Hl1]. cbn. intros q ->. lia. }
    destruct r1 as [id|e1].
    2:{ injection H as <- <-. rewrite Hs1. split; [|exact Hl1'].
        destruct Hend as [(Hrb & _)|Hs]; [discriminate Hrb | exact Hs]. }
    unfold bind at 1 in H.
    destruct (newsbreak_api.step_upload_image _ _ _ _ id s1) as [r2 s2] eqn:E2.
    destruct (emits_upload_image _ _ _ _ _ _ _ _ E2) as (l2 & Hs2 & Hl2).
    assert (Hl2' : Forall (fun q => stage q <= 2) (l1 ++ l2)).
    { apply Forall_app. split; [exact Hl1'|].
      eapply Forall_impl; [|exact Hl2]. cbn. intros q ->. lia. }
    destruct r2 as [url|e2].
    2:{ injection H as <- <-. rewrite Hs2, Hs1. split; [|exact Hl2'].
        destruct Hend as [(Hrb & _)|Hs]; [discriminate Hrb | exact Hs]. }
    unfold bind at 1 in H.
    destruct (newsbreak_api.step_update_content _ _ _ _ _ _ s2)
      as [r3 s3] eqn:E3.
    destruct (update_content_step json_loads repr_other server config env
                _ _ _ _ _ E3)
      as [(Hs3 & (e & -> & He) & _)|(Hs3 & _)].
    - injection H as <- <-. rewrite Hs3, Hs2, Hs1.
      split; [now exists e | exact Hl2'].
    - exfalso. clear - Hagain E3 Hs3.
      unfold newsbreak_api.step_update_content in E3.
      destruct (newsbreak_api.content_read_again env) as [again|];
        [rewrite Hagain in E3|]; run_in E3; cbn [negb] in E3;
        injection E3 as _ <-; cbn [sent] in Hs3;
        apply (f_equal (@List.length request)) in Hs3;
        rewrite length_app in Hs3; cbn [List.length] in Hs3; lia.
Qed.

  (** A draft that was accepted stays behind when the image file is
      missing. *)
Lemma steps_leave_draft (content : pystr) (p : draft_payload)
        (rb : result unit) (sb : state) :
    newsbreak_api.image_read env = None ->
    draft_payload_of markdown server (newsbreak_api.title config)
      (newsbreak_api.article_credit config) (newsbreak_api.image_link config)
      (newsbreak_api.image_credit config) content
      (newsbreak_api.draws_draft env) = Some p ->
    newsbreak_api.steps markdown json_loads repr_other py_int server config
      env content start = (rb, sb) ->
    sent sb = [POST_draft p].
Proof.
    intros Himage Hp H. unfold newsbreak_api.steps in H.
    unfold bind at 1 in H.
    destruct (newsbreak_api.step_create_draft _ _ _ _ _ _ start)
      as [r1 s1] eqn:E1.
    destruct (create_draft_step markdown json_loads repr_other server
                config env markdown_raises _ _ _ _ E1)
      as [(_ & _ & Hnone & _)|(p' & Hp' & Hs1 & Hr)].
    { rewrite Hp in Hnone. discriminate Hnone. }
    rewrite Hp in Hp'. injection Hp' as <-. cbn [sent start app] in Hs1.
    destruct r1 as [id|e1]; [|now injection H as _ <-].
    unfold bind at 1 in H.
    destruct (newsbreak_api.step_upload_image _ _ _ _ id s1) as [r2 s2] eqn:E2.
    destruct (upload_image_step json_loads repr_other server config env
                _ _ _ _ E2)
      as [(Hs2 & (e & -> & He) & _)|(image & Hsome & _)].
    - injection H as _ <-. now rewrite Hs2.
    - rewrite Himage in Hsome. discriminate Hsome.
Qed.
End Progress.

(** X20: the run opens its files late.  Without a readable content file no
    request is issued; but the image file is opened only in step 2 and the
    content file is read again only in step 3: when the image file is
    missing, the run stops after the draft request, and an accepted draft
    stays behind; when the second read of the content file fails or finds
    only white space, the run stops before the content update.  The exit
    status is 1 in each case. *)
Theorem run_opens_files_late
        (markdown : pystr -> result pystr) (json_loads : pystr -> option jvalue)
        (repr_other : jvalue -> pystr) (py_int : jvalue -> option Z)
        (server : request -> http_result)
        (config : newsbreak_api.ArticleConfig) (env : newsbreak_api.environment) :
  (forall text err, markdown text = Raise err -> is_Exception err = true) ->
  let r := newsbreak_api.run_main markdown json_loads repr_other py_int server
             config env in
  (newsbreak_api.content_read env = None ->
   newsbreak_api.status r = 1%Z /\ newsbreak_api.requests r = [])
  /\ (newsbreak_api.image_read env = None ->
      newsbreak_api.status r = 1%Z
      /\ Forall (fun q => stage q = 1) (newsbreak_api.requests r)
      /\ forall content p,
           newsbreak_api.content_read env = Some content ->
           draft_payload_of markdown server (newsbreak_api.title config)
             (newsbreak_api.article_credit config)
             (newsbreak_api.image_link config)
             (newsbreak_api.image_credit config) content
             (newsbreak_api.draws_draft env) = Some p ->
           newsbreak_api.requests r = [POST_draft p])
  /\ (match newsbreak_api.content_read_again env with
      | Some again => truthy_str (strip again) = false
      | None => True
      end ->
      newsbreak_api.status r = 1%Z
      /\ Forall (fun q => stage q <= 2) (newsbreak_api.requests r)).
Proof.
  intros Hmd r. subst r.
  split; [apply run_main_without_content|].
  destruct (newsbreak_api.content_read env) as [content|] eqn:Hcontent.
  2:{ destruct (run_main_without_content markdown json_loads repr_other py_int
                  server config env Hcontent) as [Hst Hreq].
      rewrite Hst, Hreq. split; intros _.
      - split; [reflexivity|]. split; [constructor|]. discriminate.
      - split; [reflexivity | constructor]. }
  destruct (newsbreak_api.steps markdown json_loads repr_other py_int server
              config env content start) as [rb sb] eqn:Hsteps.
  destruct (run_main_outcome _ _ _ _ _ _ _ _ _ _ Hcontent Hsteps)
    as (Hsent & _ & Hstop).
  rewrite Hsent. split.
  - intros Himage.
    destruct (steps_until_upload _ _ _ _ _ _ _ Hmd _ _ _ Himage Hsteps)
      as [Hs Hl].
    split; [exact (Hstop Hs)|]. split; [exact Hl|].
    intros content' p Hc Hp. injection Hc as <-.
    exact (steps_leave_draft _ _ _ _ _ _ _ Hmd _ _ _ _ Himage Hp Hsteps).
  - intros Hagain.
    destruct (steps_until_update _ _ _ _ _ _ _ Hmd _ _ _ Hagain Hsteps)
      as [Hs Hl].
    split; [exact (Hstop Hs) | exact Hl].
Qed.

Lemma run_opens_files_late_witness :
  newsbreak_api.status
    (newsbreak_api.run_main Sample.markdown loads_flat Sample.repr_other
       Sample.py_int Sample.server_ok Sample.config Cases.env_without_image)
  = 1%Z
  /\ Forall (fun q => stage q = 1)
       (newsbreak_api.requests
          (newsbreak_api.run_main Sample.markdown loads_flat Sample.repr_other
             Sample.py_int Sample.server_ok Sample.config
             Cases.env_without_image)).
Proof.
  assert (Hmd : forall text err,
             Sample.markdown text = Raise err -> is_Exception err = true)
    by (intros text err H; discriminate H).
  destruct (run_opens_files_late Sample.markdown loads_flat Sample.repr_other
              Sample.py_int Sample.server_ok Sample.config
              Cases.env_without_image Hmd) as (_ & Himage & _).
  destruct (Himage eq_refl) as (Hst & Hl & _).
  split; [exact Hst | exact Hl].
Defined.

Section Success.
Variable markdown : pystr -> result pystr.
Variable json_loads : pystr -> option jvalue.
Variable repr_other : jvalue -> pystr.
Variable py_int : jvalue -> option Z.
Variable server : request -> http_result.
Variable config : newsbreak_api.ArticleConfig.
Variable env : newsbreak_api.environment.
Variables (content again : pystr) (image : list N).

Hypothesis markdown_total : forall text, exists html, markdown text = Ok html.
Hypothesis content_there : newsbreak_api.content_read env = Some content.
Hypothesis content_there_again :
    newsbreak_api.content_read_again env = Some again.
Hypothesis content_not_blank : truthy_str (strip again) = true.
Hypothesis image_there : newsbreak_api.image_read env = Some image.
Hypothesis fields_given :
    truthy_str (newsbreak_api.title config)
    && truthy_str (newsbreak_api.author_name config)
    && truthy_str content = true.
Hypothesis all_answered :
    forall q, answered json_loads repr_other server q = true.
Hypothesis draft_id_is_integer :
    forall p id, data_of json_loads server (POST_draft p) = Some id ->
                 exists post_id, py_int id = Some post_id.
Hypothesis upload_url_is_string :
    forall id img v, data_of json_loads server (POST_uploadFile id img) = Some v ->
                     exists url, v = JStr url.

Lemma markdown_never_raises (text : pystr) (err : exn) :
    markdown text = Raise err -> is_Exception err = true.
Proof.
    intros H. destruct (markdown_total text) as [html Hh].
    rewrite Hh in H. discriminate H.
Qed.

Lemma markdown_no_error : ~ exists text err, markdown text = Raise err.
Proof.
    intros (text & err & H). destruct (markdown_total text) as [html Hh].
    rewrite Hh in H. discriminate H.
Qed.

  (** All five steps go through. *)
Lemma steps_succeed :
    exists sb,
      newsbreak_api.steps markdown json_loads repr_other py_int server config
        env content start = (Ok tt, sb)
      /\ map stage (sent sb) = [1; 2; 3; 4; 5].
Proof.
    destruct (newsbreak_api.steps markdown json_loads repr_other py_int server
                config env content start) as [rb sb] eqn:H.
    exists sb. pose proof H as Hsteps. unfold newsbreak_api.steps in H.
    (* step 1 *)
    unfold bind at 1 in H.
    destruct (newsbreak_api.step_create_draft _ _ _ _ _ _ start)
      as [r1 s1] eqn:E1.
    destruct (create_draft_step markdown json_loads repr_other server config
                env markdown_never_raises _ _ _ _ E1)
      as [(_ & _ & _ & Hno)|(p & Hp & Hs1 & Hr1)];
      [destruct (markdown_no_error Hno)|].
    rewrite all_answered in Hr1. destruct Hr1 as (id & -> & Hid & Htid).
    cbn [sent start app] in Hs1.
    (* step 2 *)
    unfold bind at 1 in H.
    destruct (newsbreak_api.step_upload_image _ _ _ _ id s1) as [r2 s2] eqn:E2.
    destruct (upload_image_step json_loads repr_other server config env
                _ _ _ _ E2)
      as [(_ & _ & Hno)|(img & Himg & Hs2 & Hr2)];
      [rewrite image_there in Hno; discriminate Hno|].
    rewrite all_answered in Hr2. destruct Hr2 as (v & -> & Hv & Htv).
    rewrite Hs1 in Hs2. cbn [app] in Hs2.
    (* step 3 *)
    unfold bind at 1 in H.
    destruct (newsbreak_api.step_update_content _ _ _ _ _ _ s2)
      as [r3 s3] eqn:E3.
    destruct (update_content_step json_loads repr_other server config env
                _ _ _ _ _ E3)
      as [(_ & _ & Hno)|(Hs3 & Hr3)].
    { rewrite content_there_again, content_not_blank in Hno. discriminate Hno. }
    rewrite all_answered in Hr3. subst r3.
    rewrite Hs2 in Hs3. cbn [app] in Hs3.
    (* step 4 *)
    unfold bind at 1 in H.
    destruct (newsbreak_api.step_calculate_nlp _ _ _ _ _ s3)
      as [r4 s4] eqn:E4.
    destruct (calculate_nlp_step json_loads repr_other py_int server env
                _ _ _ _ E4)
      as [(_ & _ & Hno)|(post_id & Hint & Hs4 & Hr4)].
    { destruct (draft_id_is_integer _ _ Hid) as [z Hz].
      rewrite Hz in Hno. discriminate Hno. }
    rewrite all_answered in Hr4. subst r4.
    rewrite Hs3 in Hs4. cbn [app] in Hs4.
    (* step 5 *)
    destruct (publish_step markdown json_loads repr_other server config env
                markdown_never_raises _ _ _ _ _ _ Htv H)
      as [(_ & _ & [Hno|[Hno|Hno]])|(url & payload & _ & Hs5 & _ & _ & _ & _ & _ & _ & Hr5)].
    - destruct (upload_url_is_string _ _ _ Hv) as [url Hu].
      destruct (Hno url Hu).
    - rewrite fields_given, Htid in Hno. discriminate Hno.
    - destruct (markdown_no_error Hno).
    - rewrite all_answered in Hr5. subst rb. split; [reflexivity|].
      rewrite Hs5, Hs4. reflexivity.
Qed.
End Success.

(** X21: a run reaches its end when nothing stands in its way: with a content
    file that is there at both reads and not blank, an image file, a title
    and an author name, a Markdown conversion that accepts every text, a
    backend that answers each request with a response that passes the test
    of its step, a draft identifier that [int] accepts and an upload URL
    that is a string, the run issues the five requests in their order and
    exits with status 0. *)
Theorem run_reaches_published
        (markdown : pystr -> result pystr) (json_loads : pystr -> option jvalue)
        (repr_other : jvalue -> pystr) (py_int : jvalue -> option Z)
        (server : request -> http_result)
        (config : newsbreak_api.ArticleConfig) (env : newsbreak_api.environment)
        (content again : pystr) (image : list N) :
  (forall text, exists html, markdown text = Ok html) ->
  newsbreak_api.content_read env = Some content ->
  newsbreak_api.content_read_again env = Some again ->
  truthy_str (strip again) = true ->
  newsbreak_api.image_read env = Some image ->
  truthy_str (newsbreak_api.title config)
  && truthy_str (newsbreak_api.author_name config)
  && truthy_str content = true ->
  (forall q, answered json_loads repr_other server q = true) ->
  (forall p id, data_of json_loads server (POST_draft p) = Some id ->
                exists post_id, py_int id = Some post_id) ->
  (forall id img v, data_of json_loads server (POST_uploadFile id img) = Some v ->
                    exists url, v = JStr url) ->
  let r := newsbreak_api.run_main markdown json_loads repr_other py_int server
             config env in
  newsbreak_api.status r = 0%Z
  /\ map stage (newsbreak_api.requests r) = [1; 2; 3; 4; 5].
Proof.
  intros Hmd Hc Ha Hb Hi Hf Hall Hint Hurl r. subst r.
  destruct (steps_succeed markdown json_loads repr_other py_int server config
              env content again image Hmd Ha Hb Hi Hf Hall Hint Hurl)
    as (sb & Hsteps & Hstages).
  destruct (run_main_outcome _ _ _ _ _ _ _ _ _ _ Hc Hsteps)
    as (Hsent & Hok & _).
  rewrite Hsent. split; [exact (Hok eq_refl) | exact Hstages].
Qed.

Lemma run_reaches_published_witness :
  newsbreak_api.status (Sample.run Sample.server_ok) = 0%Z
  /\ map stage (newsbreak_api.requests (Sample.run Sample.server_ok))
     = [1; 2; 3; 4; 5].
Proof.
  assert (Hmd : forall text, exists html, Sample.markdown text = Ok html)
    by (intros text; eexists; reflexivity).
  assert (Hall : forall q,
             answered loads_flat Sample.repr_other Sample.server_ok q = true)
    by (intros []; reflexivity).
  assert (Hint : forall p id,
             data_of loads_flat Sample.server_ok (POST_draft p) = Some id ->
             exists post_id, Sample.py_int id = Some post_id).
  { intros p id H. vm_compute in H. injection H as <-. eexists. reflexivity. }
  assert (Hurl : forall id img v,
             data_of loads_flat Sample.server_ok (POST_uploadFile id img)
             = Some v -> exists url, v = JStr url).
  { intros id img v H. vm_compute in H. injection H as <-. eexists.
    reflexivity. }
  exact (run_reaches_published Sample.markdown loads_flat Sample.repr_other
           Sample.py_int Sample.server_ok Sample.config Sample.env
           (lit "**bold** text") (lit "**bold** text") [255; 216; 255]%N
           Hmd eq_refl eq_refl eq_refl eq_refl eq_refl Hall Hint Hurl).
Defined.

Section PostStatus.
Variable markdown : pystr -> result pystr.
Variable json_loads : pystr -> option jvalue.
Variable repr_other : jvalue -> pystr.
Variable py_int : jvalue -> option Z.
Variables server other : request -> http_result.
Variable config : newsbreak_api.ArticleConfig.
Variable env : newsbreak_api.environment.
Hypothesis alike : alike_but_for_post_status server other.

Ltac monad_steps :=
    cbv beta iota zeta delta [bind ret lift raise say sys_exit try_except
                              newsbreak_api.when send fst snd].

Lemma create_draft_step_alike (content : pystr) (s : state) :
    newsbreak_api.step_create_draft markdown json_loads other config env
      content s
    = newsbreak_api.step_create_draft markdown json_loads server config env
        content s.
Proof.
    unfold newsbreak_api.step_create_draft, generate_draft.create_draft.
    monad_steps.
    destruct (generate_draft.build_article_json markdown _ _ _ _ _) as [p|err];
      [|reflexivity].
    pose proof (alike (POST_draft p)) as H. cbv beta iota in H.
    destruct (server (POST_draft p)), (other (POST_draft p));
      try contradiction; subst; reflexivity.
Qed.

Lemma upload_image_step_alike (data_id : jvalue) (s : state) :
    newsbreak_api.step_upload_image json_loads other config env data_id s
    = newsbreak_api.step_upload_image json_loads server config env data_id s.
Proof.
    unfold newsbreak_api.step_upload_image, upload_image.upload_image.
    destruct (newsbreak_api.image_read env) as [image|]; [|reflexivity].
    monad_steps.
    pose proof (alike (POST_uploadFile data_id image)) as H.
    cbv beta iota in H.
    destruct (server (POST_uploadFile data_id image)),
             (other (POST_uploadFile data_id image));
      try contradiction; subst; reflexivity.
Qed.

Lemma update_content_step_alike (content : pystr) (data_id : jvalue)
        (s : state) :
    newsbreak_api.step_update_content json_loads other config env content
      data_id s
    = newsbreak_api.step_update_content json_loads server config env content
        data_id s.
Proof.
    unfold newsbreak_api.step_update_content, put_request.make_put_request.
    destruct (newsbreak_api.content_read_again env) as [again|]; [|reflexivity].
    monad_steps.
    now rewrite (alike (PUT_draft data_id (newsbreak_api.title config) content)).
Qed.

Lemma calculate_nlp_step_alike (data_id : jvalue) (s : state) :
    newsbreak_api.step_calculate_nlp json_loads py_int other env data_id s
    = newsbreak_api.step_calculate_nlp json_loads py_int server env data_id s.
Proof.
    unfold newsbreak_api.step_calculate_nlp, calculate.calculate_nlp.
    destruct (py_int data_id) as [post_id|]; [|reflexivity].
    monad_steps.
    pose proof (alike (POST_nlp_calculate post_id)) as H.
    cbv beta iota in H.
    destruct (server (POST_nlp_calculate post_id)),
             (other (POST_nlp_calculate post_id));
      try contradiction; subst; try reflexivity.
    unfold decoding_of. destruct (json_loads _); reflexivity.
Qed.

Lemma make_publish_alike
        (title author_name author_url article_credit image_link image_credit
         article_content : pystr) (data_id : jvalue) (location : pystr)
        (rewrited assisted : bool) (e : draws) (s : state) :
    make_publish.make_publish markdown json_loads repr_other other title
      author_name author_url article_credit image_link image_credit
      article_content data_id location rewrited assisted e s
    = make_publish.make_publish markdown json_loads repr_other server title
        author_name author_url article_credit image_link image_credit
        article_content data_id location rewrited assisted e s.
Proof.
    destruct (truthy_str title && truthy_str author_name
              && truthy_str article_content && truthy data_id) eqn:Hreq.
    2:{ unfold make_publish.make_publish. now rewrite Hreq. }
    destruct (make_publish.location_allowed location) eqn:Hloc.
    2:{ unfold make_publish.make_publish. rewrite Hreq. cbn [negb].
        unfold bind, lift, make_publish.validate_location.
        now rewrite Hloc. }
    destruct (make_publish.render_fields markdown image_credit article_content
                article_credit) as [[[ric html] rac]|err] eqn:Hrender.
    2:{ unfold make_publish.make_publish. rewrite Hreq. cbn [negb].
        unfold bind at 1 3. unfold lift at 1 3.
        unfold make_publish.validate_location. rewrite Hloc. cbn [negb].
        unfold try_except, bind, lift. rewrite Hrender.
        destruct err; reflexivity. }
    assert (Hblock : (if truthy_str image_link
                      then make_publish.create_image_block image_link ric
                      else Ok [])
                     = Ok (if truthy_str image_link
                           then image_block_markup
                                  (quote_from_bytes
                                     (dumps (info_dict image_link ric 1500 1000)))
                                  image_link ric (lit "1500") (lit "1000")
                           else [])).
    { unfold make_publish.create_image_block. rewrite quote_dumps.
      now destruct (truthy_str image_link). }
    rewrite (make_publish_outcome markdown json_loads repr_other other
               title author_name author_url article_credit image_link
               image_credit article_content data_id location rewrited
               assisted e s ric html rac _ Hreq Hloc Hrender Hblock).
    rewrite (make_publish_outcome markdown json_loads repr_other server
               title author_name author_url article_credit image_link
               image_credit article_content data_id location rewrited
               assisted e s ric html rac _ Hreq Hloc Hrender Hblock).
    cbv zeta.
    match goal with
    | |- context [other (PUT_publish ?i ?p)] =>
        now rewrite (alike (PUT_publish i p))
    end.
Qed.

Lemma publish_step_alike (content : pystr) (data_id image_url : jvalue)
        (s : state) :
    newsbreak_api.step_publish markdown json_loads repr_other other config env
      content data_id image_url s
    = newsbreak_api.step_publish markdown json_loads repr_other server config
        env content data_id image_url s.
Proof.
    unfold newsbreak_api.step_publish.
    destruct image_url as [|b|z|f|url|items|d]; try reflexivity.
    cbv beta iota zeta delta [try_except bind lift newsbreak_api.as_str].
    now rewrite make_publish_alike.
Qed.

Lemma run_main_alike :
    newsbreak_api.run_main markdown json_loads repr_other py_int other config
      env
    = newsbreak_api.run_main markdown json_loads repr_other py_int server
        config env.
Proof.
    unfold newsbreak_api.run_main, newsbreak_api.main.
    destruct (newsbreak_api.content_read env) as [content|]; [|reflexivity].
    assert (Hsteps :
      newsbreak_api.steps markdown json_loads repr_other py_int other config
        env content start
      = newsbreak_api.steps markdown json_loads repr_other py_int server
          config env content start).
    { unfold newsbreak_api.steps.
      unfold bind at 1 5. rewrite create_draft_step_alike.
      destruct (newsbreak_api.step_create_draft _ _ server _ _ _ _)
        as [[id|e1] s1]; [|reflexivity].
      unfold bind at 1 4. rewrite upload_image_step_alike.
      destruct (newsbreak_api.step_upload_image _ server _ _ _ _)
        as [[url|e2] s2]; [|reflexivity].
      unfold bind at 1 3. rewrite update_content_step_alike.
      destruct (newsbreak_api.step_update_content _ server _ _ _ _ _)
        as [[u3|e3] s3]; [|reflexivity].
      unfold bind at 1 2. rewrite calculate_nlp_step_alike.
      destruct (newsbreak_api.step_calculate_nlp _ _ server _ _ _)
        as [[u4|e4] s4]; [|reflexivity].
      apply publish_step_alike. }
    unfold try_except. now rewrite Hsteps.
Qed.
End PostStatus.

(** X22: the status code of the response counts only for the two [PUT]
    requests.  For the three [POST] requests (draft, upload, NLP) the run
    looks at the body alone: a backend that answers them with other status
    codes, and everything else alike, gets the same requests and the same
    exit status.  Stated for backends whose upload responses carry a URL
    that is a string, when they carry one. *)
Theorem run_ignores_status_of_posts
        (markdown : pystr -> result pystr) (json_loads : pystr -> option jvalue)
        (repr_other : jvalue -> pystr) (py_int : jvalue -> option Z)
        (server other : request -> http_result)
        (config : newsbreak_api.ArticleConfig) (env : newsbreak_api.environment) :
  alike_but_for_post_status server other ->
  (forall id image v,
     data_of json_loads server (POST_uploadFile id image) = Some v ->
     truthy v = true -> exists url, v = JStr url) ->
  (forall id image v,
     data_of json_loads other (POST_uploadFile id image) = Some v ->
     truthy v = true -> exists url, v = JStr url) ->
  newsbreak_api.status
    (newsbreak_api.run_main markdown json_loads repr_other py_int other
       config env)
  = newsbreak_api.status
      (newsbreak_api.run_main markdown json_loads repr_other py_int server
         config env)
  /\ newsbreak_api.requests
       (newsbreak_api.run_main markdown json_loads repr_other py_int other
          config env)
     = newsbreak_api.requests
         (newsbreak_api.run_main markdown json_loads repr_other py_int server
            config env).
Proof.
  intros H _ _.
  now rewrite (run_main_alike markdown json_loads repr_other py_int server
                 other config env H).
Qed.

Lemma run_ignores_status_of_posts_witness :
  alike_but_for_post_status Sample.server_ok Cases.server_ok_with_500
  /\ newsbreak_api.status (Sample.run Cases.server_ok_with_500)
     = newsbreak_api.status (Sample.run Sample.server_ok).
Proof.
  assert (H : alike_but_for_post_status Sample.server_ok
                Cases.server_ok_with_500) by (intros []; reflexivity).
  assert (Hurl : forall id image v,
             data_of loads_flat Sample.server_ok (POST_uploadFile id image)
             = Some v ->
             truthy v = true -> exists url, v = JStr url).
  { intros id image v E _. vm_compute in E. injection E as <-. eexists.
    reflexivity. }
  assert (Hurl' : forall id image v,
             data_of loads_flat Cases.server_ok_with_500
               (POST_uploadFile id image) = Some v ->
             truthy v = true -> exists url, v = JStr url).
  { intros id image v E _. vm_compute in E. injection E as <-. eexists.
    reflexivity. }
  split; [exact H|].
  exact (proj1 (run_ignores_status_of_posts Sample.markdown loads_flat
                  Sample.repr_other Sample.py_int Sample.server_ok
                  Cases.server_ok_with_500 Sample.config Sample.env H Hurl
                  Hurl')).
Defined.

(* ================================================================== *)
(** * What a run prints on its way out                                 *)
(* ================================================================== *)

Section Reports.

Lemma reports_quiet {A} (m : M A) :
  (forall s code, fst (m s) <> Raise (SystemExit code)) -> reports m.
Proof.
  intros H s r s' code E Hr. exfalso. apply (H s code). now rewrite E.
Qed.

Lemma reports_ret {A} (a : A) : reports (ret a).
Proof. apply reports_quiet. discriminate. Qed.

Lemma reports_say (m : message) : reports (say m).
Proof. apply reports_quiet. discriminate. Qed.

Lemma reports_send (server : request -> http_result) (q : request) :
  reports (send server q).
Proof.
  apply reports_quiet. intros s code. unfold send.
  destruct (server q); discriminate.
Qed.

Lemma reports_raise {A} (e : exn) : is_Exception e = true -> reports (@raise A e).
Proof.
  intros He. apply reports_quiet. intros s code H. cbn in H.
  injection H as ->. discriminate He.
Qed.

Lemma reports_lift {A} (r : result A) :
  (forall e, r = Raise e -> is_Exception e = true) -> reports (lift r).
Proof.
  intros He. apply reports_quiet. intros s code H. cbn in H.
  specialize (He _ H). discriminate He.
Qed.

Lemma reports_exit {A} (m : message) :
  failure_line m = true -> reports (bind (say m) (fun _ => @sys_exit A 1)).
Proof.
  intros Hm s r s' code E Hr. cbn in E. injection E as <- <-.
  injection Hr as <-. split; [reflexivity|]. cbn [printed]. eauto.
Qed.

Lemma reports_bind {A B} (m : M A) (k : A -> M B) :
  reports m -> (forall a, reports (k a)) -> reports (bind m k).
Proof.
  intros Hm Hk s r s' code E Hr. unfold bind in E.
  destruct (m s) as [[a|e] s1] eqn:Em.
  - exact (Hk a _ _ _ _ E Hr).
  - injection E as <- <-. injection Hr as ->.
    exact (Hm _ _ _ _ Em eq_refl).
Qed.

Lemma reports_try {A} (body : M A) (selects : exn -> bool) (handler : exn -> M A) :
  reports body -> (forall code, selects (SystemExit code) = false) ->
  (forall e, reports (handler e)) ->
  reports (try_except body selects handler).
Proof.
  intros Hb Hsel Hh s r s' code E Hr. unfold try_except in E.
  destruct (body s) as [[a|e] s1] eqn:Eb.
  - injection E as <- <-. discriminate Hr.
  - destruct (selects e) eqn:Es.
    + exact (Hh e _ _ _ _ E Hr).
    + injection E as <- <-. exact (Hb _ _ _ _ Eb Hr).
Qed.

Lemma reports_when (c : bool) (m : M unit) :
  reports m -> reports (newsbreak_api.when c m).
Proof. intros H. destruct c; [exact H | apply reports_ret]. Qed.

End Reports.

Ltac reports_step :=
  first
    [ apply reports_ret | apply reports_say | apply reports_send
    | apply reports_exit; reflexivity
    | apply reports_raise; reflexivity
    | apply reports_when
    | apply reports_bind; [|intros]
    | apply reports_try; [|reflexivity|intros]
    | match goal with
      | |- reports (match ?x with _ => _ end) => destruct x
      | |- reports (if ?c then _ else _) => destruct c
      | |- reports (let '(_, _) := ?x in _) => destruct x
      end ].

Ltac reports_auto := repeat reports_step.

Section RunReports.
Variable markdown : pystr -> result pystr.
Variable json_loads : pystr -> option jvalue.
Variable repr_other : jvalue -> pystr.
Variable py_int : jvalue -> option Z.
Variable server : request -> http_result.
Variable config : newsbreak_api.ArticleConfig.
Variable env : newsbreak_api.environment.
Hypothesis markdown_raises :
    forall text err, markdown text = Raise err -> is_Exception err = true.

Lemma reports_process_json_response (text : pystr) :
    reports (newsbreak_api.process_json_response json_loads text).
Proof. unfold newsbreak_api.process_json_response. reports_auto. Qed.

Lemma reports_get (v : jvalue) (key : pystr) (default : jvalue) :
    reports (lift (newsbreak_api.get v key default)).
Proof.
    apply reports_lift. intros e H. destruct v; try discriminate H;
      injection H as <-; reflexivity.
Qed.

Lemma reports_create_draft (content : pystr) :
    reports (newsbreak_api.step_create_draft markdown json_loads server config
               env content).
Proof.
    unfold newsbreak_api.step_create_draft, generate_draft.create_draft.
    apply reports_bind.
    - apply reports_bind; [|intros; reports_auto].
      apply reports_lift. intros e H.
      destruct (build_article_json_stops markdown _ _ _ _ _ _ H) as [t Ht].
      eauto.
    - intros [[status_code text] rid].
      apply reports_bind; [apply reports_process_json_response|intros].
      apply reports_bind; [reports_auto|intros].
      apply reports_bind; [apply reports_get|intros]. reports_auto.
Qed.

Lemma reports_upload_image (data_id : jvalue) :
    reports (newsbreak_api.step_upload_image json_loads server config env
               data_id).
Proof.
    unfold newsbreak_api.step_upload_image, upload_image.upload_image.
    apply reports_bind.
    - destruct (newsbreak_api.image_read env); reports_auto.
    - intros [[status_code text] rid].
      apply reports_bind; [apply reports_process_json_response|intros].
      apply reports_bind; [reports_auto|intros].
      apply reports_bind; [apply reports_get|intros]. reports_auto.
Qed.

Lemma reports_update_content (content : pystr) (data_id : jvalue) :
    reports (newsbreak_api.step_update_content json_loads server config env
               content data_id).
Proof.
    unfold newsbreak_api.step_update_content, put_request.make_put_request.
    apply reports_try; [|reflexivity|intros; reports_auto].
    destruct (newsbreak_api.content_read_again env); [|reports_auto].
    apply reports_bind; [reports_auto|intros].
    apply reports_bind; [reports_auto|].
    intros [[status_code text] rid]. reports_auto.
Qed.

Lemma reports_calculate_nlp (data_id : jvalue) :
    reports (newsbreak_api.step_calculate_nlp json_loads py_int server env
               data_id).
Proof.
    unfold newsbreak_api.step_calculate_nlp, calculate.calculate_nlp.
    apply reports_bind; [destruct (py_int data_id); reports_auto|intros].
    apply reports_bind.
    { apply reports_bind; [apply reports_send|intros response].
      apply reports_bind; [|intros; apply reports_ret].
      unfold decoding_of. destruct (json_loads (snd response));
        apply reports_ret. }
    intros [[status_code v] rid].
    apply reports_bind; [apply reports_get|intros].
    apply reports_bind; [apply reports_get|intros].
    destruct (_ && _); [reports_auto|].
    apply reports_bind; [apply reports_get|intros]. reports_auto.
Qed.

Lemma reports_make_publish
        (title author_name author_url article_credit image_link image_credit
         article_content : pystr) (data_id : jvalue) (location : pystr)
        (rewrited assisted : bool) (e : draws) :
    reports (make_publish.make_publish markdown json_loads repr_other server
               title author_name author_url article_credit image_link
               image_credit article_content data_id location rewrited
               assisted e).
Proof.
    apply reports_quiet. intros s code H.
    destruct (make_publish.make_publish _ _ _ _ _ _ _ _ _ _ _ _ _ _ _ _ s)
      as [r s'] eqn:E.
    cbn [fst] in H. subst r.
    destruct (make_publish_cases _ _ _ _ _ _ _ _ _ _ _ _ _ _ _ _ _ _ _ E)
      as [(_ & _ & Hr)|[(_ & _ & _ & Hr)|[(_ & _ & _ & er & Hrender & Hr)
         |(_ & _ & payload & _ & _ & _ & _ & _ & _ & _ & _ & _ & Hr)]]];
      try discriminate Hr.
    - destruct (render_fields_raises _ _ _ _ _ Hrender) as [text Htext].
      rewrite (markdown_raises _ _ Htext) in Hr. discriminate Hr.
    - destruct (server (PUT_publish data_id payload)) as [st text|msg];
        [destruct (make_publish.validate_response _ _ _ _) as [[|] m]|];
        discriminate Hr.
Qed.

Lemma reports_publish (content : pystr) (data_id image_url : jvalue) :
    reports (newsbreak_api.step_publish markdown json_loads repr_other server
               config env content data_id image_url).
Proof.
    unfold newsbreak_api.step_publish.
    apply reports_try; [|intros; reflexivity|intros; reports_auto].
    apply reports_bind.
    - apply reports_lift. intros e H. destruct image_url; try discriminate H;
        injection H as <-; reflexivity.
    - intros uploaded. apply reports_bind; [apply reports_make_publish|].
      intros [[st text] rid]. apply reports_say.
Qed.

Lemma reports_main :
    reports (newsbreak_api.main markdown json_loads repr_other py_int server
               config env).
Proof.
    unfold newsbreak_api.main, newsbreak_api.steps.
    destruct (newsbreak_api.content_read env) as [content|];
      [|reports_auto].
    apply reports_try; [|intros; reflexivity|intros; reports_auto].
    apply reports_bind; [apply reports_create_draft|intros data_id].
    apply reports_bind; [apply reports_upload_image|intros image_url].
    apply reports_bind; [apply reports_update_content|intros _].
    apply reports_bind; [apply reports_calculate_nlp|intros _].
    apply reports_publish.
Qed.
End RunReports.

(** Follows a computation that ended well through its tests. *)
Ltac went_well H :=
  run_in H;
  cbn [negb andb newsbreak_api.get newsbreak_api.as_str is_Exception] in H;
  run_in H;
  lazymatch type of H with
  | (Raise _, _) = (Ok _, _) => discriminate H
  | (Ok _, _) = (Ok _, _) => idtac
  | ?lhs = _ =>
      let rec inner t :=
        lazymatch t with
        | match ?x with _ => _ end => inner x
        | if ?x then _ else _ => inner x
        | (match ?x with _ => _ end) _ => inner x
        | (if ?x then _ else _) _ => inner x
        | _ => destruct t eqn:?
        end in
      inner lhs; went_well H
  end.

Section RunPrints.
Variable markdown : pystr -> result pystr.
Variable json_loads : pystr -> option jvalue.
Variable repr_other : jvalue -> pystr.
Variable py_int : jvalue -> option Z.
Variable server : request -> http_result.
Variable config : newsbreak_api.ArticleConfig.
Variable env : newsbreak_api.environment.

Lemma create_draft_quiet (content : pystr) (s : state) (id : jvalue)
        (s' : state) :
    newsbreak_api.step_create_draft markdown json_loads server config env
      content s = (Ok id, s') ->
    printed s' = printed s.
Proof.
    unfold newsbreak_api.step_create_draft, generate_draft.create_draft,
      newsbreak_api.process_json_response.
    intros H. went_well H. all: injection H as _ <-; reflexivity.
Qed.

Lemma upload_image_quiet (data_id : jvalue) (s : state) (url : jvalue)
        (s' : state) :
    newsbreak_api.step_upload_image json_loads server config env data_id s
    = (Ok url, s') ->
    printed s' = printed s.
Proof.
    unfold newsbreak_api.step_upload_image, upload_image.upload_image,
      newsbreak_api.process_json_response.
    intros H. went_well H. all: injection H as _ <-; reflexivity.
Qed.

Lemma update_content_quiet (content : pystr) (data_id : jvalue) (s : state)
        (u : unit) (s' : state) :
    newsbreak_api.step_update_content json_loads server config env content
      data_id s = (Ok u, s') ->
    printed s' = printed s.
Proof.
    unfold newsbreak_api.step_update_content, put_request.make_put_request.
    intros H. went_well H. all: injection H as _ <-; reflexivity.
Qed.

Lemma calculate_nlp_prints (data_id : jvalue) (s : state) (u : unit)
        (s' : state) :
    newsbreak_api.step_calculate_nlp json_loads py_int server env data_id s
    = (Ok u, s') ->
    printed s' = printed s ++ [NlpSucceeded].
Proof.
    unfold newsbreak_api.step_calculate_nlp, calculate.calculate_nlp.
    intros H. went_well H. all: injection H as _ <-; reflexivity.
Qed.

Lemma publish_prints (content : pystr) (data_id image_url : jvalue)
        (s : state) (u : unit) (s' : state) :
    newsbreak_api.step_publish markdown json_loads repr_other server config
      env content data_id image_url s = (Ok u, s') ->
    printed s' = printed s ++ [PublishStatus 200].
Proof.
    unfold newsbreak_api.step_publish, try_except. intros H.
    unfold bind at 1, lift at 1 in H.
    destruct image_url as [|b|z|f|url|items|d]; try discriminate H.
    cbn [newsbreak_api.as_str] in H. unfold bind at 1 in H.
    destruct (make_publish.make_publish markdown json_loads repr_other server
                _ _ _ _ _ _ _ _ _ _ _ _ s) as [rp sp] eqn:Hmp.
    destruct (make_publish_cases _ _ _ _ _ _ _ _ _ _ _ _ _ _ _ _ _ _ _ Hmp)
      as [(_ & _ & ->)|[(_ & _ & _ & ->)|[(_ & _ & _ & er & _ & ->)
         |(_ & _ & payload & -> & _ & _ & _ & _ & _ & _ & _ & _ & ->)]]];
      try discriminate H.
    - destruct er; discriminate H.
    - destruct (server (PUT_publish data_id payload)) as [st text|msg];
        [|discriminate H].
      destruct (make_publish.validate_response json_loads repr_other st text)
        as [[|] m] eqn:Hv; [|discriminate H].
      assert (Hst : st = 200%Z).
      { unfold make_publish.validate_response in Hv.
        destruct (st =? 200)%Z eqn:E; [now apply Z.eqb_eq in E|].
        discriminate Hv. }
      subst st. run_in H. injection H as _ <-. reflexivity.
Qed.

Lemma steps_print (content : pystr) (s : state) (u : unit) (s' : state) :
    newsbreak_api.steps markdown json_loads repr_other py_int server config
      env content s = (Ok u, s') ->
    printed s' = printed s ++ [NlpSucceeded; PublishStatus 200].
Proof.
    unfold newsbreak_api.steps. intros H.
    unfold bind at 1 in H.
    destruct (newsbreak_api.step_create_draft _ _ _ _ _ _ s)
      as [[data_id|e] s1] eqn:E1; [|discriminate H].
    unfold bind at 1 in H.
    destruct (newsbreak_api.step_upload_image _ _ _ _ _ s1)
      as [[image_url|e] s2] eqn:E2; [|discriminate H].
    unfold bind at 1 in H.
    destruct (newsbreak_api.step_update_content _ _ _ _ _ _ s2)
      as [[u3|e] s3] eqn:E3; [|discriminate H].
    unfold bind at 1 in H.
    destruct (newsbreak_api.step_calculate_nlp _ _ _ _ _ s3)
      as [[u4|e] s4] eqn:E4; [|discriminate H].
    apply publish_prints in H. apply calculate_nlp_prints in E4.
    apply update_content_quiet in E3. apply upload_image_quiet in E2.
    apply create_draft_quiet in E1.
    rewrite H, E4, E3, E2, E1, <- app_assoc. reflexivity.
Qed.
End RunPrints.

(** X23: a run that exits with status 1 has told why: the last line it
    printed is a failure line.  A run that exits with status 0 has printed
    no failure line at all, only the success of the NLP calculation and the
    publish status 200.  No other exit status occurs.  Stated for a
    backend whose upload responses carry a URL that is a string, when they
    carry one. *)
Theorem run_tells_its_outcome
        (markdown : pystr -> result pystr) (json_loads : pystr -> option jvalue)
        (repr_other : jvalue -> pystr) (py_int : jvalue -> option Z)
        (server : request -> http_result)
        (config : newsbreak_api.ArticleConfig) (env : newsbreak_api.environment) :
  (forall text err, markdown text = Raise err -> is_Exception err = true) ->
  (forall id image v,
     data_of json_loads server (POST_uploadFile id image) = Some v ->
     truthy v = true -> exists url, v = JStr url) ->
  let r := newsbreak_api.run_main markdown json_loads repr_other py_int server
             config env in
  (newsbreak_api.status r = 0%Z
   /\ newsbreak_api.output r = [NlpSucceeded; PublishStatus 200])
  \/ (newsbreak_api.status r = 1%Z
      /\ exists before line,
           newsbreak_api.output r = before ++ [line]
           /\ failure_line line = true).
Proof.
  intros Hmd _ r. subst r. unfold newsbreak_api.run_main.
  destruct (newsbreak_api.main markdown json_loads repr_other py_int server
              config env start) as [rm sm] eqn:Hmain.
  cbn [newsbreak_api.status newsbreak_api.output].
  destruct rm as [u|e].
  - left. split; [reflexivity|].
    unfold newsbreak_api.main in Hmain.
    destruct (newsbreak_api.content_read env) as [content|];
      [|discriminate Hmain].
    unfold try_except in Hmain.
    destruct (newsbreak_api.steps _ _ _ _ _ _ _ _ start) as [[u'|e] sb] eqn:Hs.
    + injection Hmain as _ <-. apply steps_print in Hs. exact Hs.
    + destruct (is_Exception e); discriminate Hmain.
  - right.
    assert (He : exists code, e = SystemExit code).
    { unfold newsbreak_api.main in Hmain.
      destruct (newsbreak_api.content_read env) as [content|].
      - unfold try_except in Hmain.
        destruct (newsbreak_api.steps _ _ _ _ _ _ _ _ start)
          as [[u'|e'] sb] eqn:Hs; [discriminate Hmain|].
        destruct (is_Exception e') eqn:Hexc.
        + injection Hmain as <- _. eauto.
        + injection Hmain as <- _. destruct e'; try discriminate Hexc. eauto.
      - injection Hmain as <- _. eauto. }
    destruct He as [code ->].
    destruct (reports_main markdown json_loads repr_other py_int server config
                env Hmd _ _ _ _ Hmain eq_refl) as [-> Hlast].
    split; [reflexivity | exact Hlast].
Qed.

Lemma run_tells_its_outcome_witness :
  let r := newsbreak_api.run_main Sample.markdown loads_flat Sample.repr_other
             Sample.py_int Sample.server_nlp_busy Sample.config Sample.env in
  (newsbreak_api.status r = 0%Z
   /\ newsbreak_api.output r = [NlpSucceeded; PublishStatus 200])
  \/ (newsbreak_api.status r = 1%Z
      /\ exists before line,
           newsbreak_api.output r = before ++ [line]
           /\ failure_line line = true).
Proof.
  apply (run_tells_its_outcome Sample.markdown loads_flat Sample.repr_other
           Sample.py_int Sample.server_nlp_busy Sample.config Sample.env).
  - intros text err H. discriminate H.
  - intros id image v H _. vm_compute in H. injection H as <-. eexists.
    reflexivity.
Defined.
